(** * Culinary API server: recipes, categories and the auth pipeline

    A shallow embedding of the server side of the culinary repository:
    the Mongoose models [Recipe] and [Category] with their save hooks and
    instance methods, the recipe and category controllers, and the
    [protect] middleware.  JavaScript numbers that the code keeps integral
    (minutes, counters, ratings, page numbers) are integers of [Z];
    quotients ([averageRating], [total / limit]) are exact rationals of
    [Q].  Object ids are their hexadecimal strings.  Collections are
    finite maps from id to document. *)

From Stdlib Require Import ZArith QArith Qround Ascii.
From stdpp Require Import gmap strings list sorting pretty.

Set Warnings "-clear-no-such-hyp".

Abbreviation ObjectId := string (only parsing).

(** ** JavaScript primitives used by the server code *)

Module JS.

(** [Math.round]: the nearest integer, halves going up. *)
Definition Math_round (x : Q) : Z := Qfloor (x + (1 # 2)).

(** [Math.ceil]. *)
Definition Math_ceil (x : Q) : Z := Qceiling x.

(** Truthiness of an optional string: [undefined], [null] and the empty
    string are falsy. *)
Definition truthy_str (s : option string) : bool :=
  match s with
  | Some (String _ _) => true
  | _ => false
  end.

(** A string inside a template literal; [undefined] prints as such. *)
Definition template_str (s : option string) : string :=
  default "undefined" s.

(** Strings are sequences of code units; the model covers the code units
    below 256 (ASCII and Latin-1), the range of [ascii]. *)
Definition chars (s : string) : list ascii := String.list_ascii_of_string s.
Definition str (l : list ascii) : string := String.string_of_list_ascii l.

Definition code (c : ascii) : N := N_of_ascii c.

Definition in_range (lo hi : N) (c : ascii) : bool :=
  ((lo <=? code c) && (code c <=? hi))%N.

Definition is_digit (c : ascii) : bool := in_range 48 57 c.
Definition is_lower (c : ascii) : bool := in_range 97 122 c.
Definition is_upper (c : ascii) : bool := in_range 65 90 c.
Definition is_hyphen (c : ascii) : bool := (code c =? 45)%N.

(** The class [\s] of a regular expression, which is also what [trim]
    removes: tab, line feed, vertical tab, form feed, carriage return,
    space and the no-break space. *)
Definition is_space (c : ascii) : bool :=
  in_range 9 13 c || (code c =? 32)%N || (code c =? 160)%N.

(** The class [\w]. *)
Definition is_word (c : ascii) : bool :=
  is_digit c || is_lower c || is_upper c || (code c =? 95)%N.

(** [toLowerCase] and [toUpperCase] on one code unit: the letters A-Z
    and the Latin-1 capitals (all of 192..222 but the multiplication
    sign) against their small letters.  The three small letters whose
    capital lies outside the range (sharp s, y with diaeresis, micro
    sign) are left as they are by [upper_char]. *)
Definition lower_char (c : ascii) : ascii :=
  if is_upper c || (in_range 192 222 c && negb (code c =? 215)%N)
  then ascii_of_N (code c + 32) else c.

Definition upper_char (c : ascii) : ascii :=
  if is_lower c || (in_range 224 254 c && negb (code c =? 247)%N)
  then ascii_of_N (code c - 32) else c.

Definition toLowerCase (s : list ascii) : list ascii := lower_char <$> s.
Definition toUpperCase (s : list ascii) : list ascii := upper_char <$> s.

(** [s.replace(/[C]/g, '')] for a character class [C]. *)
Definition remove_class (C : ascii -> bool) (s : list ascii) : list ascii :=
  List.filter (fun c => negb (C c)) s.

(** [s.replace(/[C]+/g, by)]: every maximal run of characters of the
    class becomes one copy of [by]. *)
Fixpoint replace_runs_from (C : ascii -> bool) (by_ : list ascii)
    (in_run : bool) (s : list ascii) : list ascii :=
  match s with
  | [] => []
  | c :: s' =>
      if C c then
        if in_run then replace_runs_from C by_ true s'
        else by_ ++ replace_runs_from C by_ true s'
      else c :: replace_runs_from C by_ false s'
  end.

Definition replace_runs (C : ascii -> bool) (by_ : list ascii)
    (s : list ascii) : list ascii :=
  replace_runs_from C by_ false s.

Fixpoint trimStart (s : list ascii) : list ascii :=
  match s with
  | c :: s' => if is_space c then trimStart s' else s
  | [] => []
  end.

(** [String.prototype.trim] takes no argument; one that is passed is
    ignored. *)
Definition trim (s : list ascii) : list ascii :=
  rev (trimStart (rev (trimStart s))).

(** [s.split(sep)] for a separator of one character. *)
Fixpoint split_from (sep : ascii) (cur : list ascii) (s : list ascii)
    : list (list ascii) :=
  match s with
  | [] => [rev cur]
  | c :: s' =>
      if decide (c = sep) then rev cur :: split_from sep [] s'
      else split_from sep (c :: cur) s'
  end.

Definition split (sep : ascii) (s : string) : list string :=
  str <$> split_from sep [] (chars s).

(** [parts.join(sep)]. *)
Fixpoint join (sep : string) (parts : list string) : string :=
  match parts with
  | [] => ""
  | [p] => p
  | p :: ps => p +:+ sep +:+ join sep ps
  end.

Definition startsWith (p s : string) : bool := String.prefix p s.

(** The value of a digit in a radix up to 16, when it is one. *)
Definition digit_value (radix : N) (c : ascii) : option N :=
  let v :=
    if is_digit c then Some (code c - 48)%N
    else if in_range 97 102 c then Some (code c - 87)%N
    else if in_range 65 70 c then Some (code c - 55)%N
    else None in
  match v with
  | Some d => if (d <? radix)%N then Some d else None
  | None => None
  end.

(** The longest prefix of digits, read in the radix; [None] when there
    is no digit. *)
Fixpoint read_digits (radix : N) (acc : option N) (s : list ascii) : option N :=
  match s with
  | [] => acc
  | c :: s' =>
      match digit_value radix c with
      | Some d => read_digits radix (Some (default 0 acc * radix + d)%N) s'
      | None => acc
      end
  end.

(** [parseInt(s, radix)] for radix 10 ([Some 10]) or the absent radix
    ([None]), which reads a 0x prefix as hexadecimal.  [None] is NaN. *)
Definition parseInt (s : string) (radix : option N) : option Z :=
  let s0 := trimStart (chars s) in
  let '(neg, s1) :=
    match s0 with
    | c :: r => if (code c =? 45)%N then (true, r)
                else if (code c =? 43)%N then (false, r) else (false, s0)
    | [] => (false, s0)
    end in
  let '(rdx, s2) :=
    match radix, s1 with
    | None, c0 :: c1 :: r =>
        if (code c0 =? 48)%N && ((code c1 =? 120)%N || (code c1 =? 88)%N)
        then (16%N, r) else (10%N, s1)
    | _, _ => (10%N, s1)
    end in
  match read_digits rdx None s2 with
  | Some n => Some (if neg then - Z.of_N n else Z.of_N n)%Z
  | None => None
  end.

(** [x || d] for a number [x]: NaN and 0 are falsy. *)
Definition num_or (x : option Z) (d : Z) : Z :=
  match x with
  | Some n => if (n =? 0)%Z then d else n
  | None => d
  end.

End JS.

(** ** Errors and results of request handlers *)

(** [AppError(message, statusCode)] of middleware/errorHandler.js, and the
    exceptions that reach [catchAsync] from the runtime or the store. *)
Inductive Error :=
| AppError (message : string) (statusCode : Z)
| TypeError
| StoreError.

Inductive Result (A : Type) :=
| Ok (a : A)
| Err (e : Error).
Arguments Ok {A} a.
Arguments Err {A} e.

(** ** The Recipe model (models/Recipe.js) *)

Module Recipe.

Inductive Status := draft | published | archived | pending_review.
Inductive Visibility := public | private | friends_only.

#[global] Instance Status_eq_dec : EqDecision Status.
Proof. solve_decision. Defined.
#[global] Instance Visibility_eq_dec : EqDecision Visibility.
Proof. solve_decision. Defined.

Definition status_name (s : Status) : string :=
  match s with
  | draft => "draft"
  | published => "published"
  | archived => "archived"
  | pending_review => "pending_review"
  end.

Definition visibility_name (v : Visibility) : string :=
  match v with
  | public => "public"
  | private => "private"
  | friends_only => "friends_only"
  end.

(** ratingSchema: the fields the server code reads and writes. *)
Record Rating := {
  user : ObjectId;
  rating : Z;
  review : option string
}.

(** recipeSchema.  [totalTime] has no default: it is undefined until the
    first save. *)
Record t := {
  _id : ObjectId;
  title : string;
  prepTime : Z;
  cookTime : Z;
  totalTime : option Z;
  difficulty : string;
  category : ObjectId;
  cuisine : string;
  dietaryRestrictions : list string;
  ratings : list Rating;
  averageRating : Q;
  totalRatings : Z;
  bookmarks : list ObjectId;
  author : ObjectId;
  status : Status;
  visibility : Visibility;
  views : Z
}.

Definition set_totalTime (v : option Z) (r : t) : t :=
  let '(Build_t a b c d _ f g h i j k l m n o p q) := r in
  Build_t a b c d v f g h i j k l m n o p q.

Definition set_ratings (v : list Rating) (r : t) : t :=
  let '(Build_t a b c d e f g h i _ k l m n o p q) := r in
  Build_t a b c d e f g h i v k l m n o p q.

Definition set_averageRating (v : Q) (r : t) : t :=
  let '(Build_t a b c d e f g h i j _ l m n o p q) := r in
  Build_t a b c d e f g h i j v l m n o p q.

Definition set_totalRatings (v : Z) (r : t) : t :=
  let '(Build_t a b c d e f g h i j k _ m n o p q) := r in
  Build_t a b c d e f g h i j k v m n o p q.

Definition set_bookmarks (v : list ObjectId) (r : t) : t :=
  let '(Build_t a b c d e f g h i j k l _ n o p q) := r in
  Build_t a b c d e f g h i j k l v n o p q.

Definition set_views (v : Z) (r : t) : t :=
  let '(Build_t a b c d e f g h i j k l m n o p _) := r in
  Build_t a b c d e f g h i j k l m n o p v.

(** recipeSchema.pre('save'), first hook:
    [this.totalTime = this.prepTime + this.cookTime]. *)
Definition preSave_totalTime (this : t) : t :=
  set_totalTime (Some (prepTime this + cookTime this)%Z) this.

(** recipeSchema.pre('save'), second hook.  The [reduce] starts from 0 and
    adds [rating.rating] from the left. *)
Definition preSave_averageRating (this : t) : t :=
  if bool_decide (0 < length (ratings this))%nat then
    let totalRating :=
      foldl (fun sum rating0 => (sum + rating rating0)%Z) 0%Z (ratings this) in
    let len := Z.of_nat (length (ratings this)) in
    set_totalRatings len
      (set_averageRating
         (inject_Z (JS.Math_round (inject_Z totalRating / inject_Z len * 10))
          / 10)%Q this)
  else this.

(** The save middleware chain, in registration order. *)
Definition preSave (this : t) : t :=
  preSave_averageRating (preSave_totalTime this).

(** [this.ratings.filter(r => !r.user.equals(userId))] followed by the
    [push] of addRating; the caller saves the result. *)
Definition addRating_ratings (userId : ObjectId) (rating0 : Z)
    (review0 : option string) (this : t) : t :=
  let kept := filter (fun r => user r ≠ userId) (ratings this) in
  set_ratings (kept ++ [{| user := userId; rating := rating0; review := review0 |}])
    this.

(** [this.views += 1], saved by the caller. *)
Definition incrementViews_views (this : t) : t :=
  set_views (views this + 1)%Z this.

End Recipe.

(** ** The User model, as far as the middleware and controllers read it *)

Module User.

Inductive Role := user | chef | moderator | admin.
Inductive AccountStatus := pending | active | inactive | suspended.

#[global] Instance Role_eq_dec : EqDecision Role.
Proof. solve_decision. Defined.
#[global] Instance AccountStatus_eq_dec : EqDecision AccountStatus.
Proof. solve_decision. Defined.

(** Timestamps are seconds since the epoch. *)
Record t := {
  _id : ObjectId;
  username : string;
  role : Role;
  accountStatus : AccountStatus;
  passwordChangedAt : option Z;
  lockUntil : option Z
}.

End User.

(** ** The Category model (models/Category.js) *)

Module Category.

Record t := {
  _id : ObjectId;
  name : string;
  slug : option string;
  code : string;
  parent : option ObjectId;
  children : list ObjectId;
  level : Z;
  path : option string;
  recipeCount : Z;
  status : string;
  lastModifiedBy : option ObjectId
}.

Definition set_slug (v : option string) (c : t) : t :=
  let '(Build_t a b _ d e f g h i j k) := c in Build_t a b v d e f g h i j k.

Definition set_children (v : list ObjectId) (c : t) : t :=
  let '(Build_t a b c0 d e _ g h i j k) := c in Build_t a b c0 d e v g h i j k.

Definition set_level (v : Z) (c : t) : t :=
  let '(Build_t a b c0 d e f _ h i j k) := c in Build_t a b c0 d e f v h i j k.

Definition set_path (v : option string) (c : t) : t :=
  let '(Build_t a b c0 d e f g _ i j k) := c in Build_t a b c0 d e f g v i j k.

Definition set_recipeCount (v : Z) (c : t) : t :=
  let '(Build_t a b c0 d e f g h _ j k) := c in Build_t a b c0 d e f g h v j k.

(** A document in memory: its fields and the paths Mongoose has recorded
    as modified since it was loaded or constructed. *)
Record Document := {
  doc : t;
  modifiedPaths : list string
}.

Definition isModified (path0 : string) (this : Document) : bool :=
  bool_decide (path0 ∈ modifiedPaths this).

Definition assign (f : t -> t) (path0 : string) (this : Document) : Document :=
  {| doc := f (doc this); modifiedPaths := path0 :: modifiedPaths this |}.

(** The slug derivation of the first save hook:
    [name.toLowerCase().replace(/[^a-z0-9\s-]/g, '').replace(/\s+/g, '-')
     .replace(/-+/g, '-').trim('-')]. *)
Definition slug_of_name (name0 : string) : string :=
  JS.str
    (JS.trim
       (JS.replace_runs JS.is_hyphen ["-"%char]
          (JS.replace_runs JS.is_space ["-"%char]
             (JS.remove_class
                (fun c => negb (JS.is_lower c || JS.is_digit c
                                || JS.is_space c || JS.is_hyphen c))
                (JS.toLowerCase (JS.chars name0)))))).

(** categorySchema.pre('save'), first hook.  The setters of the slug
    path (lowercase, trim) find nothing to change in a derived slug. *)
Definition preSave_slug (this : Document) : Document :=
  if isModified "name" this && negb (JS.truthy_str (slug (doc this))) then
    assign (set_slug (Some (slug_of_name (name (doc this))))) "slug" this
  else this.

(** categorySchema.pre('save'), second hook; [findById] is
    [this.constructor.findById]. *)
Definition preSave_path (findById : ObjectId -> option t) (this : Document)
    : Document :=
  if isModified "parent" this then
    match parent (doc this) with
    | Some parentId =>
        match findById parentId with
        | Some parent0 =>
            let this1 := assign (set_level (level parent0 + 1)%Z) "level" this in
            assign
              (set_path
                 (if JS.truthy_str (path parent0)
                  then Some (JS.template_str (path parent0) +:+ "/"
                             +:+ JS.template_str (slug (doc this1)))
                  else slug (doc this1)))
              "path" this1
        | None => this
        end
    | None =>
        let this1 := assign (set_level 0%Z) "level" this in
        assign (set_path (slug (doc this1))) "path" this1
    end
  else this.

(** The save middleware chain, in registration order. *)
Definition preSave (findById : ObjectId -> option t) (this : Document)
    : Document :=
  preSave_path findById (preSave_slug this).

(** [$addToSet: { children: id }]. *)
Definition addToSet_children (id : ObjectId) (c : t) : t :=
  if bool_decide (id ∈ children c) then c
  else set_children (children c ++ [id]) c.

(** [$pull: { children: id }]. *)
Definition pull_children (id : ObjectId) (c : t) : t :=
  set_children (filter (fun x => x ≠ id) (children c)) c.

(** [$inc: { 'stats.recipeCount': d }]. *)
Definition inc_recipeCount (d : Z) (c : t) : t :=
  set_recipeCount (recipeCount c + d)%Z c.

End Category.

(** ** The Category schema: validators (models/Category.js) *)

Module CategorySchema.

(** The characters that the [match] validator of the slug path allows:
    [/^[a-z0-9-]+$/]. *)
Definition slug_char (c : ascii) : bool :=
  JS.is_lower c || JS.is_digit c || JS.is_hyphen c.

Definition statuses : list string :=
  ["active"; "inactive"; "archived"; "draft"].

(** The validators of categorySchema on the paths of [Category.t].  A
    save runs them before its hooks.  [required] refuses an absent and an
    empty string, the other validators pass an absent value; the
    required path outside [Category.t], createdBy, is taken to be
    present. *)
Definition validate (this : Category.t) : bool :=
  (2 <=? String.length (Category.name this))%nat
  && (String.length (Category.name this) <=? 50)%nat
  && JS.truthy_str (Category.slug this)
  && forallb slug_char (JS.chars (default "" (Category.slug this)))
  && (2 <=? String.length (Category.code this))%nat
  && (String.length (Category.code this) <=? 10)%nat
  && (0 <=? Category.level this)%Z
  && (Category.level this <=? 5)%Z
  && (0 <=? Category.recipeCount this)%Z
  && bool_decide (Category.status this ∈ statuses).

End CategorySchema.

(** The two members of the user document that [protect] calls.  Their
    file, models/User.js, is not among the sources. *)
Module UserMethods.

(** Modelled from the spec: the virtual [isLocked] of models/User.js is
    missing; by section 4.4 the lock state is derived from the lock-until
    timestamp: the account is locked while that instant lies ahead. *)
Definition isLocked (this : User.t) (now : Z) : bool :=
  match User.lockUntil this with
  | Some until => (now <? until)%Z
  | None => false
  end.

(** Modelled from the spec: the method [changedPasswordAfter] of
    models/User.js is missing; by section 4.4 the token issuance
    timestamp is compared to the password-change timestamp, and the
    password counts as changed after the token was issued when it was
    changed at a later time.  A user who never changed the password has
    no such timestamp. *)
Definition changedPasswordAfter (this : User.t) (JWTTimestamp : Z) : bool :=
  match User.passwordChangedAt this with
  | Some changedAt => (JWTTimestamp <? changedAt)%Z
  | None => false
  end.

End UserMethods.

(** ** The document store *)

Record Db := {
  recipes : gmap string Recipe.t;
  categories : gmap string Category.t;
  users : gmap string User.t
}.

Definition set_recipes (v : gmap string Recipe.t) (db : Db) : Db :=
  {| recipes := v; categories := categories db; users := users db |}.

Definition set_categories (v : gmap string Category.t) (db : Db) : Db :=
  {| recipes := recipes db; categories := v; users := users db |}.

(** The documents of a collection, in the store's natural order. *)
Definition documents {A} (coll : gmap string A) : list A :=
  (map_to_list coll).*2.

(** [recipe.save()]: the save middleware runs on the document, which is
    then written under its id.  The caller keeps the mutated document. *)
Definition Recipe_save (this : Recipe.t) (db : Db) : Recipe.t * Db :=
  let this' := Recipe.preSave this in
  (this', set_recipes (<[Recipe._id this' := this']> (recipes db)) db).

(** [Recipe.countDocuments({ category: id })]. *)
Definition countRecipesOfCategory (id : ObjectId) (db : Db) : nat :=
  length (filter (fun r => Recipe.category r = id) (documents (recipes db))).

(** [Recipe.countDocuments({ category: id, status: 'published' })]. *)
Definition countPublishedOfCategory (id : ObjectId) (db : Db) : nat :=
  length (filter (fun r => Recipe.category r = id
                           ∧ Recipe.status r = Recipe.published)
            (documents (recipes db))).

(** [category.save()]: the validation, which Mongoose runs in front of
    the hooks that the schema registers with [pre('save')]; then the two
    pre-save hooks, the write, and the post-save hook that adds the
    document to its parent's children.  A document that fails the
    validation is not saved: the call rejects and the store stays as it
    is. *)
Definition Category_save (this : Category.Document) (db : Db)
    : Result Category.Document * Db :=
  if negb (CategorySchema.validate (Category.doc this)) then
    (Err StoreError, db)
  else
    let this' := Category.preSave (fun id => categories db !! id) this in
    let d := Category.doc this' in
    let cats := <[Category._id d := d]> (categories db) in
    let cats' :=
      match Category.parent d with
      | Some p => alter (Category.addToSet_children (Category._id d)) p cats
      | None => cats
      end in
    (Ok {| Category.doc := d; Category.modifiedPaths := [] |},
     set_categories cats' db).

(** categorySchema.methods.updateRecipeCount. *)
Definition Category_updateRecipeCount (this : Category.Document) (db : Db)
    : Result Category.Document * Db :=
  let count := countPublishedOfCategory (Category._id (Category.doc this)) db in
  Category_save
    (Category.assign (Category.set_recipeCount (Z.of_nat count))
       "stats.recipeCount" this) db.

(** ** Query objects

    A query object is a JSON value: strings, numbers, arrays and objects,
    an object being the list of its fields in insertion order. *)

#[warnings="-register-all"] Inductive json :=
| JStr (s : string)
| JNum (n : Z)
| JNaN
| JArr (items : list json)
| JObj (fields : list (string * json)).

Abbreviation obj := (list (string * json)) (only parsing).

Fixpoint obj_get (k : string) (o : obj) : option json :=
  match o with
  | [] => None
  | (k', v) :: o' => if decide (k' = k) then Some v else obj_get k o'
  end.

(** [o[k] = v]: an existing key keeps its place. *)
Fixpoint obj_set (k : string) (v : json) (o : obj) : obj :=
  match o with
  | [] => [(k, v)]
  | (k', v') :: o' =>
      if decide (k' = k) then (k, v) :: o' else (k', v') :: obj_set k v o'
  end.

(** [delete o[k]]. *)
Definition obj_delete (k : string) (o : obj) : obj :=
  filter (fun kv => kv.1 ≠ k) o.

Definition truthy (v : option json) : bool :=
  match v with
  | None => false
  | Some (JStr s) => JS.truthy_str (Some s)
  | Some (JNum n) => negb (n =? 0)%Z
  | Some JNaN => false
  | Some _ => true
  end.

(** [String(v)], as [parseInt] applies it to its argument. *)
Fixpoint toString (v : json) : string :=
  match v with
  | JStr s => s
  | JNum n => pretty n
  | JNaN => "NaN"
  | JArr items => JS.join "," (List.map toString items)
  | JObj _ => "[object Object]"
  end.

(** What [Query.prototype.find(conditions)] does with further conditions
    (Mongoose merges them into the query's filter with overwrite on): a
    value that is not an object replaces the one under the same key, an
    object is merged into the object under that key, field by field. *)
Fixpoint merge_value (old : option json) (new : json) {struct new} : json :=
  match new with
  | JObj from =>
      JObj
        ((fix go (fs : list (string * json)) (to : list (string * json)) :=
            match fs with
            | [] => to
            | (k, v) :: fs' =>
                go fs' (obj_set k (merge_value (obj_get k to) v) to)
            end)
           from
           (match old with Some (JObj to) => to | _ => [] end))
  | _ => new
  end.

Definition merge_obj (to from : obj) : obj :=
  foldl (fun to kv => obj_set kv.1 (merge_value (obj_get kv.1 to) kv.2) to)
    to from.

(** The operator names of [/\b(gte|gt|lte|lt)\b/g], in the order of the
    alternation. *)
Definition comparison_ops : list (list ascii) :=
  JS.chars <$> ["gte"; "gt"; "lte"; "lt"].

Fixpoint is_prefix (p s : list ascii) : bool :=
  match p, s with
  | [], _ => true
  | a :: p', b :: s' => bool_decide (a = b) && is_prefix p' s'
  | _ :: _, [] => false
  end.

(** An operator name starts here and ends at a word boundary. *)
Definition op_here (s : list ascii) : bool :=
  existsb
    (fun op =>
       is_prefix op s &&
       match drop (length op) s with
       | c :: _ => negb (JS.is_word c)
       | [] => true
       end)
    comparison_ops.

(** Whether the JSON text of a character ends in a word character: a
    control character is written as an escape that ends in a letter or a
    hexadecimal digit; a quote or a backslash ends its escape itself. *)
Definition word_in_json (c : ascii) : bool :=
  JS.is_word c || (JS.code c <? 32)%N.

(** The replacement inside one string of the JSON text: a [$] goes
    before every operator name that stands between word boundaries. *)
Fixpoint dollar_from (prev_word : bool) (s : list ascii) : list ascii :=
  match s with
  | [] => []
  | c :: s' =>
      if negb prev_word && op_here s
      then "$"%char :: c :: dollar_from (word_in_json c) s'
      else c :: dollar_from (word_in_json c) s'
  end.

Definition dollar_ops (s : string) : string :=
  JS.str (dollar_from false (JS.chars s)).

(** [JSON.parse(JSON.stringify(v).replace(/\b(gte|gt|lte|lt)\b/g,
    match => `$${match}`))]: the replacement reaches every key and every
    string of the text; parsing keeps, of two equal keys, the place of
    the first and the value of the last. *)
Fixpoint advancedFiltering (v : json) : json :=
  match v with
  | JStr s => JStr (dollar_ops s)
  | JArr items => JArr (List.map advancedFiltering items)
  | JObj fields =>
      JObj
        (foldl (fun acc kv => obj_set kv.1 kv.2 acc) []
           (List.map (fun kv => let '(k, v') := kv in
                                (dollar_ops k, advancedFiltering v'))
              fields))
  | _ => v
  end.

Definition advancedFilter (queryObj : obj) : obj :=
  match advancedFiltering (JObj queryObj) with
  | JObj o => o
  | _ => []
  end.

(** The part of the document store that the server does not implement:
    how one top-level condition of a filter selects recipes, and how a
    sort specification orders them.  A string under [status] or
    [visibility] is an equality test on that field; a sort only
    reorders. *)
Class DocumentStore := {
  cond_match : string -> json -> Recipe.t -> bool;
  sort_docs : string -> list Recipe.t -> list Recipe.t;
  cond_match_status : forall s r,
    cond_match "status" (JStr s) r
    = bool_decide (Recipe.status_name (Recipe.status r) = s);
  cond_match_visibility : forall s r,
    cond_match "visibility" (JStr s) r
    = bool_decide (Recipe.visibility_name (Recipe.visibility r) = s);
  sort_docs_perm : forall k l, sort_docs k l ≡ₚ l
}.

(** A recipe passes a filter when it passes each of its conditions. *)
Definition matches `{DocumentStore} (conds : obj) (r : Recipe.t) : bool :=
  forallb (fun kv => cond_match kv.1 kv.2 r) conds.

(** [Recipe.countDocuments(conds)]. *)
Definition countDocuments `{DocumentStore} (conds : obj) (db : Db) : nat :=
  length (List.filter (matches conds) (documents (recipes db))).

(** Running a [find] query: filter, sort, skip, limit.  The store
    refuses a negative skip; the driver turns a negative limit into its
    absolute value. *)
Definition exec_find `{DocumentStore} (conds : obj) (sortBy : string)
    (skip limit : Z) (db : Db) : Result (list Recipe.t) :=
  if (skip <? 0)%Z then Err StoreError
  else
    Ok (take (Z.abs_nat limit)
          (drop (Z.to_nat skip)
             (sort_docs sortBy
                (List.filter (matches conds) (documents (recipes db)))))).

(** ** The recipe controller (controllers/recipeController.js) *)

Module RecipeController.

Definition excludedFields : list string :=
  ["page"; "sort"; "limit"; "fields"; "search"].

(** A handler that does not throw carries on with [k]. *)
Definition andThen {A B} (r : Result A) (k : A -> Result B) : Result B :=
  match r with
  | Ok a => k a
  | Err e => Err e
  end.

(** [if (req.query.name) { yes } else { no }]. *)
Definition ifParam {A} (param : option json) (yes : json -> Result A)
    (no : Result A) : Result A :=
  match param with
  | Some v => if truthy param then yes v else no
  | None => no
  end.

(** [query.find({ key: value })] under the guard [if (req.query.name)]. *)
Definition findIf (guard : option json) (conds : json -> Result obj)
    (query0 : obj) : Result obj :=
  ifParam guard
    (fun v => andThen (conds v) (fun c => Ok (merge_obj query0 c)))
    (Ok query0).

(** [v.split(',')], a method that only strings have. *)
Definition splitComma (v : json) : Result (list string) :=
  match v with
  | JStr s => Ok (JS.split ","%char s)
  | _ => Err TypeError
  end.

(** [parseInt(req.query.name, radix)]. *)
Definition parseParam (v : option json) (radix : option N) : option Z :=
  match v with
  | Some v' => JS.parseInt (toString v') radix
  | None => None
  end.

Record Pagination := {
  page : Z;
  limit : Z;
  total : Z;
  pages : Z
}.

Record RecipeList := {
  results : nat;
  pagination : Pagination;
  data_recipes : list Recipe.t
}.

(** getAllRecipes.  [select] and [populate] shape how each selected
    recipe is rendered and leave the selection alone; of the field
    limiting only the call of [split] is kept, which can throw. *)
Definition getAllRecipes `{DocumentStore} (req_query : obj)
    (req_user : option User.t) (db : Db) : Result RecipeList :=
  let queryObj := foldl (fun o el => obj_delete el o) req_query excludedFields in
  let queryStr := advancedFilter queryObj in
  let query0 := queryStr in
  let query1 :=
    if match req_user with
       | None => true
       | Some u => bool_decide (User.role u ≠ User.admin)
       end
    then merge_obj query0
           [("status", JStr "published"); ("visibility", JStr "public")]
    else query0 in
  andThen
    (findIf (obj_get "search" req_query)
       (fun v => Ok [("$text", JObj [("$search", v)])]) query1)
    (fun query2 =>
  andThen
    (findIf (obj_get "dietary" req_query)
       (fun v =>
          andThen (splitComma v) (fun dietaryRestrictions =>
            Ok [("dietaryRestrictions",
                 JObj [("$in", JArr (JStr <$> dietaryRestrictions))])]))
       query2)
    (fun query3 =>
  andThen
    (findIf (obj_get "cuisine" req_query)
       (fun v => Ok [("cuisine", v)]) query3)
    (fun query4 =>
  andThen
    (findIf (obj_get "difficulty" req_query)
       (fun v => Ok [("difficulty", v)]) query4)
    (fun query5 =>
  andThen
    (findIf (obj_get "maxPrepTime" req_query)
       (fun v =>
          Ok [("prepTime",
               JObj [("$lte",
                      match JS.parseInt (toString v) None with
                      | Some n => JNum n
                      | None => JNaN
                      end)])])
       query5)
    (fun query6 =>
  andThen
    (findIf (obj_get "category" req_query)
       (fun v => Ok [("category", v)]) query6)
    (fun query7 =>
  andThen
    (ifParam (obj_get "sort" req_query)
       (fun v => andThen (splitComma v) (fun keys => Ok (JS.join " " keys)))
       (Ok "-createdAt"))
    (fun sortBy =>
  andThen
    (ifParam (obj_get "fields" req_query)
       (fun v => andThen (splitComma v) (fun fields => Ok (JS.join " " fields)))
       (Ok "-__v"))
    (fun _ =>
  let page0 := JS.num_or (parseParam (obj_get "page" req_query) (Some 10%N)) 1 in
  let limit0 := JS.num_or (parseParam (obj_get "limit" req_query) (Some 10%N)) 12 in
  let skip := ((page0 - 1) * limit0)%Z in
  andThen (exec_find query7 sortBy skip limit0 db) (fun recipes0 =>
  let total0 := Z.of_nat (countDocuments queryStr db) in
  Ok {| results := length recipes0;
        pagination :=
          {| page := page0;
             limit := limit0;
             total := total0;
             pages := JS.Math_ceil (inject_Z total0 / inject_Z limit0) |};
        data_recipes := recipes0 |}))))))))).

(** The request body of an update: the schema paths it names, each with
    its new value. *)
Record RecipeBody := {
  b_title : option string;
  b_prepTime : option Z;
  b_cookTime : option Z;
  b_totalTime : option Z;
  b_difficulty : option string;
  b_category : option ObjectId;
  b_cuisine : option string;
  b_status : option Recipe.Status;
  b_visibility : option Recipe.Visibility
}.

(** The update that [findByIdAndUpdate(id, body)] applies: every path of
    the body is set, the others stay.  It is a store update: no save
    middleware runs. *)
Definition applyBody (b : RecipeBody) (r : Recipe.t) : Recipe.t :=
  {| Recipe._id := Recipe._id r;
     Recipe.title := default (Recipe.title r) (b_title b);
     Recipe.prepTime := default (Recipe.prepTime r) (b_prepTime b);
     Recipe.cookTime := default (Recipe.cookTime r) (b_cookTime b);
     Recipe.totalTime :=
       match b_totalTime b with
       | Some v => Some v
       | None => Recipe.totalTime r
       end;
     Recipe.difficulty := default (Recipe.difficulty r) (b_difficulty b);
     Recipe.category := default (Recipe.category r) (b_category b);
     Recipe.cuisine := default (Recipe.cuisine r) (b_cuisine b);
     Recipe.dietaryRestrictions := Recipe.dietaryRestrictions r;
     Recipe.ratings := Recipe.ratings r;
     Recipe.averageRating := Recipe.averageRating r;
     Recipe.totalRatings := Recipe.totalRatings r;
     Recipe.bookmarks := Recipe.bookmarks r;
     Recipe.author := Recipe.author r;
     Recipe.status := default (Recipe.status r) (b_status b);
     Recipe.visibility := default (Recipe.visibility r) (b_visibility b);
     Recipe.views := Recipe.views r |}.

(** updateRecipe; the response carries the updated recipe. *)
Definition updateRecipe (id : ObjectId) (req_user : User.t)
    (body : RecipeBody) (db : Db) : Result Recipe.t * Db :=
  match recipes db !! id with
  | None => (Err (AppError "No recipe found with that ID" 404), db)
  | Some recipe =>
      if bool_decide (Recipe.author recipe ≠ User._id req_user)
         && bool_decide (User.role req_user ≠ User.admin)
      then (Err (AppError "You can only update your own recipes" 403), db)
      else
        let checked :=
          match b_category body with
          | Some newCategory =>
              if JS.truthy_str (Some newCategory)
                 && bool_decide (newCategory ≠ Recipe.category recipe)
              then
                match categories db !! newCategory with
                | None => Err (AppError "Invalid category ID" 400)
                | Some _ =>
                    Ok (set_categories
                          (alter (Category.inc_recipeCount 1) newCategory
                             (alter (Category.inc_recipeCount (-1))
                                (Recipe.category recipe) (categories db)))
                          db)
                end
              else Ok db
          | None => Ok db
          end in
        match checked with
        | Err e => (Err e, db)
        | Ok db1 =>
            let updatedRecipe := applyBody body recipe in
            (Ok updatedRecipe,
             set_recipes (<[id := updatedRecipe]> (recipes db1)) db1)
        end
  end.

(** recipeSchema.methods.addRating: replace, push, save. *)
Definition addRating (userId : ObjectId) (rating0 : Z)
    (review0 : option string) (this : Recipe.t) (db : Db) : Recipe.t * Db :=
  Recipe_save (Recipe.addRating_ratings userId rating0 review0 this) db.

Record RatingData := {
  data_averageRating : Q;
  data_totalRatings : Z
}.

(** rateRecipe. *)
Definition rateRecipe (id : ObjectId) (req_user : ObjectId) (rating0 : Z)
    (review0 : option string) (db : Db) : Result RatingData * Db :=
  match recipes db !! id with
  | None => (Err (AppError "No recipe found with that ID" 404), db)
  | Some recipe =>
      if bool_decide (Recipe.author recipe = req_user)
      then (Err (AppError "You cannot rate your own recipe" 400), db)
      else
        let '(recipe', db') := addRating req_user rating0 review0 recipe db in
        (Ok {| data_averageRating := Recipe.averageRating recipe';
               data_totalRatings := Recipe.totalRatings recipe' |}, db')
  end.

(** The array operations of toggleBookmark: [includes] compares ids by
    value, [pull] removes every equal element, [push] appends. *)
Definition includes (id : ObjectId) (arr : list ObjectId) : bool :=
  bool_decide (id ∈ arr).

Definition pull (id : ObjectId) (arr : list ObjectId) : list ObjectId :=
  filter (fun x => x ≠ id) arr.

Definition push (id : ObjectId) (arr : list ObjectId) : list ObjectId :=
  arr ++ [id].

Definition toggle (id : ObjectId) (arr : list ObjectId) : list ObjectId :=
  if includes id arr then pull id arr else push id arr.

Record BookmarkData := {
  bookmarked : bool;
  bookmarkCount : nat
}.

(** toggleBookmark. *)
Definition toggleBookmark (id : ObjectId) (req_user : ObjectId) (db : Db)
    : Result BookmarkData * Db :=
  match recipes db !! id with
  | None => (Err (AppError "No recipe found with that ID" 404), db)
  | Some recipe =>
      let isBookmarked := includes req_user (Recipe.bookmarks recipe) in
      let '(recipe', db') :=
        Recipe_save
          (Recipe.set_bookmarks (toggle req_user (Recipe.bookmarks recipe))
             recipe) db in
      (Ok {| bookmarked := negb isBookmarked;
             bookmarkCount := length (Recipe.bookmarks recipe') |}, db')
  end.

End RecipeController.

(** ** The category controller (controllers/categoryController.js) *)

Module CategoryController.

(** The request body of a category update. *)
Record CategoryBody := {
  b_name : option string;
  b_code : option string;
  b_slug : option string;
  b_parent : option ObjectId;
  b_level : option Z;
  b_path : option string
}.

(** [findByIdAndUpdate(id, body)] on a category: the paths of the body
    are set, with [lastModifiedBy] among them; no save middleware runs. *)
Definition applyBody (b : CategoryBody) (modifier : ObjectId)
    (c : Category.t) : Category.t :=
  {| Category._id := Category._id c;
     Category.name := default (Category.name c) (b_name b);
     Category.slug :=
       match b_slug b with
       | Some v => Some v
       | None => Category.slug c
       end;
     Category.code := default (Category.code c) (b_code b);
     Category.parent :=
       match b_parent b with
       | Some v => Some v
       | None => Category.parent c
       end;
     Category.children := Category.children c;
     Category.level := default (Category.level c) (b_level b);
     Category.path :=
       match b_path b with
       | Some v => Some v
       | None => Category.path c
       end;
     Category.recipeCount := Category.recipeCount c;
     Category.status := Category.status c;
     Category.lastModifiedBy := Some modifier |}.

Definition upper (s : string) : string :=
  JS.str (JS.toUpperCase (JS.chars s)).

(** The [duplicateQuery] of updateCategory: another id and, for each of
    code and slug that the body names, that value. *)
Definition isDuplicate (id : ObjectId) (b : CategoryBody) (c : Category.t)
    : bool :=
  bool_decide (Category._id c ≠ id)
  && (if JS.truthy_str (b_code b)
      then bool_decide (Some (Category.code c) = upper <$> b_code b)
      else true)
  && (if JS.truthy_str (b_slug b)
      then bool_decide (Category.slug c = b_slug b)
      else true).

(** updateCategory; the response carries the updated category. *)
Definition updateCategory (id : ObjectId) (req_user : ObjectId)
    (body : CategoryBody) (db : Db) : Result Category.t * Db :=
  match categories db !! id with
  | None => (Err (AppError "No category found with that ID" 404), db)
  | Some category =>
      let existingCategory :=
        if JS.truthy_str (b_code body) || JS.truthy_str (b_slug body)
        then List.find (isDuplicate id body) (documents (categories db))
        else None in
      match existingCategory with
      | Some existing =>
          let field :=
            if bool_decide (Some (Category.code existing) = upper <$> b_code body)
            then "code" else "slug" in
          (Err (AppError ("Category with this " +:+ field +:+ " already exists")
                  409), db)
      | None =>
          let updatedCategory := applyBody body req_user category in
          (Ok updatedCategory,
           set_categories (<[id := updatedCategory]> (categories db)) db)
      end
  end.

(** deleteCategory; a success answers 204 with no content. *)
Definition deleteCategory (id : ObjectId) (db : Db) : Result unit * Db :=
  match categories db !! id with
  | None => (Err (AppError "No category found with that ID" 404), db)
  | Some category =>
      let recipeCount := countRecipesOfCategory id db in
      if bool_decide (0 < recipeCount)%nat then
        (Err (AppError
                ("Cannot delete category with " +:+ pretty recipeCount
                 +:+ " recipes. Please move or delete the recipes first.")
                400), db)
      else if bool_decide (0 < length (Category.children category))%nat then
        (Err (AppError
                "Cannot delete category with subcategories. Please delete or move the subcategories first."
                400), db)
      else
        let cats :=
          match Category.parent category with
          | Some p =>
              alter (Category.pull_children (Category._id category)) p
                (categories db)
          | None => categories db
          end in
        (Ok (), set_categories (delete id cats) db)
  end.

End CategoryController.

(** ** The authentication middleware (middleware/auth.js) *)

Module Auth.

(** What [jwt.verify(token, secret)] yields: the decoded payload with
    the subject id and the issued-at timestamp, or one of the errors the
    middleware tells apart by name. *)
Inductive Verified :=
| Decoded (id : ObjectId) (iat : Z)
| JsonWebTokenError
| TokenExpiredError
| OtherError.

Record Request := {
  authorization : option string;
  cookies_jwt : option string
}.

(** Step 1 of protect: the token of the request, if it has one. *)
Definition getToken (req : Request) : option string :=
  match authorization req with
  | Some header =>
      if JS.truthy_str (Some header) && JS.startsWith "Bearer" header
      then JS.split " "%char header !! 1%nat
      else if JS.truthy_str (cookies_jwt req) then cookies_jwt req else None
  | None =>
      if JS.truthy_str (cookies_jwt req) then cookies_jwt req else None
  end.

(** protect.  [verify] stands for [jwt.verify] with the server's secret
    at the time of the request, [now] for that time.  A success makes
    the user the principal of the request. *)
Definition protect (verify : string -> Verified) (now : Z) (req : Request)
    (db : Db) : Result User.t :=
  let token := getToken req in
  if negb (JS.truthy_str token) then
    Err (AppError "You are not logged in! Please log in to get access." 401)
  else
    match verify (default "" token) with
    | JsonWebTokenError =>
        Err (AppError "Invalid token. Please log in again!" 401)
    | TokenExpiredError =>
        Err (AppError "Your token has expired! Please log in again." 401)
    | OtherError => Err (AppError "Token verification failed" 401)
    | Decoded id iat =>
        match users db !! id with
        | None =>
            Err (AppError
                   "The user belonging to this token does no longer exist."
                   401)
        | Some currentUser =>
            if bool_decide (User.accountStatus currentUser ≠ User.active) then
              Err (AppError
                     "Your account is not active. Please contact support." 403)
            else if UserMethods.isLocked currentUser now then
              Err (AppError
                     "Your account is temporarily locked. Please try again later."
                     423)
            else if UserMethods.changedPasswordAfter currentUser iat then
              Err (AppError
                     "User recently changed password! Please log in again."
                     401)
            else Ok currentUser
        end
    end.

End Auth.

(** ** The specification's vocabulary *)

Module Spec.

(** The mean of the rating values. *)
Definition mean (values : list Z) : Q :=
  inject_Z (foldr Z.add 0%Z values) / inject_Z (Z.of_nat (length values)).

(** [round(mean * 10) / 10]: the mean to one decimal place. *)
Definition roundedMean (values : list Z) : Q :=
  inject_Z (JS.Math_round (mean values * 10)) / 10.


(** A submission to the rating endpoint: who, how many stars, and the
    optional review. *)
Definition Submission : Type := ObjectId * Z * option string.


(** The store after a sequence of calls of rateRecipe on one recipe. *)
Definition rateMany (id : ObjectId) (subs : list Submission) (db : Db) : Db :=
  foldl
    (fun db0 s => (RecipeController.rateRecipe id s.1.1 s.1.2 s.2 db0).2)
    db subs.

(** The slug derivation in the specification's words: lowercase the
    name, strip what is not alphanumeric, whitespace or hyphen, turn each
    run of whitespace into one hyphen, collapse repeated hyphens. *)
Definition lowercase (s : list ascii) : list ascii := JS.lower_char <$> s.

Definition keeps (c : ascii) : bool :=
  JS.is_lower c || JS.is_digit c || JS.is_space c || JS.is_hyphen c.

Definition strip (s : list ascii) : list ascii := List.filter keeps s.

(** Every run of characters of the class shrinks to one [b]: a member
    followed by another member goes, the last one of a run becomes [b]. *)
Fixpoint squash (C : ascii -> bool) (b : ascii) (s : list ascii)
    : list ascii :=
  match s with
  | [] => []
  | c :: s' =>
      if C c then
        match s' with
        | c' :: _ => if C c' then squash C b s' else b :: squash C b s'
        | [] => [b]
        end
      else c :: squash C b s'
  end.

Definition slugify (name0 : string) : string :=
  JS.str
    (squash JS.is_hyphen "-"%char
       (squash JS.is_space "-"%char (strip (lowercase (JS.chars name0))))).

(** The two conditions that the listing adds for callers who are not
    administrators. *)
Definition restricted (q : list (string * json)) : Prop :=
  ("status", JStr "published") ∈ q /\ ("visibility", JStr "public") ∈ q.

(** A message names a count when the decimal numeral occurs in it. *)
Fixpoint occurs_in (p s : list ascii) : bool :=
  is_prefix p s
  || match s with
     | [] => false
     | _ :: s' => occurs_in p s'
     end.

Definition names_count (msg : string) (n : nat) : bool :=
  occurs_in (JS.chars (pretty n)) (JS.chars msg).


End Spec.

(** ** Sample data *)

Module Examples.

Definition alice : User.t :=
  {| User._id := "u1"; User.username := "alice"; User.role := User.user;
     User.accountStatus := User.active; User.passwordChangedAt := None;
     User.lockUntil := None |}.

Definition bob : User.t :=
  {| User._id := "u2"; User.username := "bob"; User.role := User.chef;
     User.accountStatus := User.active;
     User.passwordChangedAt := Some 1700000500%Z; User.lockUntil := None |}.

Definition root : User.t :=
  {| User._id := "u0"; User.username := "root"; User.role := User.admin;
     User.accountStatus := User.active; User.passwordChangedAt := None;
     User.lockUntil := None |}.

(** A published, public recipe of alice, saved once. *)
Definition soup : Recipe.t :=
  {| Recipe._id := "r1"; Recipe.title := "Tomato soup";
     Recipe.prepTime := 10; Recipe.cookTime := 20;
     Recipe.totalTime := Some 30%Z; Recipe.difficulty := "beginner";
     Recipe.category := "c3"; Recipe.cuisine := "italian";
     Recipe.dietaryRestrictions := ["vegan"]; Recipe.ratings := [];
     Recipe.averageRating := 0; Recipe.totalRatings := 0;
     Recipe.bookmarks := []; Recipe.author := "u1";
     Recipe.status := Recipe.published; Recipe.visibility := Recipe.public;
     Recipe.views := 0 |}.

(** A draft of alice. *)
Definition stew : Recipe.t :=
  {| Recipe._id := "r2"; Recipe.title := "Bean stew";
     Recipe.prepTime := 15; Recipe.cookTime := 45;
     Recipe.totalTime := Some 60%Z; Recipe.difficulty := "beginner";
     Recipe.category := "c3"; Recipe.cuisine := "mexican";
     Recipe.dietaryRestrictions := []; Recipe.ratings := [];
     Recipe.averageRating := 0; Recipe.totalRatings := 0;
     Recipe.bookmarks := []; Recipe.author := "u1";
     Recipe.status := Recipe.draft; Recipe.visibility := Recipe.public;
     Recipe.views := 0 |}.

(** A recipe whose creation request named [averageRating] and
    [totalRatings] but no ratings: createRecipe hands the whole body to
    [Recipe.create]. *)
Definition imported : Recipe.t :=
  {| Recipe._id := "r3"; Recipe.title := "Imported pie";
     Recipe.prepTime := 30; Recipe.cookTime := 40;
     Recipe.totalTime := None; Recipe.difficulty := "advanced";
     Recipe.category := "c2"; Recipe.cuisine := "british";
     Recipe.dietaryRestrictions := []; Recipe.ratings := [];
     Recipe.averageRating := 9 # 2; Recipe.totalRatings := 3;
     Recipe.bookmarks := []; Recipe.author := "u2";
     Recipe.status := Recipe.published; Recipe.visibility := Recipe.public;
     Recipe.views := 0 |}.

Definition mains : Category.t :=
  {| Category._id := "c1"; Category.name := "Mains";
     Category.slug := Some "mains"; Category.code := "MAINS";
     Category.parent := None; Category.children := ["c2"; "c3"];
     Category.level := 0; Category.path := Some "mains";
     Category.recipeCount := 0; Category.status := "active";
     Category.lastModifiedBy := None |}.

Definition italian : Category.t :=
  {| Category._id := "c2"; Category.name := "Italian";
     Category.slug := Some "italian"; Category.code := "ITAL";
     Category.parent := Some "c1"; Category.children := [];
     Category.level := 1; Category.path := Some "mains/italian";
     Category.recipeCount := 0; Category.status := "active";
     Category.lastModifiedBy := None |}.

Definition soups : Category.t :=
  {| Category._id := "c3"; Category.name := "Soups";
     Category.slug := Some "soups"; Category.code := "SOUP";
     Category.parent := Some "c1"; Category.children := [];
     Category.level := 1; Category.path := Some "mains/soups";
     Category.recipeCount := 1; Category.status := "active";
     Category.lastModifiedBy := None |}.

Definition the_categories : gmap string Category.t :=
  <["c1" := mains]> (<["c2" := italian]> (<["c3" := soups]> ∅)).

Definition the_users : gmap string User.t :=
  <["u0" := root]> (<["u1" := alice]> (<["u2" := bob]> ∅)).

(** A store whose only recipe is the published soup. *)
Definition db_soup : Db :=
  {| recipes := <["r1" := soup]> ∅;
     categories := the_categories; users := the_users |}.

(** A store whose only recipe is the draft. *)
Definition db_stew : Db :=
  {| recipes := <["r2" := stew]> ∅;
     categories := the_categories; users := the_users |}.

(** A store without recipes. *)
Definition db_empty : Db :=
  {| recipes := ∅; categories := the_categories; users := the_users |}.

(** A category without a slug, as a creation request that names none
    describes it. *)
Definition legacy : Category.t :=
  {| Category._id := "c9"; Category.name := "Quick & Easy  Meals";
     Category.slug := None; Category.code := "QUICK";
     Category.parent := None; Category.children := [];
     Category.level := 0; Category.path := None;
     Category.recipeCount := 0; Category.status := "active";
     Category.lastModifiedBy := None |}.

(** The new document of that request, its name and code just set. *)
Definition legacy_new : Category.Document :=
  {| Category.doc := legacy; Category.modifiedPaths := ["name"; "code"] |}.

(** The body of a PATCH that moves a category under "c2". *)
Definition move_under_italian : CategoryController.CategoryBody :=
  {| CategoryController.b_name := Some "Soups";
     CategoryController.b_code := Some "SOUP";
     CategoryController.b_slug := None;
     CategoryController.b_parent := Some "c2";
     CategoryController.b_level := None;
     CategoryController.b_path := None |}.

(** The same move made on the loaded document, to be saved. *)
Definition soups_moved : Category.Document :=
  {| Category.doc :=
       {| Category._id := "c3"; Category.name := "Soups";
          Category.slug := Some "soups"; Category.code := "SOUP";
          Category.parent := Some "c2"; Category.children := [];
          Category.level := 1; Category.path := Some "mains/soups";
          Category.recipeCount := 1; Category.status := "active";
          Category.lastModifiedBy := None |};
     Category.modifiedPaths := ["parent"] |}.

(** A verifier that knows two tokens of bob: one issued before his
    password change at 1700000500, one issued after it. *)
Definition verify (token : string) : Auth.Verified :=
  if decide (token = "issued-before") then Auth.Decoded "u2" 1700000000
  else if decide (token = "issued-after") then Auth.Decoded "u2" 1700001000
  else Auth.JsonWebTokenError.

Definition bearer (token : string) : Auth.Request :=
  {| Auth.authorization := Some ("Bearer " +:+ token);
     Auth.cookies_jwt := None |}.

(** A small document store: a string is an equality test on the string
    fields, [$lte] bounds the preparation time, [$in] asks for a common
    dietary restriction, [$text] looks for the search text in the title;
    any other condition selects nothing.  It sorts by title when asked
    to and keeps the natural order otherwise. *)
Definition plain_match (k : string) (v : json) (r : Recipe.t) : bool :=
  match v with
  | JStr s =>
      if decide (k = "status")
      then bool_decide (Recipe.status_name (Recipe.status r) = s)
      else if decide (k = "visibility")
      then bool_decide (Recipe.visibility_name (Recipe.visibility r) = s)
      else if decide (k = "cuisine") then bool_decide (Recipe.cuisine r = s)
      else if decide (k = "difficulty")
      then bool_decide (Recipe.difficulty r = s)
      else if decide (k = "category") then bool_decide (Recipe.category r = s)
      else false
  | JObj [(op, JNum n)] =>
      bool_decide (k = "prepTime") && bool_decide (op = "$lte")
      && (Recipe.prepTime r <=? n)%Z
  | JObj [(op, JArr items)] =>
      bool_decide (k = "dietaryRestrictions") && bool_decide (op = "$in")
      && existsb
           (fun it =>
              match it with
              | JStr s => bool_decide (s ∈ Recipe.dietaryRestrictions r)
              | _ => false
              end)
           items
  | JObj [(op, JStr s)] =>
      bool_decide (k = "$text") && bool_decide (op = "$search")
      && Spec.occurs_in (JS.chars s) (JS.chars (Recipe.title r))
  | _ => false
  end.

Definition title_le (a b : Recipe.t) : Prop :=
  String.leb (Recipe.title a) (Recipe.title b) = true.

#[global] Instance title_le_dec : RelDecision title_le.
Proof. intros a b. unfold title_le. apply _. Defined.

Definition plain_sort (k : string) (l : list Recipe.t) : list Recipe.t :=
  if decide (k = "title") then merge_sort title_le l else l.

#[global] Program Instance plain_store : DocumentStore := {|
  cond_match := plain_match;
  sort_docs := plain_sort
|}.
Next Obligation. reflexivity. Qed.
Next Obligation. reflexivity. Qed.
Next Obligation.
  intros k l. unfold plain_sort.
  destruct (decide (k = "title")); [apply merge_sort_Permutation|done].
Qed.

(** A store with the published soup and the draft stew. *)
Definition db_both : Db :=
  {| recipes := <["r1" := soup]> (<["r2" := stew]> ∅);
     categories := the_categories; users := the_users |}.

(** The body of a PATCH that makes the soup take longer to prepare. *)
Definition slower_soup : RecipeController.RecipeBody :=
  {| RecipeController.b_title := Some "Tomato soup";
     RecipeController.b_prepTime := Some 60%Z;
     RecipeController.b_cookTime := Some 20%Z;
     RecipeController.b_totalTime := None;
     RecipeController.b_difficulty := Some "beginner";
     RecipeController.b_category := Some "c3";
     RecipeController.b_cuisine := Some "italian";
     RecipeController.b_status := None;
     RecipeController.b_visibility := None |}.

End Examples.

(** ** The Recipe schema: validators and defaults (models/Recipe.js) *)

Module RecipeSchema.

Definition difficulties : list string :=
  ["beginner"; "intermediate"; "advanced"; "expert"].

Definition cuisines : list string :=
  ["italian"; "french"; "chinese"; "japanese"; "indian"; "mexican";
   "thai"; "mediterranean"; "american"; "british"; "german"; "spanish";
   "korean"; "vietnamese"; "greek"; "turkish"; "moroccan"; "lebanese";
   "fusion"; "international"; "other"].

Definition dietaryValues : list string :=
  ["vegetarian"; "vegan"; "gluten-free"; "dairy-free"; "nut-free";
   "egg-free"; "soy-free"; "keto"; "paleo"; "low-carb"; "low-fat";
   "low-sodium"; "diabetic-friendly"; "heart-healthy"].

(** The [trim] setter of a string path. *)
Definition trimmed (s : string) : string := JS.str (JS.trim (JS.chars s)).

(** ratingSchema: [rating] between 1 and 5, [review] of at most 1000
    characters. *)
Definition validRating (r : Recipe.Rating) : bool :=
  (1 <=? Recipe.rating r)%Z && (Recipe.rating r <=? 5)%Z
  && match Recipe.review r with
     | Some s => (String.length s <=? 1000)%nat
     | None => true
     end.

(** The validators of recipeSchema on the paths of [Recipe.t]; the
    required paths outside it (description, ingredients, instructions,
    servings) are taken to be present and valid, as the route checks
    them before the controller runs. *)
Definition validate (this : Recipe.t) : bool :=
  (3 <=? String.length (Recipe.title this))%nat
  && (String.length (Recipe.title this) <=? 100)%nat
  && (1 <=? Recipe.prepTime this)%Z
  && (0 <=? Recipe.cookTime this)%Z
  && bool_decide (Recipe.difficulty this ∈ difficulties)
  && negb (String.eqb (Recipe.category this) "")
  && bool_decide (Recipe.cuisine this ∈ cuisines)
  && forallb (fun d => bool_decide (d ∈ dietaryValues))
       (Recipe.dietaryRestrictions this)
  && forallb validRating (Recipe.ratings this)
  && Qle_bool 0 (Recipe.averageRating this)
  && Qle_bool (Recipe.averageRating this) 5
  && (0 <=? Recipe.totalRatings this)%Z
  && negb (String.eqb (Recipe.author this) "")
  && (0 <=? Recipe.views this)%Z.

(** recipeSchema.virtual('calculatedTotalTime'). *)
Definition calculatedTotalTime (this : Recipe.t) : Z :=
  (Recipe.prepTime this + Recipe.cookTime this)%Z.

End RecipeSchema.

(** ** The rest of the recipe controller *)

Module RecipeHandlers.

Import RecipeController.

(** [query.skip(skip).limit(limit)] on a sorted selection.  The store
    refuses a negative skip; a limit of 0 is no limit, a negative limit
    counts as its absolute value. *)
Definition paged `{DocumentStore} (sortBy : string) (skip limit0 : Z)
    (selected : list Recipe.t) : Result (list Recipe.t) :=
  if (skip <? 0)%Z then Err StoreError
  else
    let rest := drop (Z.to_nat skip) (sort_docs sortBy selected) in
    Ok (if (limit0 =? 0)%Z then rest else take (Z.abs_nat limit0) rest).

(** The recipes of the store that a fixed filter selects. *)
Definition selectWhere (P : Recipe.t -> bool) (db : Db) : list Recipe.t :=
  List.filter P (documents (recipes db)).

(** The filter [{ status: 'published', visibility: 'public' }]. *)
Definition listed (r : Recipe.t) : bool :=
  bool_decide (Recipe.status r = Recipe.published)
  && bool_decide (Recipe.visibility r = Recipe.public).

(** [recipe.author.equals(req.user._id)] on a recipe whose author path is
    populated: the populated value is the author's document, or null when
    no user has that id, and a method call on null throws. *)
Definition populatedAuthorEquals (recipe : Recipe.t) (u : User.t) (db : Db)
    : Result bool :=
  match users db !! Recipe.author recipe with
  | Some _ => Ok (bool_decide (Recipe.author recipe = User._id u))
  | None => Err TypeError
  end.

(** recipeSchema.methods.incrementViews.  The document comes from the
    store and is taken to be valid, so that the validation in front of
    the save hooks finds nothing to refuse. *)
Definition incrementViews (this : Recipe.t) (db : Db) : Recipe.t * Db :=
  Recipe_save (Recipe.incrementViews_views this) db.

(** getRecipe; the response carries the recipe as the handler holds it
    at the end. *)
Definition getRecipe (id : ObjectId) (req_user : option User.t) (db : Db)
    : Result Recipe.t * Db :=
  match recipes db !! id with
  | None => (Err (AppError "No recipe found with that ID" 404), db)
  | Some recipe =>
      let denied : Result bool :=
        if bool_decide (Recipe.visibility recipe = Recipe.private) then
          match req_user with
          | None => Ok true
          | Some u =>
              andThen (populatedAuthorEquals recipe u db) (fun isAuthor =>
                Ok (negb isAuthor && bool_decide (User.role u ≠ User.admin)))
          end
        else Ok false in
      match denied with
      | Err e => (Err e, db)
      | Ok true =>
          (Err (AppError "You do not have permission to view this recipe" 403),
           db)
      | Ok false =>
          let counts : Result bool :=
            match req_user with
            | None => Ok true
            | Some u =>
                andThen (populatedAuthorEquals recipe u db) (fun isAuthor =>
                  Ok (negb isAuthor))
            end in
          match counts with
          | Err e => (Err e, db)
          | Ok true =>
              let '(recipe', db') := incrementViews recipe db in
              (Ok recipe', db')
          | Ok false => (Ok recipe, db)
          end
      end
  end.

(** The body of a creation request that passed validateRecipeCreation:
    the paths the route requires, and the further schema paths a body may
    name. *)
Record RecipeData := {
  d_title : string;
  d_prepTime : Z;
  d_cookTime : Z;
  d_difficulty : string;
  d_category : ObjectId;
  d_cuisine : string;
  d_totalTime : option Z;
  d_dietaryRestrictions : option (list string);
  d_ratings : option (list Recipe.Rating);
  d_averageRating : option Q;
  d_totalRatings : option Z;
  d_bookmarks : option (list ObjectId);
  d_author : option ObjectId;
  d_status : option Recipe.Status;
  d_visibility : option Recipe.Visibility;
  d_views : option Z
}.

(** The document that [new Recipe({ ...req.body, author })] builds under
    the id [newId]: the author of the body gives way to the caller, the
    string setters apply, absent paths take the schema defaults. *)
Definition newDocument (data : RecipeData) (author : ObjectId)
    (newId : ObjectId) : Recipe.t :=
  {| Recipe._id := newId;
     Recipe.title := RecipeSchema.trimmed (d_title data);
     Recipe.prepTime := d_prepTime data;
     Recipe.cookTime := d_cookTime data;
     Recipe.totalTime := d_totalTime data;
     Recipe.difficulty := d_difficulty data;
     Recipe.category := d_category data;
     Recipe.cuisine := RecipeSchema.trimmed (d_cuisine data);
     Recipe.dietaryRestrictions := default [] (d_dietaryRestrictions data);
     Recipe.ratings :=
       (fun r => {| Recipe.user := Recipe.user r;
                    Recipe.rating := Recipe.rating r;
                    Recipe.review := RecipeSchema.trimmed <$> Recipe.review r |})
       <$> default [] (d_ratings data);
     Recipe.averageRating := default 0%Q (d_averageRating data);
     Recipe.totalRatings := default 0%Z (d_totalRatings data);
     Recipe.bookmarks := default [] (d_bookmarks data);
     Recipe.author := author;
     Recipe.status := default Recipe.draft (d_status data);
     Recipe.visibility := default Recipe.public (d_visibility data);
     Recipe.views := default 0%Z (d_views data) |}.

(** [Recipe.create(recipeData)]: validation, then the save middleware,
    then the insertion, which fails on an id that is taken. *)
Definition Recipe_create (this : Recipe.t) (db : Db) : Result Recipe.t * Db :=
  if negb (RecipeSchema.validate this) then (Err StoreError, db)
  else
    match recipes db !! Recipe._id this with
    | Some _ => (Err StoreError, db)
    | None => let '(this', db') := Recipe_save this db in (Ok this', db')
    end.

(** createRecipe. *)
Definition createRecipe (req_user : User.t) (body : RecipeData)
    (newId : ObjectId) (db : Db) : Result Recipe.t * Db :=
  if JS.truthy_str (Some (d_category body))
     && bool_decide (categories db !! d_category body = None)
  then (Err (AppError "Invalid category ID" 400), db)
  else
    match Recipe_create (newDocument body (User._id req_user) newId) db with
    | (Err e, _) => (Err e, db)
    | (Ok newRecipe, db1) =>
        (Ok newRecipe,
         if bool_decide (is_Some (categories db1 !! Recipe.category newRecipe))
         then set_categories
                (alter (Category.inc_recipeCount 1) (Recipe.category newRecipe)
                   (categories db1)) db1
         else db1)
    end.

(** deleteRecipe; a success answers 204. *)
Definition deleteRecipe (id : ObjectId) (req_user : User.t) (db : Db)
    : Result unit * Db :=
  match recipes db !! id with
  | None => (Err (AppError "No recipe found with that ID" 404), db)
  | Some recipe =>
      if bool_decide (Recipe.author recipe ≠ User._id req_user)
         && bool_decide (User.role req_user ≠ User.admin)
      then (Err (AppError "You can only delete your own recipes" 403), db)
      else
        let cats :=
          if JS.truthy_str (Some (Recipe.category recipe))
          then alter (Category.inc_recipeCount (-1)) (Recipe.category recipe)
                 (categories db)
          else categories db in
        (Ok (), set_recipes (delete id (recipes db)) (set_categories cats db))
  end.

(** The page of a listing with its pagination block. *)
Definition pageOf (page0 limit0 : Z) (total0 : nat) (found : list Recipe.t)
    : RecipeList :=
  {| results := length found;
     pagination :=
       {| page := page0;
          limit := limit0;
          total := Z.of_nat total0;
          pages := JS.Math_ceil (inject_Z (Z.of_nat total0) / inject_Z limit0) |};
     data_recipes := found |}.

(** getMyRecipes. *)
Definition getMyRecipes `{DocumentStore} (req_query : obj) (req_user : User.t)
    (db : Db) : Result RecipeList :=
  let page0 := JS.num_or (parseParam (obj_get "page" req_query) (Some 10%N)) 1 in
  let limit0 := JS.num_or (parseParam (obj_get "limit" req_query) (Some 10%N)) 10 in
  let skip := ((page0 - 1) * limit0)%Z in
  let mine := fun r => bool_decide (Recipe.author r = User._id req_user) in
  andThen (paged "-createdAt" skip limit0 (selectWhere mine db))
    (fun found =>
       Ok (pageOf page0 limit0 (length (selectWhere mine db)) found)).

(** recipeSchema.statics.findPopular; the sort specification
    [{ averageRating: -1, totalRatings: -1, views: -1 }] is written in
    its string form. *)
Definition findPopular `{DocumentStore} (limit0 : Z) (db : Db)
    : Result (list Recipe.t) :=
  paged "-averageRating -totalRatings -views" 0 limit0 (selectWhere listed db).

(** recipeSchema.statics.findByDietaryRestrictions: [$in] asks for one
    restriction in common. *)
Definition findByDietaryRestrictions (restrictions : list string) (db : Db)
    : list Recipe.t :=
  selectWhere
    (fun r =>
       existsb (fun d => bool_decide (d ∈ restrictions))
         (Recipe.dietaryRestrictions r)
       && listed r)
    db.

(** getPopularRecipes. *)
Definition getPopularRecipes `{DocumentStore} (req_query : obj) (db : Db)
    : Result (nat * list Recipe.t) :=
  let limit0 := JS.num_or (parseParam (obj_get "limit" req_query) (Some 10%N)) 10 in
  andThen (findPopular limit0 db) (fun found => Ok (length found, found)).

(** getRecipesByCategory; the response carries the category beside the
    page. *)
Definition getRecipesByCategory `{DocumentStore} (categoryId : ObjectId)
    (req_query : obj) (db : Db) : Result (Category.t * RecipeList) :=
  let page0 := JS.num_or (parseParam (obj_get "page" req_query) (Some 10%N)) 1 in
  let limit0 := JS.num_or (parseParam (obj_get "limit" req_query) (Some 10%N)) 12 in
  let skip := ((page0 - 1) * limit0)%Z in
  match categories db !! categoryId with
  | None => Err (AppError "Category not found" 404)
  | Some category =>
      let inCategory := fun r =>
        bool_decide (Recipe.category r = categoryId) && listed r in
      andThen (paged "-createdAt" skip limit0 (selectWhere inCategory db))
        (fun found =>
           Ok (category,
               pageOf page0 limit0 (length (selectWhere inCategory db)) found))
  end.

End RecipeHandlers.

(** ** The rest of the category model and controller *)

Module CategoryHandlers.

(** categorySchema.virtual('fullPath'): [this.path || this.slug]. *)
Definition fullPath (this : Category.t) : option string :=
  if JS.truthy_str (Category.path this) then Category.path this
  else Category.slug this.

(** categorySchema.methods.getAncestors.  The loop follows the parent
    references and puts each category it finds in front of the list; it
    stops at a category without parent or at a reference that finds
    nothing.  [fuel] bounds the number of look-ups; [None] says that the
    loop was still running when the fuel ran out. *)
Fixpoint getAncestors_loop (fuel : nat) (findById : ObjectId -> option Category.t)
    (current : Category.t) (ancestors : list Category.t)
    : option (list Category.t) :=
  match Category.parent current with
  | None => Some ancestors
  | Some p =>
      match fuel with
      | O => None
      | S fuel' =>
          match findById p with
          | Some found => getAncestors_loop fuel' findById found (found :: ancestors)
          | None => Some ancestors
          end
      end
  end.

Definition getAncestors (fuel : nat) (this : Category.t) (db : Db)
    : option (list Category.t) :=
  getAncestors_loop fuel (fun id => categories db !! id) this [].

(** The way up from a category: its parent, the parent of that one, and
    so on, until a category without parent or a reference that finds
    nothing. *)
Inductive climbs (findById : ObjectId -> option Category.t)
    : Category.t -> list Category.t -> Prop :=
| climbs_root c :
    Category.parent c = None -> climbs findById c []
| climbs_dangling c p :
    Category.parent c = Some p -> findById p = None -> climbs findById c []
| climbs_step c p c' up :
    Category.parent c = Some p -> findById p = Some c' ->
    climbs findById c' up -> climbs findById c (c' :: up).

(** What the second save hook establishes between a category and its
    parent: the parent, when it is in the store, has a level that is not
    negative and lies below the level of the category. *)
Definition belowParent (findById : ObjectId -> option Category.t)
    (c : Category.t) : bool :=
  match Category.parent c with
  | Some p =>
      match findById p with
      | Some c' =>
          (0 <=? Category.level c')%Z
          && (Category.level c' <? Category.level c)%Z
      | None => true
      end
  | None => true
  end.

Definition levelsDecrease (db : Db) : bool :=
  forallb (belowParent (fun id => categories db !! id))
    (documents (categories db)).

(** getCategory: the category and its five most recent listed recipes. *)
Definition getCategory `{DocumentStore} (id : ObjectId) (db : Db)
    : Result (Category.t * list Recipe.t) :=
  match categories db !! id with
  | None => Err (AppError "No category found with that ID" 404)
  | Some category =>
      RecipeController.andThen
        (RecipeHandlers.paged "-createdAt" 0 5
           (RecipeHandlers.selectWhere
              (fun r =>
                 bool_decide (Recipe.category r = Category._id category)
                 && RecipeHandlers.listed r)
              db))
        (fun recentRecipes => Ok (category, recentRecipes))
  end.

(** getCategoryBySlug. *)
Definition getCategoryBySlug (slug0 : string) (db : Db) : Result Category.t :=
  match
    List.find
      (fun c => bool_decide (Category.slug c = Some slug0)
                && bool_decide (Category.status c = "active"))
      (documents (categories db))
  with
  | Some category => Ok category
  | None => Err (AppError "No category found with that slug" 404)
  end.

End CategoryHandlers.

(** ** The authorization middleware and the routes *)

Module Middleware.

(** restrictTo(...roles). *)
Definition restrictTo (roles : list User.Role) (req_user : User.t)
    : Result unit :=
  if negb (bool_decide (User.role req_user ∈ roles)) then
    Err (AppError "You do not have permission to perform this action" 403)
  else Ok ().

(** checkOwnership(Recipe): of [resource.author || resource.createdBy ||
    resource.user] a recipe has the first. *)
Definition checkOwnership (id : ObjectId) (req_user : User.t) (db : Db)
    : Result Recipe.t :=
  match recipes db !! id with
  | None => Err (AppError "Resource not found" 404)
  | Some resource =>
      if bool_decide (User.role req_user = User.admin) then Ok resource
      else
        let ownerField := Recipe.author resource in
        if negb (JS.truthy_str (Some ownerField))
           || negb (bool_decide (ownerField = User._id req_user))
        then Err (AppError "You can only access your own resources" 403)
        else Ok resource
  end.

(** handleValidationError: one message per failed check, in the order of
    the checks. *)
Definition handleValidationError (messages : list string) : Error :=
  AppError ("Validation failed: " +:+ JS.join ", " messages) 400.

(** The last element of a validation chain: fail when a check failed. *)
Definition validated (messages : list string) : Result unit :=
  match messages with
  | [] => Ok ()
  | _ => Err (handleValidationError messages)
  end.

End Middleware.

Module Routes.

Import RecipeController.

(** The routers are parametric in what the validator library decides:
    [isMongoId] says which strings it takes for object ids. *)
Section Routers.

Variable isMongoId : string -> bool.
Variable verify : string -> Auth.Verified.
Variable now : Z.

(** validateObjectId of a router, with its message. *)
Definition validateObjectId (message : string) (id : string) : Result unit :=
  Middleware.validated (if isMongoId id then [] else [message]).

(** A mutating handler behind middleware: an error of the middleware
    ends the request and leaves the store alone. *)
Definition guard {A B} (check : Result A) (db : Db)
    (k : A -> Result B * Db) : Result B * Db :=
  match check with
  | Ok a => k a
  | Err e => (Err e, db)
  end.

(** GET /api/recipes/:id, a public route: no middleware sets [req.user]. *)
Definition GET_recipe (id : string) (db : Db) : Result Recipe.t * Db :=
  guard (validateObjectId "Invalid recipe ID" id) db (fun _ =>
    RecipeHandlers.getRecipe id None db).

(** DELETE /api/recipes/:id: protect, validateObjectId,
    checkOwnership(Recipe), deleteRecipe. *)
Definition DELETE_recipe (req : Auth.Request) (id : string) (db : Db)
    : Result unit * Db :=
  guard (Auth.protect verify now req db) db (fun req_user =>
  guard (validateObjectId "Invalid recipe ID" id) db (fun _ =>
  guard (Middleware.checkOwnership id req_user db) db (fun _ =>
    RecipeHandlers.deleteRecipe id req_user db))).

(** The body of a rating request: [rating] is [None] when it is absent
    or not an integer numeral. *)
Record RatingBody := {
  body_rating : option Z;
  body_review : option string
}.

(** validateRating: the messages of the failed checks.  The chain trims
    the review before it measures it. *)
Definition validateRating (body : RatingBody) : list string :=
  (match body_rating body with
   | Some n => if (1 <=? n)%Z && (n <=? 5)%Z then []
               else ["Rating must be between 1 and 5"]
   | None => ["Rating must be between 1 and 5"]
   end)
  ++ (match body_review body with
      | Some s =>
          if (String.length (RecipeSchema.trimmed s) <=? 1000)%nat then []
          else ["Review cannot exceed 1000 characters"]
      | None => []
      end).

(** POST /api/recipes/:id/rate: protect, validateObjectId,
    validateRating, rateRecipe; the handler reads the trimmed review. *)
Definition POST_rate (req : Auth.Request) (id : string) (body : RatingBody)
    (db : Db) : Result RatingData * Db :=
  guard (Auth.protect verify now req db) db (fun req_user =>
  guard (validateObjectId "Invalid recipe ID" id) db (fun _ =>
  guard (Middleware.validated (validateRating body)) db (fun _ =>
    rateRecipe id (User._id req_user) (default 0%Z (body_rating body))
      (RecipeSchema.trimmed <$> body_review body) db))).

(** DELETE /api/categories/:id: protect, restrictTo('admin',
    'moderator'), validateObjectId, deleteCategory. *)
Definition DELETE_category (req : Auth.Request) (id : string) (db : Db)
    : Result unit * Db :=
  guard (Auth.protect verify now req db) db (fun req_user =>
  guard (Middleware.restrictTo [User.admin; User.moderator] req_user) db
    (fun _ =>
  guard (validateObjectId "Invalid category ID" id) db (fun _ =>
    CategoryController.deleteCategory id db))).

End Routers.

End Routes.

(** ** Further sample data *)

Module Samples.

(** A private recipe of alice. *)
Definition secret : Recipe.t :=
  {| Recipe._id := "r4"; Recipe.title := "Family cake";
     Recipe.prepTime := 20; Recipe.cookTime := 35;
     Recipe.totalTime := Some 55%Z; Recipe.difficulty := "intermediate";
     Recipe.category := "c2"; Recipe.cuisine := "french";
     Recipe.dietaryRestrictions := []; Recipe.ratings := [];
     Recipe.averageRating := 0; Recipe.totalRatings := 0;
     Recipe.bookmarks := []; Recipe.author := "u1";
     Recipe.status := Recipe.published; Recipe.visibility := Recipe.private;
     Recipe.views := 4 |}.

(** A public recipe whose author's account is gone. *)
Definition orphan : Recipe.t :=
  {| Recipe._id := "r5"; Recipe.title := "Old bread";
     Recipe.prepTime := 25; Recipe.cookTime := 50;
     Recipe.totalTime := Some 75%Z; Recipe.difficulty := "beginner";
     Recipe.category := "c2"; Recipe.cuisine := "german";
     Recipe.dietaryRestrictions := []; Recipe.ratings := [];
     Recipe.averageRating := 0; Recipe.totalRatings := 0;
     Recipe.bookmarks := []; Recipe.author := "u7";
     Recipe.status := Recipe.published; Recipe.visibility := Recipe.public;
     Recipe.views := 9 |}.

Definition db_mixed : Db :=
  {| recipes :=
       <["r1" := Examples.soup]> (<["r4" := secret]> (<["r5" := orphan]> ∅));
     categories := Examples.the_categories; users := Examples.the_users |}.

(** A creation request that names somebody else as the author. *)
Definition pancakes : RecipeHandlers.RecipeData :=
  {| RecipeHandlers.d_title := "  Pancakes ";
     RecipeHandlers.d_prepTime := 5;
     RecipeHandlers.d_cookTime := 10;
     RecipeHandlers.d_difficulty := "beginner";
     RecipeHandlers.d_category := "c3";
     RecipeHandlers.d_cuisine := "american";
     RecipeHandlers.d_totalTime := Some 1%Z;
     RecipeHandlers.d_dietaryRestrictions := Some ["vegetarian"];
     RecipeHandlers.d_ratings := None;
     RecipeHandlers.d_averageRating := None;
     RecipeHandlers.d_totalRatings := None;
     RecipeHandlers.d_bookmarks := None;
     RecipeHandlers.d_author := Some "u1";
     RecipeHandlers.d_status := None;
     RecipeHandlers.d_visibility := None;
     RecipeHandlers.d_views := None |}.

(** The same request for a category that does not exist. *)
Definition misfiled : RecipeHandlers.RecipeData :=
  {| RecipeHandlers.d_title := "Pancakes";
     RecipeHandlers.d_prepTime := 5;
     RecipeHandlers.d_cookTime := 10;
     RecipeHandlers.d_difficulty := "beginner";
     RecipeHandlers.d_category := "c8";
     RecipeHandlers.d_cuisine := "american";
     RecipeHandlers.d_totalTime := None;
     RecipeHandlers.d_dietaryRestrictions := None;
     RecipeHandlers.d_ratings := None;
     RecipeHandlers.d_averageRating := None;
     RecipeHandlers.d_totalRatings := None;
     RecipeHandlers.d_bookmarks := None;
     RecipeHandlers.d_author := None;
     RecipeHandlers.d_status := None;
     RecipeHandlers.d_visibility := None;
     RecipeHandlers.d_views := None |}.

(** The body of a PATCH that names the category itself as its parent. *)
Definition own_parent : CategoryController.CategoryBody :=
  {| CategoryController.b_name := None;
     CategoryController.b_code := None;
     CategoryController.b_slug := None;
     CategoryController.b_parent := Some "c3";
     CategoryController.b_level := None;
     CategoryController.b_path := None |}.

(** A verifier that knows one token of root and one of alice. *)
Definition verify (token : string) : Auth.Verified :=
  if decide (token = "root-token") then Auth.Decoded "u0" 1700000000
  else if decide (token = "alice-token") then Auth.Decoded "u1" 1700000000
  else Auth.JsonWebTokenError.

(** The ids of the sample stores have two characters. *)
Definition isSampleId (id : string) : bool :=
  bool_decide (String.length id = 2).

End Samples.

(** * Properties *)

(** ** The primitives on sample inputs *)

Example parseInt_samples :
  JS.parseInt "12" (Some 10%N) = Some 12%Z
  /\ JS.parseInt " -7px" (Some 10%N) = Some (-7)%Z
  /\ JS.parseInt "abc" (Some 10%N) = None
  /\ JS.parseInt "0x1f" None = Some 31%Z
  /\ JS.parseInt "0x1f" (Some 10%N) = Some 0%Z
  /\ JS.num_or (JS.parseInt "0" (Some 10%N)) 12 = 12%Z.
Proof. repeat split. Qed.

Example split_samples :
  JS.split ","%char "vegan,keto" = ["vegan"; "keto"]
  /\ JS.split " "%char "Bearer abc" = ["Bearer"; "abc"]
  /\ JS.split ","%char "" = [""]
  /\ JS.join " " ["-rating"; "title"] = "-rating title".
Proof. repeat split. Qed.

Example dollar_ops_samples :
  dollar_ops "gte" = "$gte"
  /\ dollar_ops "lt" = "$lt"
  /\ dollar_ops "gt-lte" = "$gt-$lte"
  /\ dollar_ops "gtx" = "gtx"
  /\ dollar_ops "agte" = "agte"
  /\ dollar_ops "status" = "status".
Proof. repeat split. Qed.

Example advancedFilter_sample :
  advancedFilter [("prepTime", JObj [("gte", JStr "5"); ("lt", JStr "30")])]
  = [("prepTime", JObj [("$gte", JStr "5"); ("$lt", JStr "30")])].
Proof. reflexivity. Qed.

Example merge_obj_samples :
  merge_obj [("status", JStr "draft")]
    [("status", JStr "published"); ("visibility", JStr "public")]
  = [("status", JStr "published"); ("visibility", JStr "public")]
  /\ merge_obj [("status", JObj [("$ne", JStr "published")])]
       [("status", JStr "published")]
     = [("status", JStr "published")]
  /\ merge_obj [("prepTime", JObj [("$gte", JStr "5")])]
       [("prepTime", JObj [("$lte", JNum 30)])]
     = [("prepTime", JObj [("$gte", JStr "5"); ("$lte", JNum 30)])].
Proof. repeat split. Qed.

Example roundedMean_samples :
  Spec.roundedMean [5; 4; 4]%Z = 43 # 10
  /\ Spec.roundedMean [5; 4]%Z = 45 # 10
  /\ Spec.roundedMean [1; 1; 2; 1]%Z = 13 # 10.
Proof. vm_compute. repeat split. Qed.

(** ** Recipes: derived fields on save *)

Section RecipeSetters.

Implicit Types (r : Recipe.t).

Lemma preSave_totalTime_fields r :
  Recipe.totalTime (Recipe.preSave_totalTime r)
    = Some (Recipe.prepTime r + Recipe.cookTime r)%Z
  /\ Recipe._id (Recipe.preSave_totalTime r) = Recipe._id r
  /\ Recipe.prepTime (Recipe.preSave_totalTime r) = Recipe.prepTime r
  /\ Recipe.cookTime (Recipe.preSave_totalTime r) = Recipe.cookTime r
  /\ Recipe.ratings (Recipe.preSave_totalTime r) = Recipe.ratings r
  /\ Recipe.bookmarks (Recipe.preSave_totalTime r) = Recipe.bookmarks r
  /\ Recipe.averageRating (Recipe.preSave_totalTime r) = Recipe.averageRating r
  /\ Recipe.totalRatings (Recipe.preSave_totalTime r) = Recipe.totalRatings r.
Proof. by destruct r. Qed.

Lemma preSave_averageRating_keeps r :
  Recipe._id (Recipe.preSave_averageRating r) = Recipe._id r
  /\ Recipe.prepTime (Recipe.preSave_averageRating r) = Recipe.prepTime r
  /\ Recipe.cookTime (Recipe.preSave_averageRating r) = Recipe.cookTime r
  /\ Recipe.totalTime (Recipe.preSave_averageRating r) = Recipe.totalTime r
  /\ Recipe.ratings (Recipe.preSave_averageRating r) = Recipe.ratings r
  /\ Recipe.bookmarks (Recipe.preSave_averageRating r) = Recipe.bookmarks r.
Proof.
  unfold Recipe.preSave_averageRating.
  case_bool_decide; by destruct r.
Qed.

Lemma preSave_keeps r :
  Recipe._id (Recipe.preSave r) = Recipe._id r
  /\ Recipe.prepTime (Recipe.preSave r) = Recipe.prepTime r
  /\ Recipe.cookTime (Recipe.preSave r) = Recipe.cookTime r
  /\ Recipe.ratings (Recipe.preSave r) = Recipe.ratings r
  /\ Recipe.bookmarks (Recipe.preSave r) = Recipe.bookmarks r.
Proof.
  unfold Recipe.preSave.
  destruct (preSave_averageRating_keeps (Recipe.preSave_totalTime r))
    as (-> & -> & -> & _ & -> & ->).
  destruct (preSave_totalTime_fields r) as (_ & -> & -> & -> & -> & -> & _).
  done.
Qed.

(** The sum that [reduce] accumulates from the left is the sum of the
    rating values. *)
Lemma reduce_sum (rs : list Recipe.Rating) (acc : Z) :
  foldl (fun sum rating0 => (sum + Recipe.rating rating0)%Z) acc rs
  = (acc + foldr Z.add 0 (Recipe.rating <$> rs))%Z.
Proof.
  revert acc. induction rs as [|x rs IH]; intros acc.
  - cbn [foldl fmap list_fmap foldr]. lia.
  - rewrite fmap_cons. cbn [foldl foldr]. rewrite IH. lia.
Qed.

Lemma preSave_averageRating_some r :
  Recipe.ratings r <> [] ->
  Recipe.averageRating (Recipe.preSave_averageRating r)
    = Spec.roundedMean (Recipe.rating <$> Recipe.ratings r)
  /\ Recipe.totalRatings (Recipe.preSave_averageRating r)
    = Z.of_nat (length (Recipe.ratings r)).
Proof.
  intros Hne. unfold Recipe.preSave_averageRating.
  rewrite bool_decide_eq_true_2
    by (destruct (Recipe.ratings r); [done | simpl; lia]).
  rewrite reduce_sum, Z.add_0_l.
  unfold Spec.roundedMean, Spec.mean. rewrite length_fmap.
  by destruct r.
Qed.

Lemma preSave_averageRating_none r :
  Recipe.ratings r = [] -> Recipe.preSave_averageRating r = r.
Proof.
  intros Hnil. unfold Recipe.preSave_averageRating. by rewrite Hnil.
Qed.

End RecipeSetters.

(** What [recipe.save()] leaves in the store, and in the document the
    caller holds. *)
Lemma Recipe_save_stored (this : Recipe.t) (db : Db) :
  recipes (Recipe_save this db).2 !! Recipe._id this
  = Some (Recipe_save this db).1.
Proof.
  unfold Recipe_save. cbn.
  destruct (preSave_keeps this) as (-> & _).
  apply lookup_insert_eq.
Qed.

Lemma Recipe_save_totalTime (this : Recipe.t) (db : Db) :
  Recipe.totalTime (Recipe_save this db).1
  = Some (Recipe.prepTime (Recipe_save this db).1
          + Recipe.cookTime (Recipe_save this db).1)%Z.
Proof.
  unfold Recipe_save. cbn. unfold Recipe.preSave.
  destruct (preSave_averageRating_keeps (Recipe.preSave_totalTime this))
    as (_ & -> & -> & -> & _).
  by destruct this.
Qed.

Lemma Recipe_save_ratings (this : Recipe.t) (db : Db) :
  let this' := (Recipe_save this db).1 in
  let db' := (Recipe_save this db).2 in
  recipes db' !! Recipe._id this = Some this'
  /\ Recipe.ratings this' = Recipe.ratings this
  /\ (Recipe.ratings this <> [] ->
      Recipe.averageRating this'
        = Spec.roundedMean (Recipe.rating <$> Recipe.ratings this')
      /\ Recipe.totalRatings this' = Z.of_nat (length (Recipe.ratings this')))
  /\ (Recipe.ratings this = [] ->
      Recipe.averageRating this' = Recipe.averageRating this
      /\ Recipe.totalRatings this' = Recipe.totalRatings this).
Proof.
  cbn zeta. split; [apply Recipe_save_stored|].
  unfold Recipe_save. cbn [fst snd].
  destruct (preSave_keeps this) as (_ & _ & _ & Hr & _).
  split; [done|]. rewrite Hr. unfold Recipe.preSave.
  destruct (preSave_totalTime_fields this)
    as (_ & _ & _ & _ & Hr0 & _ & Ha0 & Ht0).
  split; intros H.
  - rewrite <- Hr0. apply preSave_averageRating_some. by rewrite Hr0.
  - rewrite preSave_averageRating_none by (by rewrite Hr0). done.
Qed.

(** C2, as amended: a save recomputes [averageRating] and [totalRatings]
    from the embedded ratings whenever that list is not empty, whatever
    mutation led to the save; with an empty list it leaves both fields as
    they were. *)
Theorem save_recomputes_ratings (this : Recipe.t) (db : Db) :
  let this' := (Recipe_save this db).1 in
  let db' := (Recipe_save this db).2 in
  recipes db' !! Recipe._id this = Some this'
  /\ Recipe.ratings this' = Recipe.ratings this
  /\ (Recipe.ratings this <> [] ->
      Recipe.averageRating this'
        = Spec.roundedMean (Recipe.rating <$> Recipe.ratings this')
      /\ Recipe.totalRatings this' = Z.of_nat (length (Recipe.ratings this')))
  /\ (Recipe.ratings this = [] ->
      Recipe.averageRating this' = Recipe.averageRating this
      /\ Recipe.totalRatings this' = Recipe.totalRatings this).
Proof. apply Recipe_save_ratings. Qed.

(** C2, as stated, fails on a recipe without ratings: the save keeps the
    [totalRatings] and [averageRating] the document came with. *)
Lemma save_keeps_stale_aggregates :
  let this' := (Recipe_save Examples.imported Examples.db_empty).1 in
  Recipe.ratings this' = []
  /\ Recipe.totalRatings this' = 3%Z
  /\ Recipe.totalRatings this' <> Z.of_nat (length (Recipe.ratings this'))
  /\ Recipe.averageRating this' = 9 # 2.
Proof. vm_compute. repeat split; congruence. Qed.

(** C6 at its failing input: alice's PATCH of her soup raises [prepTime]
    from 10 to 60; the update goes through [findByIdAndUpdate], the save
    hook does not run, and the stored [totalTime] stays 30 while
    [prepTime + cookTime] is 80. *)
Theorem updateRecipe_stale_totalTime :
  let out :=
    RecipeController.updateRecipe "r1" Examples.alice Examples.slower_soup
      Examples.db_soup in
  exists updated,
    out.1 = Ok updated
    /\ recipes out.2 !! "r1" = Some updated
    /\ Recipe.prepTime updated = 60%Z
    /\ Recipe.cookTime updated = 20%Z
    /\ Recipe.totalTime updated = Some 30%Z
    /\ Recipe.totalTime updated
       <> Some (Recipe.prepTime updated + Recipe.cookTime updated)%Z.
Proof.
  eexists. split; [vm_compute; reflexivity|].
  vm_compute. repeat split; congruence.
Qed.

(** ** Recipes: bookmarks *)

Section Bookmarks.

Implicit Types (u v : string) (l : list string).






Lemma set_bookmarks_fields (r : Recipe.t) l :
  Recipe._id (Recipe.set_bookmarks l r) = Recipe._id r
  /\ Recipe.bookmarks (Recipe.set_bookmarks l r) = l.
Proof. by destruct r. Qed.

(** One call of toggleBookmark on a stored recipe. *)
Lemma toggleBookmark_stored (id u : string) (r : Recipe.t) (db : Db) :
  recipes db !! id = Some r -> Recipe._id r = id ->
  exists r',
    recipes (RecipeController.toggleBookmark id u db).2 !! id = Some r'
    /\ Recipe._id r' = id
    /\ Recipe.bookmarks r' = RecipeController.toggle u (Recipe.bookmarks r)
    /\ (RecipeController.toggleBookmark id u db).1
       = Ok {| RecipeController.bookmarked :=
                 negb (bool_decide (u ∈ Recipe.bookmarks r));
               RecipeController.bookmarkCount := length (Recipe.bookmarks r') |}.
Proof.
  intros Hr Hid. unfold RecipeController.toggleBookmark. rewrite Hr.
  set (this := Recipe.set_bookmarks _ r).
  destruct (set_bookmarks_fields r
              (RecipeController.toggle u (Recipe.bookmarks r)))
    as [Hid' Hb]. fold this in Hid', Hb.
  pose proof (Recipe_save_stored this db) as Hst.
  destruct (preSave_keeps this) as (Hi & _ & _ & _ & Hbk).
  destruct (Recipe_save this db) as [r' db'] eqn:Hsave.
  assert (r' = Recipe.preSave this) as -> by (by inversion Hsave).
  cbn [fst snd] in *. exists (Recipe.preSave this).
  rewrite Hid', Hid in Hst. rewrite Hi, Hid', Hbk, Hb. done.
Qed.

End Bookmarks.




(** ** Recipes: one rating per user *)

Section Ratings.

Implicit Types (u : string) (rs : list Recipe.Rating) (r : Recipe.t).


Lemma addRating_ratings_fields u (n : Z) (rv : option string) r :
  Recipe._id (Recipe.addRating_ratings u n rv r) = Recipe._id r
  /\ Recipe.author (Recipe.addRating_ratings u n rv r) = Recipe.author r
  /\ Recipe.ratings (Recipe.addRating_ratings u n rv r)
     = filter (fun x => Recipe.user x <> u) (Recipe.ratings r)
       ++ [{| Recipe.user := u; Recipe.rating := n; Recipe.review := rv |}].
Proof. by destruct r. Qed.

Lemma preSave_author r : Recipe.author (Recipe.preSave r) = Recipe.author r.
Proof.
  unfold Recipe.preSave, Recipe.preSave_averageRating.
  case_bool_decide; by destruct r.
Qed.


(** The method addRating on a document filed under its id. *)
Lemma addRating_stored u (n : Z) (rv : option string) r (db : Db) :
  let out := RecipeController.addRating u n rv r db in
  recipes out.2 !! Recipe._id r = Some out.1
  /\ Recipe._id out.1 = Recipe._id r
  /\ Recipe.author out.1 = Recipe.author r
  /\ Recipe.ratings out.1
     = filter (fun x => Recipe.user x <> u) (Recipe.ratings r)
       ++ [{| Recipe.user := u; Recipe.rating := n; Recipe.review := rv |}]
  /\ Recipe.totalRatings out.1 = Z.of_nat (length (Recipe.ratings out.1))
  /\ Recipe.averageRating out.1
     = Spec.roundedMean (Recipe.rating <$> Recipe.ratings out.1).
Proof.
  unfold RecipeController.addRating. cbn zeta.
  set (this := Recipe.addRating_ratings u n rv r).
  destruct (addRating_ratings_fields u n rv r) as (Hi & Ha & Hr).
  fold this in Hi, Ha, Hr.
  destruct (Recipe_save_ratings this db) as (Hst & Hrs & Hsome & _).
  rewrite Hi in Hst.
  assert (Recipe.ratings this <> []) as Hne.
  { rewrite Hr. by destruct (filter _ (Recipe.ratings r)). }
  destruct (Hsome Hne) as [Havg Htot].
  split_and!; try done.
  - unfold Recipe_save. cbn [fst].
    by destruct (preSave_keeps this) as (-> & _).
  - unfold Recipe_save. cbn [fst]. by rewrite preSave_author.
  - by rewrite Hrs.
Qed.



End Ratings.



(** ** Categories: the slug *)

Section Slug.

Implicit Types (C : ascii -> bool) (b c : ascii) (s : list ascii).

(** The scan with a flag and the scan with a look-ahead shrink runs in
    the same way. *)
Lemma replace_runs_from_squash C b s :
  JS.replace_runs_from C [b] false s = Spec.squash C b s
  /\ (forall c, C c = true ->
        b :: JS.replace_runs_from C [b] true s = Spec.squash C b (c :: s)).
Proof.
  induction s as [|a s [IH1 IH2]].
  - split; [done|]. intros c Hc. cbn. by rewrite Hc.
  - assert (forall c, C c = true ->
              Spec.squash C b (c :: a :: s)
              = if C a then Spec.squash C b (a :: s)
                else b :: Spec.squash C b (a :: s)) as Hstep.
    { intros c Hc. change (Spec.squash C b (c :: a :: s))
        with (if C c then
                if C a then Spec.squash C b (a :: s)
                else b :: Spec.squash C b (a :: s)
              else c :: Spec.squash C b (a :: s)).
      by rewrite Hc. }
    assert (JS.replace_runs_from C [b] false (a :: s)
            = Spec.squash C b (a :: s)) as H1.
    { cbn [JS.replace_runs_from]. destruct (C a) eqn:Ha.
      - cbn [app]. by apply IH2.
      - rewrite IH1. cbn [Spec.squash]. by rewrite Ha. }
    split; [exact H1|].
    intros c Hc. rewrite (Hstep c Hc). destruct (C a) eqn:Ha.
    + cbn [JS.replace_runs_from]. rewrite Ha. by apply IH2.
    + rewrite <- H1. cbn [JS.replace_runs_from]. by rewrite Ha.
Qed.

Lemma replace_runs_squash C b s :
  JS.replace_runs C [b] s = Spec.squash C b s.
Proof. apply replace_runs_from_squash. Qed.

(** What a shrunk string is made of. *)
Lemma squash_chars C b s :
  Forall (fun c => c = b \/ (c ∈ s /\ C c = false)) (Spec.squash C b s).
Proof.
  induction s as [|a s IH]; [constructor|].
  assert (Forall (fun c => c = b \/ (c ∈ a :: s /\ C c = false))
            (Spec.squash C b s)) as IH'.
  { eapply Forall_impl; [exact IH|]. intros c [->|[Hc HC]]; [by left|].
    right. split; [by right|done]. }
  cbn [Spec.squash]. destruct (C a) eqn:Ha.
  - destruct s as [|a' s']; [by repeat constructor; left|].
    destruct (C a'); [done|]. constructor; [by left|done].
  - constructor; [|done]. right. split; [by left|done].
Qed.

Lemma trimStart_id s :
  Forall (fun c => JS.is_space c = false) s -> JS.trimStart s = s.
Proof. intros [|c s' Hc _]; [done|]. cbn. by rewrite Hc. Qed.

(** [trim] has nothing to remove from a string without whitespace. *)
Lemma trim_id s :
  Forall (fun c => JS.is_space c = false) s -> JS.trim s = s.
Proof.
  intros Hs. unfold JS.trim. rewrite (trimStart_id s Hs).
  rewrite trimStart_id by (by apply Forall_rev). apply rev_involutive.
Qed.

(** The derivation of the save hook is the derivation the specification
    describes; the final [trim] changes nothing. *)
Lemma slug_of_name_slugify (name0 : string) :
  Category.slug_of_name name0 = Spec.slugify name0.
Proof.
  unfold Category.slug_of_name, Spec.slugify.
  rewrite !replace_runs_squash. f_equal.
  assert (JS.remove_class
            (fun c => negb (JS.is_lower c || JS.is_digit c
                            || JS.is_space c || JS.is_hyphen c))
            (JS.toLowerCase (JS.chars name0))
          = Spec.strip (Spec.lowercase (JS.chars name0))) as ->.
  { unfold JS.remove_class, Spec.strip, Spec.keeps, JS.toLowerCase,
      Spec.lowercase.
    apply filter_ext. intros c. by rewrite negb_involutive. }
  apply trim_id.
  eapply Forall_impl; [apply squash_chars|].
  intros c [->|[Hc _]]; [done|].
  pose proof (squash_chars JS.is_space "-"%char
                (Spec.strip (Spec.lowercase (JS.chars name0)))) as Hall.
  rewrite Forall_forall in Hall.
  destruct (Hall c Hc) as [->|[_ Hsp]]; done.
Qed.

End Slug.

Example slug_of_name_sample :
  Category.slug_of_name "Quick & Easy  Meals" = "quick-easy-meals".
Proof. reflexivity. Qed.

Section CategorySave.

Implicit Types (this : Category.Document) (c : Category.t).

Lemma preSave_slug_cases this :
  (Category.isModified "name" this = true ->
   JS.truthy_str (Category.slug (Category.doc this)) = false ->
   Category.slug (Category.doc (Category.preSave_slug this))
   = Some (Category.slug_of_name (Category.name (Category.doc this))))
  /\ (JS.truthy_str (Category.slug (Category.doc this)) = true ->
      Category.preSave_slug this = this)
  /\ (Category.isModified "name" this = false ->
      Category.preSave_slug this = this)
  /\ Category._id (Category.doc (Category.preSave_slug this))
     = Category._id (Category.doc this).
Proof.
  unfold Category.preSave_slug.
  destruct (Category.isModified "name" this),
    (JS.truthy_str (Category.slug (Category.doc this)));
    cbn [andb negb]; split_and!; try done;
    destruct this as [[] ?]; done.
Qed.

Lemma preSave_path_keeps (findById : string -> option Category.t) this :
  Category.slug (Category.doc (Category.preSave_path findById this))
  = Category.slug (Category.doc this)
  /\ Category._id (Category.doc (Category.preSave_path findById this))
     = Category._id (Category.doc this).
Proof.
  unfold Category.preSave_path.
  destruct (Category.isModified "parent" this); [|done].
  destruct (Category.parent (Category.doc this)) as [p|].
  - destruct (findById p) as [parent0|]; [|done].
    destruct this as [[] ?]; done.
  - destruct this as [[] ?]; done.
Qed.

Lemma addToSet_children_keeps (id : string) c :
  Category.slug (Category.addToSet_children id c) = Category.slug c.
Proof.
  unfold Category.addToSet_children. case_bool_decide; by destruct c.
Qed.

(** A save is refused unless the document has a slug. *)
Lemma Category_save_requires_slug this (db : Db) :
  JS.truthy_str (Category.slug (Category.doc this)) = false ->
  Category_save this db = (Err StoreError, db).
Proof.
  intros Hs. unfold Category_save, CategorySchema.validate.
  rewrite Hs. by rewrite !andb_false_r, ?andb_false_l.
Qed.

(** A save that goes through stores the slug that the document came
    with: the slug hook has nothing to derive on a document that passed
    the validation. *)
Lemma Category_save_slug_kept this (db db' : Db) (saved : Category.Document) :
  Category_save this db = (Ok saved, db') ->
  JS.truthy_str (Category.slug (Category.doc this)) = true
  /\ Category.slug (Category.doc saved) = Category.slug (Category.doc this)
  /\ Category.slug <$> categories db' !! Category._id (Category.doc this)
     = Some (Category.slug (Category.doc this)).
Proof.
  unfold Category_save.
  destruct (JS.truthy_str (Category.slug (Category.doc this))) eqn:Hs.
  2:{ unfold CategorySchema.validate. rewrite Hs.
      by rewrite !andb_false_r, ?andb_false_l. }
  destruct (negb _); [done|]. intros [= <- <-].
  set (this' := Category.preSave _ this).
  assert (Category._id (Category.doc this')
          = Category._id (Category.doc this)
          /\ Category.slug (Category.doc this')
             = Category.slug (Category.doc this)) as [Hid Hslug].
  { unfold this', Category.preSave.
    destruct (preSave_path_keeps (fun id => categories db !! id)
                (Category.preSave_slug this)) as [-> ->].
    destruct (preSave_slug_cases this) as (_ & Hkept & _ & _).
    by rewrite (Hkept Hs). }
  cbn [Category.doc categories set_categories]. rewrite Hid.
  split; [done|]. split; [done|].
  destruct (Category.parent (Category.doc this')) as [p|].
  - rewrite lookup_alter. case_decide as Hp.
    + subst p. rewrite lookup_insert_eq. cbn.
      by rewrite addToSet_children_keeps, Hslug.
    + rewrite lookup_insert_eq. cbn. by rewrite Hslug.
  - rewrite lookup_insert_eq. cbn. by rewrite Hslug.
Qed.

End CategorySave.

(** C9 at its failing input: a category is created with the name
    "Quick & Easy  Meals" and the code QUICK, and without a slug.  The
    slug hook, run on that document, derives quick-easy-meals, the slug
    that the claim describes.  The save never gets that far: the
    validation in front of the hooks refuses the document for its
    missing slug, so nothing is derived and nothing is stored.  The same
    document with that slug supplied is saved. *)
Theorem save_without_slug_refused :
  let this := Examples.legacy_new in
  let out := Category_save this Examples.db_soup in
  let supplied :=
    Category.assign (Category.set_slug (Some "quick-easy-meals")) "slug"
      this in
  Category.isModified "name" this = true
  /\ Category.slug (Category.doc this) = None
  /\ Category.slug (Category.doc (Category.preSave_slug this))
     = Some "quick-easy-meals"
  /\ Spec.slugify (Category.name (Category.doc this)) = "quick-easy-meals"
  /\ out = (Err StoreError, Examples.db_soup)
  /\ categories out.2 !! "c9" = None
  /\ exists saved db',
       Category_save supplied Examples.db_soup = (Ok saved, db')
       /\ Category.slug <$> categories db' !! "c9"
          = Some (Some "quick-easy-meals").
Proof.
  cbv zeta. split_and!; try reflexivity.
  do 2 eexists. split; [vm_compute; reflexivity|]. vm_compute. reflexivity.
Qed.

(** ** Categories: level and path *)

(** What the save hook does when the parent of a document changed and
    the new parent is in the store. *)
Lemma preSave_path_reparent (findById : string -> option Category.t)
    (this : Category.Document) (p : string) (parent0 : Category.t) :
  Category.isModified "parent" this = true ->
  Category.parent (Category.doc this) = Some p ->
  findById p = Some parent0 ->
  let this' := Category.preSave_path findById this in
  Category.level (Category.doc this') = (Category.level parent0 + 1)%Z
  /\ Category.path (Category.doc this')
     = if JS.truthy_str (Category.path parent0)
       then Some (JS.template_str (Category.path parent0) +:+ "/"
                  +:+ JS.template_str (Category.slug (Category.doc this)))
       else Category.slug (Category.doc this).
Proof.
  intros Hm Hp Hf. unfold Category.preSave_path. rewrite Hm, Hp, Hf.
  destruct this as [[] ?]. cbn. by destruct (JS.truthy_str _).
Qed.

(** The hook on a document whose parent was set to none. *)
Lemma preSave_path_root (findById : string -> option Category.t)
    (this : Category.Document) :
  Category.isModified "parent" this = true ->
  Category.parent (Category.doc this) = None ->
  let this' := Category.preSave_path findById this in
  Category.level (Category.doc this') = 0%Z
  /\ Category.path (Category.doc this') = Category.slug (Category.doc this).
Proof.
  intros Hm Hp. unfold Category.preSave_path. rewrite Hm, Hp.
  by destruct this as [[] ?].
Qed.

(** C8 at its failing input: the PATCH that moves "Soups" from under
    "Mains" to under "Italian" (level 1, path mains/italian) goes through
    [findByIdAndUpdate]; the stored category has the new parent and still
    level 1 and path mains/soups.  The same move made on the document and
    saved stores level 2 and path mains/italian/soups. *)
Theorem updateCategory_stale_level_path :
  let out :=
    CategoryController.updateCategory "c3" (User._id Examples.root)
      Examples.move_under_italian
      Examples.db_soup in
  let saved := Category_save Examples.soups_moved Examples.db_soup in
  exists updated parent0 moved,
    out.1 = Ok updated
    /\ categories out.2 !! "c3" = Some updated
    /\ Category.parent updated = Some "c2"
    /\ categories out.2 !! "c2" = Some parent0
    /\ Category.level parent0 = 1%Z
    /\ Category.path parent0 = Some "mains/italian"
    /\ Category.slug updated = Some "soups"
    /\ Category.level updated = 1%Z
    /\ Category.path updated = Some "mains/soups"
    /\ saved.1 = Ok moved
    /\ Category.level (Category.doc moved) = 2%Z
    /\ Category.path (Category.doc moved) = Some "mains/italian/soups".
Proof.
  do 3 eexists. split; [vm_compute; reflexivity|].
  split; [vm_compute; reflexivity|].
  split; [reflexivity|].
  split; [vm_compute; reflexivity|].
  do 5 (split; [reflexivity|]).
  split; [vm_compute; reflexivity|].
  split; reflexivity.
Qed.

(** ** Categories: deletion *)

(** C7, as amended: deleteCategory refuses to delete a category that a
    recipe references or that has children; it answers with an error of
    status 400 and leaves the store as it was, the category included.
    When recipes reference the category the message gives their number;
    when only children stand in the way the message says that the
    category has subcategories and gives no number. *)
Theorem deleteCategory_refused (id : string) (c : Category.t) (db : Db) :
  categories db !! id = Some c ->
  (0 < countRecipesOfCategory id db)%nat \/ Category.children c <> [] ->
  exists msg,
    CategoryController.deleteCategory id db = (Err (AppError msg 400), db)
    /\ categories db !! id = Some c
    /\ ((0 < countRecipesOfCategory id db)%nat ->
        msg = "Cannot delete category with "
              +:+ pretty (countRecipesOfCategory id db)
              +:+ " recipes. Please move or delete the recipes first.")
    /\ (countRecipesOfCategory id db = 0%nat ->
        msg = "Cannot delete category with subcategories. Please delete or move the subcategories first.").
Proof.
  intros Hc Hblock. unfold CategoryController.deleteCategory. rewrite Hc.
  case_bool_decide as Hn.
  - eexists. split; [reflexivity|]. split; [done|]. split; [done|]. lia.
  - case_bool_decide as Hk.
    + eexists. split; [reflexivity|]. split; [done|]. split; [lia|done].
    + destruct Hblock as [?|Hch]; [lia|].
      destruct (Category.children c); [done|]. simpl in Hk. lia.
Qed.

Lemma deleteCategory_refused_witness :
  exists msg,
    CategoryController.deleteCategory "c3" Examples.db_soup
    = (Err (AppError msg 400), Examples.db_soup)
    /\ msg = "Cannot delete category with 1 recipes. Please move or delete the recipes first.".
Proof.
  destruct (deleteCategory_refused "c3" Examples.soups Examples.db_soup)
    as (msg & Hres & _ & Hmsg & _).
  - reflexivity.
  - left. vm_compute. lia.
  - exists msg. split; [exact Hres|].
    rewrite Hmsg by (vm_compute; lia). vm_compute. reflexivity.
Defined.

(** C7, as stated, fails on a category that only has children: the
    refusal carries status 400, and its message holds no numeral at all,
    so it names neither the number of children nor any other count. *)
Lemma deleteCategory_children_message :
  exists msg,
    CategoryController.deleteCategory "c1" Examples.db_soup
    = (Err (AppError msg 400), Examples.db_soup)
    /\ countRecipesOfCategory "c1" Examples.db_soup = 0%nat
    /\ length (Category.children Examples.mains) = 2%nat
    /\ Spec.names_count msg 2 = false
    /\ forallb (fun ch => negb (JS.is_digit ch)) (JS.chars msg) = true.
Proof.
  eexists. split; [vm_compute; reflexivity|]. vm_compute. repeat split.
Qed.

(** ** The auth pipeline *)



(** ** The recipe listing *)

Section Listing.

Context `{DocumentStore}.

Implicit Types (q : list (string * json)) (r : Recipe.t).

Lemma obj_set_self (k : string) (v : json) q : (k, v) ∈ obj_set k v q.
Proof.
  induction q as [|[k' v'] q IH]; cbn; [by left|].
  destruct (decide (k' = k)); [by left|by right].
Qed.

Lemma obj_set_other (k k' : string) (v v' : json) q :
  k <> k' -> (k, v) ∈ q -> (k, v) ∈ obj_set k' v' q.
Proof.
  intros Hne. induction q as [|[k0 v0] q IH]; cbn; [by intros ?%elem_of_nil|].
  intros [[= <- <-]|Hin]%elem_of_cons.
  - destruct (decide (k = k')); [done|by left].
  - destruct (decide (k0 = k')); right; [done|by apply IH].
Qed.

Lemma restricted_merge q :
  Spec.restricted
    (merge_obj q [("status", JStr "published"); ("visibility", JStr "public")]).
Proof.
  unfold merge_obj. cbn. split.
  - apply obj_set_other; [done|apply obj_set_self].
  - apply obj_set_self.
Qed.

Lemma restricted_merge_other q (k : string) (v : json) :
  k <> "status" -> k <> "visibility" ->
  Spec.restricted q -> Spec.restricted (merge_obj q [(k, v)]).
Proof.
  intros H1 H2 [Hs Hv]. unfold merge_obj. cbn.
  split; by apply obj_set_other.
Qed.

(** A guarded [find] on another field keeps the two conditions. *)
Lemma findIf_restricted (guard : option json)
    (conds : json -> Result (list (string * json))) q q' :
  (forall v c, conds v = Ok c ->
     exists k w, c = [(k, w)] /\ k <> "status" /\ k <> "visibility") ->
  Spec.restricted q ->
  RecipeController.findIf guard conds q = Ok q' ->
  Spec.restricted q'.
Proof.
  intros Hconds Hq. unfold RecipeController.findIf, RecipeController.ifParam.
  destruct guard as [v|]; [|by intros [= <-]].
  destruct (truthy (Some v)); [|by intros [= <-]].
  destruct (conds v) as [c|e] eqn:Hc; cbn; [|done].
  intros [= <-]. destruct (Hconds v c Hc) as (k & w & -> & H1 & H2).
  by apply restricted_merge_other.
Qed.

(** What a query returns passes its filter. *)
Lemma exec_find_matches q (sortBy : string) (skip limit0 : Z) (db : Db)
    (found : list Recipe.t) r :
  exec_find q sortBy skip limit0 db = Ok found -> r ∈ found ->
  matches q r = true.
Proof.
  unfold exec_find. destruct (skip <? 0)%Z; [done|]. intros [= <-] Hr.
  assert (r ∈ List.filter (matches q) (documents (recipes db))) as Hin.
  { rewrite <- (sort_docs_perm sortBy).
    eapply subseteq_drop, elem_of_sublist; [exact Hr|apply sublist_take]. }
  apply list_elem_of_In, filter_In in Hin. by destruct Hin.
Qed.

Lemma restricted_matches q r :
  Spec.restricted q -> matches q r = true ->
  Recipe.status r = Recipe.published /\ Recipe.visibility r = Recipe.public.
Proof.
  intros [Hs Hv] Hm. unfold matches in Hm. rewrite forallb_forall in Hm.
  apply list_elem_of_In, Hm in Hs. apply list_elem_of_In, Hm in Hv.
  cbn in Hs, Hv. rewrite cond_match_status in Hs.
  rewrite cond_match_visibility in Hv.
  apply bool_decide_eq_true in Hs, Hv. split.
  - by destruct (Recipe.status r).
  - by destruct (Recipe.visibility r).
Qed.

End Listing.

Ltac next_stage H :=
  match goal with
  | |- RecipeController.andThen ?e _ = Ok _ -> _ =>
      let x := fresh "x" in
      destruct e as [x|] eqn:H; cbn [RecipeController.andThen]; [|done]
  end.

(** C1: when the caller of getAllRecipes is absent or is not an
    administrator, every recipe of the returned list is published and
    public, whatever the query parameters are, those that name [status]
    or [visibility] included. *)
Theorem getAllRecipes_only_published `{DocumentStore}
    (req_query : list (string * json)) (req_user : option User.t) (db : Db)
    (resp : RecipeController.RecipeList) :
  (forall u, req_user = Some u -> User.role u <> User.admin) ->
  RecipeController.getAllRecipes req_query req_user db = Ok resp ->
  forall r, r ∈ RecipeController.data_recipes resp ->
    Recipe.status r = Recipe.published /\ Recipe.visibility r = Recipe.public.
Proof.
  intros Hrole. unfold RecipeController.getAllRecipes. cbv zeta.
  match goal with
  | |- context [RecipeController.findIf (obj_get "search" _) _ ?q] =>
      assert (Spec.restricted q) as Hq1;
        [|generalize dependent q; intros query1 Hq1]
  end.
  { destruct req_user as [u|]; [|apply restricted_merge].
    rewrite bool_decide_eq_true_2 by (by apply Hrole).
    apply restricted_merge. }
  next_stage H2. apply findIf_restricted in H2; [|by intros v c [= <-]; eauto|done].
  next_stage H3. apply findIf_restricted in H3; [|clear|done].
  2:{ intros v c. destruct (RecipeController.splitComma v); [|done].
      intros [= <-]. eauto. }
  next_stage H4. apply findIf_restricted in H4; [|by intros v c [= <-]; eauto|done].
  next_stage H5. apply findIf_restricted in H5; [|by intros v c [= <-]; eauto|done].
  next_stage H6. apply findIf_restricted in H6; [|by intros v c [= <-]; eauto|done].
  next_stage H7. apply findIf_restricted in H7; [|by intros v c [= <-]; eauto|done].
  next_stage Hsort. next_stage Hfields. next_stage Hexec.
  intros [= <-] r Hr. cbn in Hr.
  eapply restricted_matches; [exact H7|].
  eapply exec_find_matches; [exact Hexec|exact Hr].
Qed.

Lemma getAllRecipes_only_published_witness :
  exists resp,
    RecipeController.getAllRecipes
      [("status", JStr "draft"); ("limit", JStr "5")]
      (Some Examples.alice) Examples.db_both = Ok resp
    /\ RecipeController.data_recipes resp = [Examples.soup]
    /\ forall r, r ∈ RecipeController.data_recipes resp ->
         Recipe.status r = Recipe.published
         /\ Recipe.visibility r = Recipe.public.
Proof.
  eexists. split; [vm_compute; reflexivity|]. split; [reflexivity|].
  apply (getAllRecipes_only_published
           [("status", JStr "draft"); ("limit", JStr "5")]
           (Some Examples.alice) Examples.db_both).
  - intros u [= <-]. discriminate.
  - vm_compute. reflexivity.
Defined.

(** C5 at its failing inputs.  The total is counted with the filter of
    the query string alone.  An anonymous listing of a store that holds
    one draft returns no recipe and reports a total of 1 on 1 page; an
    anonymous listing with [status=draft] of a store that holds one
    published recipe returns that recipe on page 1 and reports a total of
    0 on 0 pages. *)
Theorem getAllRecipes_total_of_raw_filter :
  (exists resp,
     RecipeController.getAllRecipes [] None Examples.db_stew = Ok resp
     /\ RecipeController.data_recipes resp = []
     /\ RecipeController.results resp = 0%nat
     /\ RecipeController.total (RecipeController.pagination resp) = 1%Z
     /\ RecipeController.pages (RecipeController.pagination resp) = 1%Z)
  /\ (exists resp,
        RecipeController.getAllRecipes [("status", JStr "draft")] None
          Examples.db_soup = Ok resp
        /\ RecipeController.data_recipes resp = [Examples.soup]
        /\ RecipeController.page (RecipeController.pagination resp) = 1%Z
        /\ RecipeController.limit (RecipeController.pagination resp) = 12%Z
        /\ RecipeController.total (RecipeController.pagination resp) = 0%Z
        /\ RecipeController.pages (RecipeController.pagination resp) = 0%Z).
Proof.
  split; eexists; (split; [vm_compute; reflexivity|]); repeat split.
Qed.

(** * Further properties of the server code *)

(** ** Recipes: the save hooks *)

Section SaveHooks.

Implicit Types (r : Recipe.t) (db : Db).

(** X1: the save middleware is idempotent: a second save right after a
    save changes neither the document nor the store. *)
Theorem Recipe_save_idempotent r db :
  Recipe.preSave (Recipe.preSave r) = Recipe.preSave r
  /\ Recipe_save (Recipe_save r db).1 (Recipe_save r db).2 = Recipe_save r db.
Proof.
  assert (Recipe.preSave (Recipe.preSave r) = Recipe.preSave r) as Hidem.
  { unfold Recipe.preSave, Recipe.preSave_averageRating,
      Recipe.preSave_totalTime.
    destruct r as [i t p c tt d cat cu di rs av tr bk au st vi vw]. cbn.
    destruct rs as [|x rs]; [reflexivity|]. cbn. reflexivity. }
  split; [exact Hidem|].
  unfold Recipe_save. cbn [fst snd]. rewrite Hidem. f_equal.
  unfold set_recipes. cbn. f_equal. apply insert_insert_eq.
Qed.

End SaveHooks.

(** ** Recipes: the average rating *)

Section AverageRating.

Implicit Types (values : list Z).

Lemma sum_bounds values :
  Forall (fun v => 1 <= v <= 5)%Z values ->
  (Z.of_nat (length values) <= foldr Z.add 0 values
   <= 5 * Z.of_nat (length values))%Z.
Proof.
  induction 1 as [|v values Hv _ IH]; cbn [foldr length]; lia.
Qed.

(** The tenfold mean as one fraction. *)
Lemma mean_times_ten values (p : positive) :
  Z.of_nat (length values) = Z.pos p ->
  (Spec.mean values * 10 == ((foldr Z.add 0 values * 10)%Z # p))%Q.
Proof.
  intros Hp. unfold Spec.mean. rewrite Hp.
  unfold Qeq, Qdiv, Qmult, Qinv, inject_Z. cbn [Qnum Qden].
  rewrite !Pos2Z.inj_mul. cbn. lia.
Qed.

Lemma roundedMean_tenths values :
  values <> [] ->
  Forall (fun v => 1 <= v <= 5)%Z values ->
  (10 <= JS.Math_round (Spec.mean values * 10) <= 50)%Z.
Proof.
  intros Hne Hall. pose proof (sum_bounds values Hall) as [Hlo Hhi].
  destruct (Z.of_nat (length values)) as [|p|p] eqn:Hp;
    [by destruct values|clear Hne|lia].
  unfold JS.Math_round.
  rewrite (Qfloor_comp _ (((foldr Z.add 0 values * 10)%Z # p) + (1 # 2))%Q)
    by (by rewrite (mean_times_ten values p Hp)).
  split.
  - apply (Z.le_trans _ (Qfloor (10 # 1))); [done|].
    apply Qfloor_resp_le.
    unfold Qle, Qplus. cbn [Qnum Qden]. rewrite ?Pos2Z.inj_mul. lia.
  - apply (Z.le_trans _ (Qfloor ((50 # 1) + (1 # 2)))); [|done].
    apply Qfloor_resp_le.
    unfold Qle, Qplus. cbn [Qnum Qden]. rewrite ?Pos2Z.inj_mul. lia.
Qed.

End AverageRating.

(** X2: when every rating of a recipe lies between 1 and 5 and there is
    at least one, a save leaves an [averageRating] between 1 and 5 (within
    the bounds 0 and 5 of the schema) that is a whole number of tenths. *)
Theorem averageRating_bounds (this : Recipe.t) :
  Recipe.ratings this <> [] ->
  Forall (fun x => 1 <= Recipe.rating x <= 5)%Z (Recipe.ratings this) ->
  exists tenths : Z,
    Recipe.averageRating (Recipe.preSave this) = (inject_Z tenths / 10)%Q
    /\ (10 <= tenths <= 50)%Z
    /\ (1 <= Recipe.averageRating (Recipe.preSave this) <= 5)%Q.
Proof.
  intros Hne Hall.
  destruct (preSave_keeps this) as (_ & _ & _ & Hr & _).
  assert (Recipe.ratings (Recipe.preSave_totalTime this) <> []) as Hne'.
  { by destruct (preSave_totalTime_fields this) as (_ & _ & _ & _ & -> & _). }
  destruct (preSave_averageRating_some _ Hne') as [Havg _].
  destruct (preSave_totalTime_fields this) as (_ & _ & _ & _ & Hr0 & _).
  rewrite Hr0 in Havg. unfold Recipe.preSave. rewrite Havg.
  unfold Spec.roundedMean.
  assert (Forall (fun v => 1 <= v <= 5)%Z (Recipe.rating <$> Recipe.ratings this))
    as Hvals by (by apply Forall_fmap).
  assert (Recipe.rating <$> Recipe.ratings this <> []) as Hvne
    by (by destruct (Recipe.ratings this)).
  pose proof (roundedMean_tenths _ Hvne Hvals) as [Hlo Hhi].
  revert Hlo Hhi.
  generalize (JS.Math_round (Spec.mean (Recipe.rating <$> Recipe.ratings this)
                             * 10)).
  intros tenths Hlo Hhi. exists tenths. split; [reflexivity|]. split; [done|].
  unfold Qle, Qdiv, Qmult, Qinv, inject_Z. cbn. lia.
Qed.

Lemma averageRating_bounds_witness :
  Recipe.averageRating
    (Recipe.preSave
       (Recipe.addRating_ratings "u2" 4 None
          (Recipe.addRating_ratings "u1" 5 None Examples.soup)))
  = 45 # 10.
Proof.
  destruct (averageRating_bounds
              (Recipe.addRating_ratings "u2" 4 None
                 (Recipe.addRating_ratings "u1" 5 None Examples.soup)))
    as (tenths & Havg & _ & _).
  - discriminate.
  - repeat constructor; cbn; lia.
  - vm_compute. reflexivity.
Defined.

(** ** Recipes: rating again, and counting bookmarks *)

Section Resubmission.

Implicit Types (r : Recipe.t) (u : string) (rs : list Recipe.Rating).

(** The document that a save leaves after a rating was pushed. *)
Lemma preSave_pushed r rs (x : Recipe.Rating) :
  Recipe.preSave (Recipe.set_ratings (rs ++ [x]) r)
  = {| Recipe._id := Recipe._id r;
       Recipe.title := Recipe.title r;
       Recipe.prepTime := Recipe.prepTime r;
       Recipe.cookTime := Recipe.cookTime r;
       Recipe.totalTime := Some (Recipe.prepTime r + Recipe.cookTime r)%Z;
       Recipe.difficulty := Recipe.difficulty r;
       Recipe.category := Recipe.category r;
       Recipe.cuisine := Recipe.cuisine r;
       Recipe.dietaryRestrictions := Recipe.dietaryRestrictions r;
       Recipe.ratings := rs ++ [x];
       Recipe.averageRating :=
         (inject_Z
            (JS.Math_round
               (inject_Z
                  (foldl (fun sum rating0 => (sum + Recipe.rating rating0)%Z)
                     0%Z (rs ++ [x]))
                / inject_Z (Z.of_nat (length (rs ++ [x]))) * 10)) / 10)%Q;
       Recipe.totalRatings := Z.of_nat (length (rs ++ [x]));
       Recipe.bookmarks := Recipe.bookmarks r;
       Recipe.author := Recipe.author r;
       Recipe.status := Recipe.status r;
       Recipe.visibility := Recipe.visibility r;
       Recipe.views := Recipe.views r |}.
Proof.
  unfold Recipe.preSave, Recipe.preSave_averageRating.
  rewrite bool_decide_eq_true_2.
  - by destruct r.
  - destruct r. cbn. rewrite length_app. cbn. lia.
Qed.

Lemma filter_after_push u rs (x : Recipe.Rating) :
  Recipe.user x = u ->
  filter (fun y => Recipe.user y <> u)
    (filter (fun y => Recipe.user y <> u) rs ++ [x])
  = filter (fun y => Recipe.user y <> u) rs.
Proof.
  intros Hx. rewrite filter_app, filter_cons_False, filter_nil, app_nil_r
    by (intros Hne; by apply Hne).
  induction rs as [|y rs IH]; [done|].
  rewrite filter_cons. destruct (decide (Recipe.user y <> u)); [|done].
  rewrite filter_cons_True by done. by rewrite IH.
Qed.

End Resubmission.

(** X3: a user who rates a recipe again replaces the earlier rating: the
    store after two submissions of one user is the store after the second
    submission alone. *)
Theorem rating_resubmission_replaces (id u : string) (n1 n2 : Z)
    (rv1 rv2 : option string) (r : Recipe.t) (db : Db) :
  recipes db !! id = Some r -> Recipe._id r = id ->
  Spec.rateMany id [(u, n1, rv1); (u, n2, rv2)] db
  = Spec.rateMany id [(u, n2, rv2)] db.
Proof.
  intros Hr Hid. unfold Spec.rateMany. cbn [foldl fst snd].
  unfold RecipeController.rateRecipe at 2 3. rewrite Hr.
  case_bool_decide as Hauth.
  - cbn [snd]. unfold RecipeController.rateRecipe. rewrite Hr.
    by rewrite bool_decide_eq_true_2.
  - unfold RecipeController.addRating, Recipe_save,
      Recipe.addRating_ratings.
    rewrite !preSave_pushed. cbn [snd fst Recipe._id].
    unfold RecipeController.rateRecipe. cbn [recipes set_recipes].
    rewrite Hid, lookup_insert_eq. cbn [Recipe.author].
    rewrite bool_decide_eq_false_2 by done.
    unfold RecipeController.addRating, Recipe_save,
      Recipe.addRating_ratings.
    rewrite preSave_pushed. cbn [snd fst Recipe._id Recipe.ratings
      Recipe.title Recipe.prepTime Recipe.cookTime Recipe.difficulty
      Recipe.category Recipe.cuisine Recipe.dietaryRestrictions
      Recipe.bookmarks Recipe.author Recipe.status Recipe.visibility
      Recipe.views recipes categories users set_recipes].
    rewrite filter_after_push by done. rewrite ?Hid.
    unfold set_recipes. cbn [recipes categories users].
    f_equal. apply insert_insert_eq.
Qed.

Lemma rating_resubmission_replaces_witness :
  Spec.rateMany "r1" [("u2", 2%Z, Some "meh"); ("u2", 5%Z, None)]
    Examples.db_soup
  = Spec.rateMany "r1" [("u2", 5%Z, None)] Examples.db_soup.
Proof.
  apply (rating_resubmission_replaces "r1" "u2" 2 5 (Some "meh") None
           Examples.soup Examples.db_soup); reflexivity.
Defined.

Lemma length_pull_member (u : string) (l : list string) :
  NoDup l -> u ∈ l ->
  S (length (RecipeController.pull u l)) = length l.
Proof.
  unfold RecipeController.pull. induction 1 as [|x l Hx Hnd IH].
  - by intros ?%elem_of_nil.
  - rewrite filter_cons. intros [->|Hin]%elem_of_cons.
    + destruct (decide (x <> x)); [done|]. cbn. f_equal.
      f_equal. symmetry. clear IH. induction l as [|y l IHl]; [done|].
      rewrite filter_cons_True by (intros ->; apply Hx; by left).
      f_equal. apply IHl; [|by inversion Hnd].
      intros Hin. apply Hx. by right.
    + destruct (decide (x <> u)) as [_|Heq]; [cbn; by rewrite IH|].
      exfalso. apply Hx. apply dec_stable in Heq. by subst.
Qed.

(** X4: on a recipe whose bookmarks hold no user twice, toggleBookmark
    answers a [bookmarkCount] that is the former number of bookmarks
    plus one when the caller was not in them and minus one when the
    caller was. *)
Theorem toggleBookmark_count (id u : string) (r : Recipe.t) (db : Db) :
  recipes db !! id = Some r -> Recipe._id r = id ->
  NoDup (Recipe.bookmarks r) ->
  exists data,
    (RecipeController.toggleBookmark id u db).1 = Ok data
    /\ Z.of_nat (RecipeController.bookmarkCount data)
       = (if RecipeController.bookmarked data
          then Z.of_nat (length (Recipe.bookmarks r)) + 1
          else Z.of_nat (length (Recipe.bookmarks r)) - 1)%Z.
Proof.
  intros Hr Hid Hnd.
  destruct (toggleBookmark_stored id u r db Hr Hid)
    as (r' & _ & _ & Hb & ->).
  eexists. split; [reflexivity|]. cbn [RecipeController.bookmarkCount
    RecipeController.bookmarked]. rewrite Hb.
  unfold RecipeController.toggle, RecipeController.includes,
    RecipeController.push.
  case_bool_decide as Hin; cbn [negb].
  - pose proof (length_pull_member u _ Hnd Hin). lia.
  - rewrite length_app. cbn. lia.
Qed.

Lemma toggleBookmark_count_witness :
  exists data,
    (RecipeController.toggleBookmark "r1" "u2" Examples.db_soup).1 = Ok data
    /\ RecipeController.bookmarkCount data = 1%nat.
Proof.
  destruct (toggleBookmark_count "r1" "u2" Examples.soup Examples.db_soup)
    as (data & Hres & Hcount); [reflexivity|reflexivity|apply NoDup_nil_2|].
  exists data. split; [exact Hres|].
  vm_compute in Hres. injection Hres as <-. reflexivity.
Defined.

(** ** Reading one recipe *)

Section GetRecipe.

Implicit Types (r : Recipe.t) (db : Db) (u : User.t).

Lemma incrementViews_fields r db :
  let out := RecipeHandlers.incrementViews r db in
  Recipe._id out.1 = Recipe._id r
  /\ Recipe.views out.1 = (Recipe.views r + 1)%Z
  /\ Recipe.visibility out.1 = Recipe.visibility r
  /\ Recipe.status out.1 = Recipe.status r
  /\ Recipe.ratings out.1 = Recipe.ratings r
  /\ Recipe.bookmarks out.1 = Recipe.bookmarks r
  /\ Recipe.author out.1 = Recipe.author r
  /\ recipes out.2 = <[Recipe._id r := out.1]> (recipes db)
  /\ categories out.2 = categories db
  /\ users out.2 = users db.
Proof.
  unfold RecipeHandlers.incrementViews, Recipe_save, Recipe.preSave,
    Recipe.preSave_averageRating, Recipe.incrementViews_views.
  cbn [fst snd]. destruct r. cbn. case_bool_decide; cbn; done.
Qed.

(** X5: getRecipe looks at the visibility only, never at the status.  A
    recipe that is not private is returned to every caller, a private one
    to its author and to administrators; everybody else is answered 403
    and the store stays as it is. *)
Theorem getRecipe_access (id : string) (req_user : option User.t) r db :
  recipes db !! id = Some r ->
  is_Some (users db !! Recipe.author r) ->
  let allowed :=
    Recipe.visibility r <> Recipe.private
    \/ exists u, req_user = Some u
                 /\ (Recipe.author r = User._id u \/ User.role u = User.admin) in
  (allowed -> exists r', (RecipeHandlers.getRecipe id req_user db).1 = Ok r')
  /\ (~ allowed ->
      RecipeHandlers.getRecipe id req_user db
      = (Err (AppError "You do not have permission to view this recipe" 403),
         db)).
Proof.
  intros Hr [a Ha]. cbn zeta. unfold RecipeHandlers.getRecipe.
  rewrite Hr. unfold RecipeHandlers.populatedAuthorEquals. rewrite Ha.
  cbn [RecipeController.andThen].
  destruct req_user as [u|]; case_bool_decide as Hvis; cbn [negb andb].
  - destruct (decide (Recipe.author r = User._id u)) as [Hau|Hau].
    + rewrite !(bool_decide_eq_true_2 _ Hau). cbn [negb andb]. split.
      * intros _. eexists; reflexivity.
      * intros Hn. exfalso. apply Hn. right. exists u. split; [done|by left].
    + rewrite !(bool_decide_eq_false_2 _ Hau). cbn [negb andb].
      case_bool_decide as Hrole; split.
      * intros [?|(u' & [= <-] & [?|?])]; done.
      * done.
      * intros _. destruct (RecipeHandlers.incrementViews r db).
        eexists; reflexivity.
      * intros Hn. exfalso. apply Hn. right. exists u. split; [done|].
        right. destruct (decide (User.role u = User.admin)); [done|].
        by destruct Hrole.
  - destruct (decide (Recipe.author r = User._id u)) as [Hau|Hau].
    + rewrite !(bool_decide_eq_true_2 _ Hau). cbn [negb]. split.
      * intros _. eexists; reflexivity.
      * intros Hn. exfalso. apply Hn. by left.
    + rewrite !(bool_decide_eq_false_2 _ Hau). cbn [negb]. split.
      * intros _. destruct (RecipeHandlers.incrementViews r db).
        eexists; reflexivity.
      * intros Hn. exfalso. apply Hn. by left.
  - split; [|done]. intros [?|(u' & [=] & _)]; done.
  - split.
    + intros _. destruct (RecipeHandlers.incrementViews r db).
        eexists; reflexivity.
    + intros Hn. exfalso. apply Hn. by left.
Qed.

(** X6: a successful getRecipe counts the view unless the caller is the
    author: for the author the store is untouched; for anybody else the
    stored recipe gains exactly one view, keeps its ratings, bookmarks
    and visibility, and no other recipe, category or user changes. *)
Theorem getRecipe_views (id : string) (req_user : option User.t) r r' db :
  recipes db !! id = Some r -> Recipe._id r = id ->
  is_Some (users db !! Recipe.author r) ->
  (RecipeHandlers.getRecipe id req_user db).1 = Ok r' ->
  let db' := (RecipeHandlers.getRecipe id req_user db).2 in
  ((exists u, req_user = Some u /\ Recipe.author r = User._id u) ->
   r' = r /\ db' = db)
  /\ ((forall u, req_user = Some u -> Recipe.author r <> User._id u) ->
      recipes db' !! id = Some r'
      /\ Recipe.views r' = (Recipe.views r + 1)%Z
      /\ Recipe.ratings r' = Recipe.ratings r
      /\ Recipe.bookmarks r' = Recipe.bookmarks r
      /\ Recipe.visibility r' = Recipe.visibility r
      /\ (forall id', id' <> id -> recipes db' !! id' = recipes db !! id')
      /\ categories db' = categories db
      /\ users db' = users db).
Proof.
  intros Hr Hid [a Ha]. cbn zeta. unfold RecipeHandlers.getRecipe.
  rewrite Hr. unfold RecipeHandlers.populatedAuthorEquals. rewrite Ha.
  cbn [RecipeController.andThen].
  pose proof (incrementViews_fields r db) as Hinc. cbn zeta in Hinc.
  destruct (RecipeHandlers.incrementViews r db) as [r1 db1].
  cbn [fst snd] in Hinc.
  destruct Hinc as (Hi & Hv & Hvis & _ & Hrs & Hbk & _ & Hrec & Hcat & Hus).
  assert (forall x, (Ok x : Result Recipe.t) = Ok r' -> x = r') as Hinj
    by (by intros x [=]).
  destruct req_user as [u|].
  - destruct (decide (Recipe.author r = User._id u)) as [Hau|Hau].
    + rewrite !(bool_decide_eq_true_2 _ Hau). cbn [negb andb].
      destruct (bool_decide (Recipe.visibility r = Recipe.private));
        cbn [fst snd]; intros <-%Hinj; (split; [done|]);
        intros Hne; by destruct (Hne u eq_refl).
    + rewrite !(bool_decide_eq_false_2 _ Hau). cbn [negb andb].
      destruct (bool_decide (Recipe.visibility r = Recipe.private));
        [destruct (bool_decide (User.role u ≠ User.admin)); [done|]|].
      all: cbn [fst snd]; intros <-%Hinj; split.
      all: try (intros (u' & [= <-] & ?); done).
      all: intros _; rewrite Hrec, Hid; (split; [apply lookup_insert_eq|]);
        split_and!; try done; intros id' Hne; by apply lookup_insert_ne.
  - destruct (bool_decide (Recipe.visibility r = Recipe.private)); [done|].
    cbn [fst snd]. intros <-%Hinj. split.
    + intros (u' & [=] & _).
    + intros _. rewrite Hrec, Hid. split; [apply lookup_insert_eq|].
      split_and!; try done. intros id' Hne. by apply lookup_insert_ne.
Qed.

(** X7: for a caller who is logged in, getRecipe compares the populated
    author with the caller; when no user document has the author's id the
    populated author is null and the handler throws, whatever the
    visibility of the recipe, and the view is not counted. *)
Theorem getRecipe_author_missing (id : string) u r db :
  recipes db !! id = Some r ->
  users db !! Recipe.author r = None ->
  RecipeHandlers.getRecipe id (Some u) db = (Err TypeError, db).
Proof.
  intros Hr Ha. unfold RecipeHandlers.getRecipe. rewrite Hr.
  unfold RecipeHandlers.populatedAuthorEquals. rewrite Ha.
  cbn [RecipeController.andThen]. by case_bool_decide.
Qed.

End GetRecipe.

Lemma getRecipe_access_witness :
  RecipeHandlers.getRecipe "r4" (Some Examples.bob) Samples.db_mixed
  = (Err (AppError "You do not have permission to view this recipe" 403),
     Samples.db_mixed)
  /\ exists r',
       (RecipeHandlers.getRecipe "r4" (Some Examples.root) Samples.db_mixed).1
       = Ok r'.
Proof.
  split.
  - destruct (getRecipe_access "r4" (Some Examples.bob) Samples.secret
                Samples.db_mixed) as [_ Hdenied];
      [reflexivity|eexists; reflexivity|].
    apply Hdenied.
    intros [Hv|(u & [= <-] & [Ha|Hr])]; [by apply Hv|discriminate..].
  - destruct (getRecipe_access "r4" (Some Examples.root) Samples.secret
                Samples.db_mixed) as [Hallowed _];
      [reflexivity|eexists; reflexivity|].
    apply Hallowed. right. exists Examples.root.
    split; [reflexivity|right; reflexivity].
Defined.

Lemma getRecipe_views_witness :
  exists r',
    (RecipeHandlers.getRecipe "r1" (Some Examples.bob) Samples.db_mixed).1
    = Ok r'
    /\ Recipe.views r' = 1%Z
    /\ recipes
         (RecipeHandlers.getRecipe "r1" (Some Examples.bob) Samples.db_mixed).2
       !! "r4" = Some Samples.secret.
Proof.
  destruct (RecipeHandlers.getRecipe "r1" (Some Examples.bob)
              Samples.db_mixed).1 as [r'|] eqn:Hres;
    [|vm_compute in Hres; discriminate].
  exists r'. split; [reflexivity|].
  destruct (getRecipe_views "r1" (Some Examples.bob) Examples.soup r'
              Samples.db_mixed) as [_ Hother];
    [reflexivity|reflexivity|eexists; reflexivity|exact Hres|].
  destruct Hother as (_ & Hv & _ & _ & _ & Hframe & _).
  { intros u [= <-]. discriminate. }
  split; [exact Hv|]. rewrite (Hframe "r4"); [reflexivity|discriminate].
Defined.

Lemma getRecipe_author_missing_witness :
  RecipeHandlers.getRecipe "r5" (Some Examples.alice) Samples.db_mixed
  = (Err TypeError, Samples.db_mixed).
Proof.
  apply (getRecipe_author_missing "r5" Examples.alice Samples.orphan);
    reflexivity.
Defined.

(** ** Creating and deleting recipes *)

Section CreateDelete.

Implicit Types (r : Recipe.t) (db : Db) (u : User.t).

(** What the save middleware keeps of a document. *)
Lemma preSave_frame r :
  Recipe._id (Recipe.preSave r) = Recipe._id r
  /\ Recipe.category (Recipe.preSave r) = Recipe.category r
  /\ Recipe.author (Recipe.preSave r) = Recipe.author r
  /\ Recipe.status (Recipe.preSave r) = Recipe.status r
  /\ Recipe.visibility (Recipe.preSave r) = Recipe.visibility r
  /\ Recipe.totalTime (Recipe.preSave r)
     = Some (Recipe.prepTime r + Recipe.cookTime r)%Z.
Proof.
  unfold Recipe.preSave, Recipe.preSave_averageRating.
  case_bool_decide; by destruct r.
Qed.

Lemma inc_recipeCount_back (c : Category.t) :
  Category.inc_recipeCount (-1) (Category.inc_recipeCount 1 c) = c.
Proof.
  unfold Category.inc_recipeCount. destruct c. cbn. f_equal. lia.
Qed.

(** X8: createRecipe files the new recipe under the caller, whatever
    author the body names, with [totalTime] computed and the status
    [draft] unless the body says otherwise; it adds exactly one to the
    counter of the recipe's category and changes no other category,
    recipe or user. *)
Theorem createRecipe_effect u (body : RecipeHandlers.RecipeData)
    (newId : string) db (c : Category.t) :
  categories db !! RecipeHandlers.d_category body = Some c ->
  RecipeSchema.validate
    (RecipeHandlers.newDocument body (User._id u) newId) = true ->
  recipes db !! newId = None ->
  let out := RecipeHandlers.createRecipe u body newId db in
  exists r',
    out.1 = Ok r'
    /\ recipes out.2 !! newId = Some r'
    /\ Recipe.author r' = User._id u
    /\ Recipe.totalTime r'
       = Some (RecipeHandlers.d_prepTime body
               + RecipeHandlers.d_cookTime body)%Z
    /\ Recipe.status r'
       = default Recipe.draft (RecipeHandlers.d_status body)
    /\ categories out.2 !! RecipeHandlers.d_category body
       = Some (Category.inc_recipeCount 1 c)
    /\ (forall id', id' <> RecipeHandlers.d_category body ->
          categories out.2 !! id' = categories db !! id')
    /\ (forall id', id' <> newId -> recipes out.2 !! id' = recipes db !! id')
    /\ users out.2 = users db.
Proof.
  intros Hc Hvalid Hfresh. cbn zeta. unfold RecipeHandlers.createRecipe.
  rewrite (bool_decide_eq_false_2 (_ = None)) by (by rewrite Hc).
  rewrite andb_false_r. unfold RecipeHandlers.Recipe_create.
  rewrite Hvalid. cbn [negb].
  change (Recipe._id (RecipeHandlers.newDocument body (User._id u) newId))
    with newId.
  rewrite Hfresh. unfold Recipe_save.
  set (this := RecipeHandlers.newDocument body (User._id u) newId).
  destruct (preSave_frame this) as (Hi & Hcat & Hau & Hst & _ & Htt).
  cbn [fst snd recipes categories users set_recipes set_categories].
  rewrite Hcat, Hi.
  change (Recipe._id this) with newId.
  change (Recipe.category this) with (RecipeHandlers.d_category body).
  rewrite bool_decide_eq_true_2 by (by rewrite Hc).
  cbn [fst snd recipes categories users set_recipes set_categories].
  exists (Recipe.preSave this). split_and!; try done.
  - apply lookup_insert_eq.
  - by rewrite lookup_alter_eq, Hc.
  - intros id' Hne. by rewrite lookup_alter_ne.
  - intros id' Hne. by rewrite lookup_insert_ne.
Qed.

(** X9: createRecipe answers 400 to a body whose category is not in the
    store, and creates nothing. *)
Theorem createRecipe_unknown_category u (body : RecipeHandlers.RecipeData)
    (newId : string) db :
  RecipeHandlers.d_category body <> "" ->
  categories db !! RecipeHandlers.d_category body = None ->
  RecipeHandlers.createRecipe u body newId db
  = (Err (AppError "Invalid category ID" 400), db).
Proof.
  intros Hne Hc. unfold RecipeHandlers.createRecipe.
  rewrite bool_decide_eq_true_2 by done.
  by destruct (RecipeHandlers.d_category body).
Qed.

(** X10: deleteRecipe removes the recipe for its author and for an
    administrator, takes exactly one off the counter of its category and
    changes nothing else; to anybody else it answers 403 and changes
    nothing. *)
Theorem deleteRecipe_effect (id : string) u r db :
  recipes db !! id = Some r -> Recipe.category r <> "" ->
  let out := RecipeHandlers.deleteRecipe id u db in
  (Recipe.author r = User._id u \/ User.role u = User.admin ->
   out.1 = Ok ()
   /\ recipes out.2 !! id = None
   /\ (forall id', id' <> id -> recipes out.2 !! id' = recipes db !! id')
   /\ categories out.2 !! Recipe.category r
      = Category.inc_recipeCount (-1) <$> categories db !! Recipe.category r
   /\ (forall id', id' <> Recipe.category r ->
         categories out.2 !! id' = categories db !! id')
   /\ users out.2 = users db)
  /\ (Recipe.author r <> User._id u -> User.role u <> User.admin ->
      out = (Err (AppError "You can only delete your own recipes" 403), db)).
Proof.
  intros Hr Hcat. cbn zeta. unfold RecipeHandlers.deleteRecipe. rewrite Hr.
  split.
  - intros Hmay.
    assert (bool_decide (Recipe.author r ≠ User._id u)
            && bool_decide (User.role u ≠ User.admin) = false) as ->.
    { destruct Hmay as [Ha|Ha].
      - by rewrite (bool_decide_eq_false_2 _ (fun H => H Ha)).
      - rewrite (bool_decide_eq_false_2 (User.role u ≠ _)) by (by intros H).
        apply andb_false_r. }
    assert (JS.truthy_str (Some (Recipe.category r)) = true) as ->
      by (by destruct (Recipe.category r)).
    cbn [fst snd recipes categories users set_recipes set_categories].
    split_and!; try done.
    + apply lookup_delete_eq.
    + intros id' Hne. by apply lookup_delete_ne.
    + by rewrite lookup_alter_eq.
    + intros id' Hne. by rewrite lookup_alter_ne.
  - intros Ha Hrole. by rewrite !bool_decide_eq_true_2.
Qed.

(** X11: a recipe that is created and then deleted by its creator leaves
    the store exactly as it was: the recipe is gone and the counter of
    its category is back at its former value. *)
Theorem create_then_delete u (body : RecipeHandlers.RecipeData)
    (newId : string) db (c : Category.t) :
  categories db !! RecipeHandlers.d_category body = Some c ->
  RecipeSchema.validate
    (RecipeHandlers.newDocument body (User._id u) newId) = true ->
  recipes db !! newId = None ->
  RecipeHandlers.deleteRecipe newId u
    (RecipeHandlers.createRecipe u body newId db).2
  = (Ok (), db).
Proof.
  intros Hc Hvalid Hfresh.
  assert (RecipeHandlers.d_category body <> "") as Hne.
  { intros Heq. unfold RecipeSchema.validate in Hvalid.
    cbn [Recipe.category RecipeHandlers.newDocument] in Hvalid.
    rewrite Heq in Hvalid. cbn in Hvalid.
    by rewrite !andb_false_r in Hvalid. }
  unfold RecipeHandlers.createRecipe.
  rewrite (bool_decide_eq_false_2 (_ = None)) by (by rewrite Hc).
  rewrite andb_false_r. unfold RecipeHandlers.Recipe_create.
  rewrite Hvalid. cbn [negb].
  change (Recipe._id (RecipeHandlers.newDocument body (User._id u) newId))
    with newId.
  rewrite Hfresh. unfold Recipe_save.
  set (this := RecipeHandlers.newDocument body (User._id u) newId).
  destruct (preSave_frame this) as (Hi & Hcat & Hau & _).
  cbn [fst snd recipes categories users set_recipes set_categories].
  rewrite Hcat, Hi.
  change (Recipe._id this) with newId.
  change (Recipe.category this) with (RecipeHandlers.d_category body).
  rewrite bool_decide_eq_true_2 by (by rewrite Hc).
  unfold RecipeHandlers.deleteRecipe.
  cbn [fst snd recipes categories users set_recipes set_categories].
  rewrite lookup_insert_eq, Hau, Hcat.
  change (Recipe.author this) with (User._id u).
  change (Recipe.category this) with (RecipeHandlers.d_category body).
  rewrite (bool_decide_eq_false_2 (User._id u ≠ _)) by (by intros H).
  cbn [andb].
  assert (JS.truthy_str (Some (RecipeHandlers.d_category body)) = true) as ->
    by (by destruct (RecipeHandlers.d_category body)).
  f_equal. destruct db as [rec cats us].
  unfold set_recipes, set_categories.
  cbn [recipes categories users] in *. f_equal.
  - by apply delete_insert_id.
  - apply map_eq. intros i. rewrite !lookup_alter.
    case_decide as Hi'; [|done]. subst i.
    rewrite Hc. cbn [fmap option_fmap option_map].
    destruct (decide _) as [_|Hn]; [|done].
    cbn [fmap option_fmap option_map]. by rewrite inc_recipeCount_back.
Qed.

End CreateDelete.

Lemma createRecipe_effect_witness :
  exists r',
    (RecipeHandlers.createRecipe Examples.bob Samples.pancakes "r6"
       Examples.db_soup).1 = Ok r'
    /\ Recipe.author r' = "u2"
    /\ Recipe.totalTime r' = Some 15%Z
    /\ Recipe.status r' = Recipe.draft.
Proof.
  destruct (createRecipe_effect Examples.bob Samples.pancakes "r6"
              Examples.db_soup Examples.soups)
    as (r' & Hres & _ & Ha & Ht & Hs & _);
    [reflexivity..|].
  exists r'. split; [exact Hres|]. split; [exact Ha|].
  split; [exact Ht|exact Hs].
Defined.

Lemma createRecipe_unknown_category_witness :
  RecipeHandlers.createRecipe Examples.bob Samples.misfiled "r6"
    Examples.db_soup
  = (Err (AppError "Invalid category ID" 400), Examples.db_soup).
Proof.
  apply createRecipe_unknown_category; [discriminate|reflexivity].
Defined.

Lemma deleteRecipe_effect_witness :
  (RecipeHandlers.deleteRecipe "r1" Examples.alice Examples.db_soup).1 = Ok ()
  /\ recipes
       (RecipeHandlers.deleteRecipe "r1" Examples.alice Examples.db_soup).2
     !! "r1" = None
  /\ RecipeHandlers.deleteRecipe "r1" Examples.bob Examples.db_soup
     = (Err (AppError "You can only delete your own recipes" 403),
        Examples.db_soup).
Proof.
  split_and!.
  - destruct (deleteRecipe_effect "r1" Examples.alice Examples.soup
                Examples.db_soup) as [Hmay _];
      [reflexivity|discriminate|].
    destruct Hmay as (Hok & _); [left; reflexivity|exact Hok].
  - destruct (deleteRecipe_effect "r1" Examples.alice Examples.soup
                Examples.db_soup) as [Hmay _];
      [reflexivity|discriminate|].
    destruct Hmay as (_ & Hgone & _); [left; reflexivity|exact Hgone].
  - destruct (deleteRecipe_effect "r1" Examples.bob Examples.soup
                Examples.db_soup) as [_ Hno];
      [reflexivity|discriminate|].
    apply Hno; discriminate.
Defined.

Lemma create_then_delete_witness :
  RecipeHandlers.deleteRecipe "r6" Examples.bob
    (RecipeHandlers.createRecipe Examples.bob Samples.pancakes "r6"
       Examples.db_soup).2
  = (Ok (), Examples.db_soup).
Proof.
  apply (create_then_delete Examples.bob Samples.pancakes "r6"
           Examples.db_soup Examples.soups); reflexivity.
Defined.

(** ** Paged listings with a fixed filter *)

Section Paging.

Context `{DocumentStore}.

Implicit Types (found selected : list Recipe.t) (db : Db).

(** [Math.ceil(total / limit)] for a positive limit, in integers. *)
Lemma Math_ceil_quotient (t l : Z) :
  (0 < l)%Z ->
  JS.Math_ceil (inject_Z t / inject_Z l) = (- ((- t) / l))%Z.
Proof.
  intros Hl. destruct l as [|p|p]; try lia.
  unfold JS.Math_ceil, Qceiling, Qfloor, Qdiv, Qmult, Qinv, Qopp, inject_Z.
  cbn [Qnum Qden]. rewrite Z.mul_1_r, Pos.mul_1_l. reflexivity.
Qed.

Lemma pages_bounds (t l : Z) :
  (0 < l)%Z ->
  let pages := JS.Math_ceil (inject_Z t / inject_Z l) in
  (t <= pages * l /\ (pages - 1) * l < t)%Z.
Proof.
  intros Hl. cbn zeta. rewrite Math_ceil_quotient by done.
  pose proof (Z.div_mod (- t) l ltac:(lia)) as Hdm.
  pose proof (Z.mod_pos_bound (- t) l Hl) as Hm. nia.
Qed.

Lemma paged_found (sortBy : string) (skip limit0 : Z) selected found :
  RecipeHandlers.paged sortBy skip limit0 selected = Ok found ->
  (forall r, r ∈ found -> r ∈ selected)
  /\ (limit0 <> 0%Z -> length found <= Z.abs_nat limit0)
  /\ (Z.of_nat (length selected) <= skip -> found = [])%Z.
Proof.
  unfold RecipeHandlers.paged. destruct (Z.ltb_spec skip 0); [done|].
  intros [= <-]. split_and!.
  - intros r Hr. rewrite <- (sort_docs_perm sortBy).
    apply (subseteq_drop (Z.to_nat skip)).
    destruct (limit0 =? 0)%Z; [done|].
    eapply elem_of_sublist; [exact Hr|apply sublist_take].
  - intros Hne. rewrite (proj2 (Z.eqb_neq _ _) Hne). apply firstn_le_length.
  - intros Hskip. rewrite drop_ge.
    + by destruct (limit0 =? 0)%Z; [|rewrite take_nil].
    + rewrite (Permutation_length (sort_docs_perm sortBy selected)). lia.
Qed.

(** A page computed by a handler whose count uses the filter of its
    list. *)
Lemma page_consistent (P : Recipe.t -> bool) (sortBy : string)
    (page0 limit0 : Z) db found :
  limit0 <> 0%Z ->
  RecipeHandlers.paged sortBy ((page0 - 1) * limit0) limit0
    (RecipeHandlers.selectWhere P db) = Ok found ->
  let resp :=
    RecipeHandlers.pageOf page0 limit0
      (length (RecipeHandlers.selectWhere P db)) found in
  let pg := RecipeController.pagination resp in
  (forall r, r ∈ found ->
     P r = true /\ exists id, recipes db !! id = Some r)
  /\ RecipeController.results resp = length found
  /\ length found <= Z.abs_nat limit0
  /\ (Z.of_nat (length found) <= RecipeController.total pg)%Z
  /\ ((0 < limit0)%Z ->
      (RecipeController.total pg <= RecipeController.pages pg * limit0
       /\ (RecipeController.pages pg - 1) * limit0 < RecipeController.total pg
       /\ (RecipeController.pages pg < page0 -> found = []))%Z).
Proof.
  intros Hl Hp. cbn zeta.
  destruct (paged_found _ _ _ _ _ Hp) as (Hin & Hlen & Hskip).
  cbn [RecipeController.pagination RecipeController.results
       RecipeController.total RecipeController.pages RecipeHandlers.pageOf].
  split_and!; try done.
  - intros r Hr%Hin. unfold RecipeHandlers.selectWhere in Hr.
    apply list_elem_of_In, filter_In in Hr as [Hr HP]. split; [done|].
    apply list_elem_of_In in Hr. unfold documents in Hr.
    apply list_elem_of_fmap in Hr as ([id r'] & -> & Hr).
    exists id. by apply elem_of_map_to_list.
  - by apply Hlen.
  - assert (found ⊆+ RecipeHandlers.selectWhere P db) as Hsub.
    { revert Hp. unfold RecipeHandlers.paged.
      destruct (Z.ltb_spec ((page0 - 1) * limit0) 0); [done|].
      intros [= <-].
      transitivity (sort_docs sortBy (RecipeHandlers.selectWhere P db));
        [|apply Permutation_submseteq, sort_docs_perm].
      etransitivity; [|apply submseteq_drop].
      destruct (limit0 =? 0)%Z; [done|]. apply sublist_submseteq, sublist_take. }
    apply submseteq_length in Hsub. lia.
  - intros Hpos.
    pose proof (pages_bounds
                  (Z.of_nat (length (RecipeHandlers.selectWhere P db)))
                  limit0 Hpos) as [Hup Hlow].
    cbn zeta in Hup, Hlow. split_and!; try done.
    intros Hbeyond. apply Hskip. nia.
Qed.

End Paging.

(** X12: getMyRecipes lists recipes of the caller only and counts with
    the filter it lists with: [total] is the number of the caller's
    recipes, the list is never longer than the page size, and with a
    positive page size [pages] is the least number of pages that holds
    [total] recipes and every page after the last one is empty. *)
Theorem getMyRecipes_page `{DocumentStore} (req_query : list (string * json))
    (u : User.t) (db : Db) (resp : RecipeController.RecipeList) :
  RecipeHandlers.getMyRecipes req_query u db = Ok resp ->
  let pg := RecipeController.pagination resp in
  (forall r, r ∈ RecipeController.data_recipes resp ->
     Recipe.author r = User._id u /\ exists id, recipes db !! id = Some r)
  /\ RecipeController.total pg
     = Z.of_nat
         (length
            (filter (fun r => Recipe.author r = User._id u)
               (documents (recipes db))))
  /\ RecipeController.results resp
     = length (RecipeController.data_recipes resp)
  /\ length (RecipeController.data_recipes resp)
     <= Z.abs_nat (RecipeController.limit pg)
  /\ ((0 < RecipeController.limit pg)%Z ->
      (RecipeController.total pg
       <= RecipeController.pages pg * RecipeController.limit pg
       /\ (RecipeController.pages pg - 1) * RecipeController.limit pg
          < RecipeController.total pg
       /\ (RecipeController.pages pg < RecipeController.page pg ->
           RecipeController.data_recipes resp = []))%Z).
Proof.
  unfold RecipeHandlers.getMyRecipes. cbv zeta.
  set (page0 := JS.num_or _ 1). set (limit0 := JS.num_or _ 10).
  assert (limit0 <> 0%Z) as Hl.
  { unfold limit0, JS.num_or.
    destruct (RecipeController.parseParam (obj_get "limit" req_query) _)
      as [n|]; [|lia].
    destruct (Z.eqb_spec n 0); lia. }
  destruct (RecipeHandlers.paged _ _ _ _) as [found|] eqn:Hp;
    cbn [RecipeController.andThen]; [|done].
  intros [= <-].
  destruct (page_consistent _ _ _ _ _ _ Hl Hp) as (Hin & Hres & Hlen & _ & Hpg).
  cbn [RecipeController.pagination RecipeController.results
       RecipeController.total RecipeController.pages RecipeController.limit
       RecipeController.page RecipeController.data_recipes
       RecipeHandlers.pageOf] in *.
  split_and!; try done.
  - intros r [HP Hex]%Hin. split; [|done]. by apply bool_decide_eq_true in HP.
  - f_equal. unfold RecipeHandlers.selectWhere.
    generalize (documents (recipes db)). intros l.
    induction l as [|x l IH]; [done|]. cbn [List.filter].
    rewrite filter_cons. case_bool_decide; destruct (decide _); try done.
    cbn. by rewrite IH.
Qed.

Lemma getMyRecipes_page_witness :
  exists resp,
    RecipeHandlers.getMyRecipes [("page", JStr "2")] Examples.alice
      Examples.db_both = Ok resp
    /\ RecipeController.total (RecipeController.pagination resp) = 2%Z
    /\ RecipeController.pages (RecipeController.pagination resp) = 1%Z
    /\ RecipeController.data_recipes resp = [].
Proof.
  destruct (RecipeHandlers.getMyRecipes [("page", JStr "2")] Examples.alice
              Examples.db_both) as [resp|] eqn:Hres;
    [|vm_compute in Hres; discriminate].
  exists resp. split; [reflexivity|].
  destruct (getMyRecipes_page _ _ _ _ Hres) as (_ & _ & _ & _ & Hpg).
  vm_compute in Hres. injection Hres as <-.
  destruct Hpg as (_ & _ & Hempty); [reflexivity|].
  split; [reflexivity|]. split; [reflexivity|].
  apply Hempty. reflexivity.
Defined.

(** X13: getRecipesByCategory answers 404 for an unknown category;
    otherwise it lists published, public recipes of that category only
    and counts with the filter it lists with, so that [total] bounds the
    list, [pages] is the least number of pages that holds [total]
    recipes, and every page after the last one is empty. *)
Theorem getRecipesByCategory_page `{DocumentStore} (categoryId : string)
    (req_query : list (string * json)) (db : Db) :
  (categories db !! categoryId = None ->
   RecipeHandlers.getRecipesByCategory categoryId req_query db
   = Err (AppError "Category not found" 404))
  /\ forall c resp,
       RecipeHandlers.getRecipesByCategory categoryId req_query db
       = Ok (c, resp) ->
       let pg := RecipeController.pagination resp in
       categories db !! categoryId = Some c
       /\ (forall r, r ∈ RecipeController.data_recipes resp ->
             Recipe.category r = categoryId
             /\ Recipe.status r = Recipe.published
             /\ Recipe.visibility r = Recipe.public)
       /\ (Z.of_nat (length (RecipeController.data_recipes resp))
           <= RecipeController.total pg)%Z
       /\ length (RecipeController.data_recipes resp)
          <= Z.abs_nat (RecipeController.limit pg)
       /\ ((0 < RecipeController.limit pg)%Z ->
           (RecipeController.total pg
            <= RecipeController.pages pg * RecipeController.limit pg
            /\ (RecipeController.pages pg - 1) * RecipeController.limit pg
               < RecipeController.total pg
            /\ (RecipeController.pages pg < RecipeController.page pg ->
                RecipeController.data_recipes resp = []))%Z).
Proof.
  unfold RecipeHandlers.getRecipesByCategory. cbv zeta.
  set (page0 := JS.num_or _ 1). set (limit0 := JS.num_or _ 12).
  assert (limit0 <> 0%Z) as Hl.
  { unfold limit0, JS.num_or.
    destruct (RecipeController.parseParam (obj_get "limit" req_query) _)
      as [n|]; [|lia].
    destruct (Z.eqb_spec n 0); lia. }
  split; [by intros ->|].
  intros c resp. destruct (categories db !! categoryId) as [c'|]; [|done].
  destruct (RecipeHandlers.paged _ _ _ _) as [found|] eqn:Hp;
    cbn [RecipeController.andThen]; [|done].
  intros [= <- <-].
  destruct (page_consistent _ _ _ _ _ _ Hl Hp) as (Hin & Hres & Hlen & Htot & Hpg).
  cbn [RecipeController.pagination RecipeController.results
       RecipeController.total RecipeController.pages RecipeController.limit
       RecipeController.page RecipeController.data_recipes
       RecipeHandlers.pageOf] in *.
  split_and!; try done.
  intros r [HP _]%Hin. unfold RecipeHandlers.listed in HP.
  apply andb_true_iff in HP as [Hc HP]. apply andb_true_iff in HP as [Hs Hv].
  by apply bool_decide_eq_true in Hc, Hs, Hv.
Qed.

(** X14: getPopularRecipes always answers; its list holds published,
    public recipes of the store only, and at most as many as the limit
    says, ten when the request names no limit. *)
Theorem getPopularRecipes_listed `{DocumentStore}
    (req_query : list (string * json)) (db : Db) :
  exists found,
    RecipeHandlers.getPopularRecipes req_query db = Ok (length found, found)
    /\ (forall r, r ∈ found ->
          Recipe.status r = Recipe.published
          /\ Recipe.visibility r = Recipe.public
          /\ exists id, recipes db !! id = Some r)
    /\ (obj_get "limit" req_query = None -> length found <= 10)
    /\ (forall n,
          RecipeController.parseParam (obj_get "limit" req_query) (Some 10%N)
          = Some n -> n <> 0%Z -> length found <= Z.abs_nat n).
Proof.
  unfold RecipeHandlers.getPopularRecipes, RecipeHandlers.findPopular.
  cbv zeta. set (limit0 := JS.num_or _ 10).
  assert (limit0 <> 0%Z) as Hl.
  { unfold limit0, JS.num_or.
    destruct (RecipeController.parseParam _ _) as [n|]; [|lia].
    destruct (Z.eqb_spec n 0); lia. }
  destruct (RecipeHandlers.paged _ 0 limit0 _) as [found|e] eqn:Hp.
  2:{ unfold RecipeHandlers.paged in Hp. done. }
  exists found. cbn [RecipeController.andThen]. split; [done|].
  destruct (paged_found _ _ _ _ _ Hp) as (Hin & Hlen & _).
  split_and!.
  - intros r Hr%Hin. unfold RecipeHandlers.selectWhere in Hr.
    apply list_elem_of_In, filter_In in Hr as [Hr HP].
    unfold RecipeHandlers.listed in HP.
    apply andb_true_iff in HP as [Hs Hv].
    apply bool_decide_eq_true in Hs, Hv. split_and!; try done.
    apply list_elem_of_In in Hr. unfold documents in Hr.
    apply list_elem_of_fmap in Hr as ([id r'] & -> & Hr).
    exists id. by apply elem_of_map_to_list.
  - intros Hnone. specialize (Hlen Hl). revert Hlen.
    unfold limit0. rewrite Hnone. cbn. lia.
  - intros n Hn Hn0. specialize (Hlen Hl). revert Hlen.
    unfold limit0. rewrite Hn. unfold JS.num_or.
    by rewrite (proj2 (Z.eqb_neq _ _) Hn0).
Qed.

(** ** The listing: page size, total and malformed parameters *)

(** X15: a listing that getAllRecipes returns is never longer than its
    page size; the page size and the page are never 0, and are 12 and 1
    when the request does not name them. *)
Theorem getAllRecipes_page_size `{DocumentStore}
    (req_query : list (string * json)) (req_user : option User.t) (db : Db)
    (resp : RecipeController.RecipeList) :
  RecipeController.getAllRecipes req_query req_user db = Ok resp ->
  let pg := RecipeController.pagination resp in
  RecipeController.results resp = length (RecipeController.data_recipes resp)
  /\ length (RecipeController.data_recipes resp)
     <= Z.abs_nat (RecipeController.limit pg)
  /\ RecipeController.limit pg <> 0%Z
  /\ RecipeController.page pg <> 0%Z
  /\ (obj_get "limit" req_query = None -> RecipeController.limit pg = 12%Z)
  /\ (obj_get "page" req_query = None -> RecipeController.page pg = 1%Z).
Proof.
  unfold RecipeController.getAllRecipes. cbv zeta.
  next_stage H2. next_stage H3. next_stage H4. next_stage H5.
  next_stage H6. next_stage H7. next_stage Hsort. next_stage Hfields.
  next_stage Hexec. intros [= <-].
  cbn [RecipeController.pagination RecipeController.results
       RecipeController.limit RecipeController.page
       RecipeController.data_recipes].
  assert (forall v d, d <> 0%Z -> JS.num_or v d <> 0%Z) as Hnz.
  { intros [n|] d Hd; cbn; [|done]. by destruct (Z.eqb_spec n 0). }
  split_and!; try done.
  - unfold exec_find in Hexec. destruct (_ <? 0)%Z; [done|].
    injection Hexec as <-. apply firstn_le_length.
  - by apply Hnz.
  - by apply Hnz.
  - by intros ->.
  - by intros ->.
Qed.

Lemma getAllRecipes_page_size_witness :
  exists resp,
    RecipeController.getAllRecipes [("limit", JStr "1")] None
      Examples.db_both = Ok resp
    /\ length (RecipeController.data_recipes resp) <= 1.
Proof.
  destruct (RecipeController.getAllRecipes [("limit", JStr "1")] None
              Examples.db_both) as [resp|] eqn:Hres;
    [|vm_compute in Hres; discriminate].
  exists resp. split; [reflexivity|].
  destruct (getAllRecipes_page_size _ _ _ _ Hres) as (_ & Hlen & _).
  vm_compute in Hres. injection Hres as <-. exact Hlen.
Defined.

(** X16: the total that getAllRecipes reports depends on the store and
    on the query parameters other than page, sort, limit, fields and
    search, and on nothing else: two requests that agree on those
    parameters report the same total, whoever the callers are. *)
Theorem getAllRecipes_total_same `{DocumentStore}
    (q1 q2 : list (string * json)) (u1 u2 : option User.t) (db : Db)
    (resp1 resp2 : RecipeController.RecipeList) :
  foldl (fun o el => obj_delete el o) q1 RecipeController.excludedFields
  = foldl (fun o el => obj_delete el o) q2 RecipeController.excludedFields ->
  RecipeController.getAllRecipes q1 u1 db = Ok resp1 ->
  RecipeController.getAllRecipes q2 u2 db = Ok resp2 ->
  RecipeController.total (RecipeController.pagination resp1)
  = RecipeController.total (RecipeController.pagination resp2).
Proof.
  intros Hsame.
  assert (forall q u resp,
            RecipeController.getAllRecipes q u db = Ok resp ->
            RecipeController.total (RecipeController.pagination resp)
            = Z.of_nat
                (countDocuments
                   (advancedFilter
                      (foldl (fun o el => obj_delete el o) q
                         RecipeController.excludedFields)) db)) as Htotal.
  { intros q u resp. unfold RecipeController.getAllRecipes. cbv zeta.
    next_stage H2. next_stage H3. next_stage H4. next_stage H5.
    next_stage H6. next_stage H7. next_stage Hsort. next_stage Hfields.
    next_stage Hexec. by intros [= <-]. }
  intros H1%Htotal H2%Htotal. by rewrite H1, H2, Hsame.
Qed.

Lemma getAllRecipes_total_same_witness :
  exists resp1 resp2,
    RecipeController.getAllRecipes [("search", JStr "soup")] None
      Examples.db_both = Ok resp1
    /\ RecipeController.getAllRecipes [("page", JStr "3")]
         (Some Examples.root) Examples.db_both = Ok resp2
    /\ RecipeController.total (RecipeController.pagination resp1) = 2%Z
    /\ RecipeController.total (RecipeController.pagination resp2) = 2%Z.
Proof.
  destruct (RecipeController.getAllRecipes [("search", JStr "soup")] None
              Examples.db_both) as [resp1|] eqn:H1;
    [|vm_compute in H1; discriminate].
  destruct (RecipeController.getAllRecipes [("page", JStr "3")]
              (Some Examples.root) Examples.db_both) as [resp2|] eqn:H2;
    [|vm_compute in H2; discriminate].
  exists resp1, resp2. split; [reflexivity|]. split; [reflexivity|].
  assert (foldl (fun o el => obj_delete el o) [("search", JStr "soup")]
            RecipeController.excludedFields
          = foldl (fun o el => obj_delete el o) [("page", JStr "3")]
              RecipeController.excludedFields) as Hsame by reflexivity.
  pose proof (getAllRecipes_total_same _ _ _ _ _ _ _ Hsame H1 H2) as Heq.
  vm_compute in H2. injection H2 as <-. split; [exact Heq|reflexivity].
Defined.

(** X17: getAllRecipes calls [split] on the dietary parameter; when the
    request gives that parameter as an array or an object (a value that
    is not a string and not empty) the handler throws and answers no
    listing. *)
Theorem getAllRecipes_dietary_not_string `{DocumentStore}
    (req_query : list (string * json)) (req_user : option User.t) (db : Db)
    (v : json) :
  obj_get "dietary" req_query = Some v ->
  truthy (Some v) = true ->
  (forall s, v <> JStr s) ->
  RecipeController.getAllRecipes req_query req_user db = Err TypeError.
Proof.
  intros Hd Ht Hns. unfold RecipeController.getAllRecipes. cbv zeta.
  assert (forall q g, exists q',
            RecipeController.findIf g
              (fun v0 => Ok [("$text", JObj [("$search", v0)])]) q = Ok q')
    as Hsearch.
  { intros q [g|]; unfold RecipeController.findIf, RecipeController.ifParam;
      [destruct (truthy (Some g))|]; cbn; eauto. }
  match goal with
  | |- RecipeController.andThen (RecipeController.findIf ?g _ ?q) _ = _ =>
      destruct (Hsearch q g) as [q' ->]
  end.
  cbn [RecipeController.andThen].
  unfold RecipeController.findIf at 1. unfold RecipeController.ifParam.
  rewrite Hd, Ht. destruct v; try done. by destruct (Hns s).
Qed.

Lemma getAllRecipes_dietary_not_string_witness :
  RecipeController.getAllRecipes
    [("dietary", JArr [JStr "vegan"; JStr "keto"])] None Examples.db_both
  = Err TypeError.
Proof.
  apply (getAllRecipes_dietary_not_string
           [("dietary", JArr [JStr "vegan"; JStr "keto"])] None
           Examples.db_both (JArr [JStr "vegan"; JStr "keto"]));
    [reflexivity|reflexivity|discriminate].
Defined.

(** ** Categories: reading *)

Lemma elem_of_documents {A} (coll : gmap string A) (x : A) :
  x ∈ documents coll <-> exists id, coll !! id = Some x.
Proof.
  unfold documents. rewrite list_elem_of_fmap. split.
  - intros ([id y] & -> & Hin). exists id. by apply elem_of_map_to_list.
  - intros [id Hid]. exists (id, x). split; [done|].
    by apply elem_of_map_to_list.
Qed.

Lemma elem_of_selectWhere (P : Recipe.t -> bool) (db : Db) (r : Recipe.t) :
  r ∈ RecipeHandlers.selectWhere P db
  <-> P r = true /\ exists id, recipes db !! id = Some r.
Proof.
  unfold RecipeHandlers.selectWhere.
  rewrite list_elem_of_In, filter_In, <- list_elem_of_In, elem_of_documents.
  tauto.
Qed.

(** X18: getCategory answers 404 exactly for an id that is not in the
    store and serves every stored category, whatever its status; the
    recent recipes it adds are at most five, all of them published and
    public recipes of the store filed under that category. *)
Theorem getCategory_recent `{DocumentStore} (id : string) (db : Db) :
  match categories db !! id with
  | None =>
      CategoryHandlers.getCategory id db
      = Err (AppError "No category found with that ID" 404)
  | Some c =>
      exists recent,
        CategoryHandlers.getCategory id db = Ok (c, recent)
        /\ length recent <= 5
        /\ forall r, r ∈ recent ->
             Recipe.category r = Category._id c
             /\ Recipe.status r = Recipe.published
             /\ Recipe.visibility r = Recipe.public
             /\ exists rid, recipes db !! rid = Some r
  end.
Proof.
  unfold CategoryHandlers.getCategory.
  destruct (categories db !! id) as [c|]; [|done].
  destruct (RecipeHandlers.paged _ 0 5 _) as [recent|e] eqn:Hp.
  2:{ unfold RecipeHandlers.paged in Hp. done. }
  exists recent. cbn [RecipeController.andThen]. split; [done|].
  destruct (paged_found _ _ _ _ _ Hp) as (Hin & Hlen & _).
  split; [by apply Hlen|].
  intros r Hr%Hin%elem_of_selectWhere. destruct Hr as [HP Hex].
  apply andb_true_iff in HP as [Hc HP]. unfold RecipeHandlers.listed in HP.
  apply andb_true_iff in HP as [Hs Hv].
  apply bool_decide_eq_true in Hc, Hs, Hv. done.
Qed.

(** X19: getCategoryBySlug serves active categories only: the category
    it returns is stored, has the slug asked for and is active, and it
    answers 404 exactly when the store has no such category. *)
Theorem getCategoryBySlug_active (slug0 : string) (db : Db) :
  (forall c, CategoryHandlers.getCategoryBySlug slug0 db = Ok c ->
     Category.slug c = Some slug0 /\ Category.status c = "active"
     /\ exists id, categories db !! id = Some c)
  /\ (CategoryHandlers.getCategoryBySlug slug0 db
      = Err (AppError "No category found with that slug" 404)
      <-> forall id c, categories db !! id = Some c ->
            ~ (Category.slug c = Some slug0 /\ Category.status c = "active")).
Proof.
  unfold CategoryHandlers.getCategoryBySlug.
  destruct (List.find _ _) as [c|] eqn:Hfind.
  - apply find_some in Hfind as [Hin Hc].
    apply andb_true_iff in Hc as [Hs Ha].
    apply bool_decide_eq_true in Hs, Ha.
    apply list_elem_of_In, elem_of_documents in Hin. split.
    + by intros c' [= <-].
    + split; [done|]. intros Hnone. destruct Hin as [id Hid].
      by destruct (Hnone id c Hid).
  - split; [done|]. split; [|done]. intros _ id c Hid [Hs Ha].
    assert (In c (documents (categories db))) as Hin.
    { apply list_elem_of_In, elem_of_documents. by exists id. }
    pose proof (find_none _ _ Hfind c Hin) as Hc. cbn beta in Hc.
    by rewrite !bool_decide_eq_true_2 in Hc.
Qed.

(** ** Categories: deleting and updating *)

(** X20: deleteCategory succeeds exactly for a category without recipes
    and without children.  A success removes the category, takes its id
    out of the children of its parent, and leaves every other category,
    every recipe and every user as they were. *)
Theorem deleteCategory_effect (id : string) (c : Category.t) (db : Db) :
  categories db !! id = Some c -> Category._id c = id ->
  let out := CategoryController.deleteCategory id db in
  (out.1 = Ok ()
   <-> countRecipesOfCategory id db = 0 /\ Category.children c = [])
  /\ (out.1 = Ok () ->
      categories out.2 !! id = None
      /\ (forall p, Category.parent c = Some p -> p <> id ->
            categories out.2 !! p
            = Category.pull_children id <$> categories db !! p)
      /\ (forall p pc, Category.parent c = Some p ->
            categories out.2 !! p = Some pc -> id ∉ Category.children pc)
      /\ (forall id', id' <> id -> Category.parent c <> Some id' ->
            categories out.2 !! id' = categories db !! id')
      /\ recipes out.2 = recipes db
      /\ users out.2 = users db).
Proof.
  intros Hc Hid. cbn zeta. unfold CategoryController.deleteCategory.
  rewrite Hc. case_bool_decide as Hcount.
  { cbn [fst]. split; [|done]. split; [done|]. intros [? _]. lia. }
  case_bool_decide as Hkids.
  { cbn [fst]. split; [|done]. split; [done|]. intros [_ Hk].
    rewrite Hk in Hkids. cbn in Hkids. lia. }
  cbn [fst snd categories recipes users set_categories]. rewrite Hid.
  split.
  { split; [|done]. intros _. split; [lia|].
    destruct (Category.children c); [done|]. cbn in Hkids. lia. }
  intros _.
  assert (forall p, p <> id ->
            delete id (alter (Category.pull_children id) p (categories db))
              !! p
            = Category.pull_children id <$> categories db !! p) as Hpull.
  { intros p Hp. by rewrite lookup_delete_ne, lookup_alter_eq. }
  split_and!; try done.
  - apply lookup_delete_eq.
  - intros p -> Hp. by apply Hpull.
  - intros p pc -> Hpc. destruct (decide (p = id)) as [->|Hp].
    { by rewrite lookup_delete_eq in Hpc. }
    rewrite Hpull in Hpc by done.
    destruct (categories db !! p) as [pc0|]; [|done].
    injection Hpc as <-. unfold Category.pull_children.
    destruct pc0. cbn. rewrite list_elem_of_filter. by intros [? _].
  - intros id' Hne Hpar. rewrite lookup_delete_ne by done.
    destruct (Category.parent c) as [p|]; [|done].
    rewrite lookup_alter_ne; [done|]. by intros ->.
Qed.

Lemma deleteCategory_effect_witness :
  (CategoryController.deleteCategory "c2" Examples.db_soup).1 = Ok ()
  /\ categories (CategoryController.deleteCategory "c2" Examples.db_soup).2
     !! "c1"
     = Some (Category.pull_children "c2" Examples.mains).
Proof.
  destruct (deleteCategory_effect "c2" Examples.italian Examples.db_soup)
    as [Hiff Heff]; [reflexivity|reflexivity|].
  assert ((CategoryController.deleteCategory "c2" Examples.db_soup).1 = Ok ())
    as Hok by (apply Hiff; split; reflexivity).
  split; [exact Hok|].
  destruct (Heff Hok) as (_ & Hpull & _).
  rewrite (Hpull "c1"); [reflexivity|reflexivity|discriminate].
Defined.

(** X21: updateCategory compares codes in upper case.  A body that
    names a code (and no slug) which another category already has, in
    any mix of cases, is answered 409 with the message for the code, and
    nothing is stored. *)
Theorem updateCategory_code_conflict (id modifier other code0 : string)
    (body : CategoryController.CategoryBody) (c c' : Category.t) (db : Db) :
  categories db !! id = Some c ->
  categories db !! other = Some c' -> Category._id c' <> id ->
  CategoryController.b_code body = Some code0 -> code0 <> "" ->
  JS.truthy_str (CategoryController.b_slug body) = false ->
  Category.code c' = CategoryController.upper code0 ->
  CategoryController.updateCategory id modifier body db
  = (Err (AppError "Category with this code already exists" 409), db).
Proof.
  intros Hc Hc' Hother Hcode Hne Hslug Hsame.
  unfold CategoryController.updateCategory. rewrite Hc, Hcode, Hslug.
  assert (JS.truthy_str (Some code0) = true) as ->
    by (by destruct code0).
  cbn [orb]. destruct (List.find _ _) as [existing|] eqn:Hfind.
  - apply find_some in Hfind as [_ Hdup].
    unfold CategoryController.isDuplicate in Hdup.
    rewrite Hcode, Hslug in Hdup.
    assert (JS.truthy_str (Some code0) = true) as Ht by (by destruct code0).
    rewrite Ht, andb_true_r in Hdup.
    apply andb_true_iff in Hdup as [_ Hdup].
    by rewrite Hdup.
  - assert (In c' (documents (categories db))) as Hin.
    { apply list_elem_of_In, elem_of_documents. by exists other. }
    pose proof (find_none _ _ Hfind c' Hin) as Hno.
    unfold CategoryController.isDuplicate in Hno.
    rewrite Hcode, Hslug in Hno.
    assert (JS.truthy_str (Some code0) = true) as Ht by (by destruct code0).
    rewrite Ht, andb_true_r in Hno.
    rewrite (bool_decide_eq_true_2 (Category._id c' ≠ id)) in Hno by done.
    cbn [andb fmap option_fmap option_map] in Hno.
    rewrite bool_decide_eq_true_2 in Hno; [done|]. by rewrite Hsame.
Qed.

Lemma updateCategory_code_conflict_witness :
  CategoryController.updateCategory "c3" "u0"
    {| CategoryController.b_name := None;
       CategoryController.b_code := Some "Ital";
       CategoryController.b_slug := None;
       CategoryController.b_parent := None;
       CategoryController.b_level := None;
       CategoryController.b_path := None |}
    Examples.db_soup
  = (Err (AppError "Category with this code already exists" 409),
     Examples.db_soup).
Proof.
  apply (updateCategory_code_conflict "c3" "u0" "c2" "Ital" _
           Examples.soups Examples.italian);
    [reflexivity|reflexivity|discriminate|reflexivity|discriminate
    |reflexivity|reflexivity].
Defined.

(** ** Categories: the shape of a derived slug *)

Section SlugShape.

Implicit Types (s : list ascii) (c b : ascii).

Lemma squash_no_run (C : ascii -> bool) b s i c1 c2 :
  Spec.squash C b s !! i = Some c1 ->
  Spec.squash C b s !! S i = Some c2 ->
  C b = true ->
  ~ (C c1 = true /\ C c2 = true).
Proof.
  intros H1 H2 Hb. revert i H1 H2.
  induction s as [|c s IH]; intros i; [done|].
  cbn [Spec.squash]. destruct (C c) eqn:Hc.
  - destruct s as [|c' s'].
    + destruct i; cbn; intros; simplify_eq.
    + destruct (C c') eqn:Hc'; [apply IH|].
      assert (Spec.squash C b (c' :: s') = c' :: Spec.squash C b s') as Heq
        by (cbn [Spec.squash]; by rewrite Hc').
      destruct i as [|i].
      * rewrite Heq. cbn. intros [= <-] [= <-] [_ ?]. congruence.
      * cbn [lookup list_lookup]. apply IH.
  - destruct i as [|i].
    + cbn. intros [= <-] _ [? _]. congruence.
    + cbn [lookup list_lookup]. apply IH.
Qed.

Lemma chars_str s : JS.chars (JS.str s) = s.
Proof. apply String.list_ascii_of_string_of_list_ascii. Qed.

End SlugShape.

(** X22: the slug that the save hook derives from a name consists of
    lower-case letters, digits and hyphens only, which is what the
    [match] validator of the slug path asks of a non-empty slug, and it
    never has two hyphens in a row. *)
Theorem slug_of_name_shape (name0 : string) :
  let slug := JS.chars (Category.slug_of_name name0) in
  Forall (fun c => CategorySchema.slug_char c = true) slug
  /\ forall i c1 c2,
       slug !! i = Some c1 -> slug !! S i = Some c2 ->
       ~ (JS.is_hyphen c1 = true /\ JS.is_hyphen c2 = true).
Proof.
  cbn zeta. unfold Category.slug_of_name. rewrite chars_str.
  rewrite !replace_runs_squash.
  set (s1 := JS.remove_class _ _).
  assert (Forall (fun c => Spec.keeps c = true) s1) as H1.
  { apply Forall_forall. intros c Hc. unfold s1, JS.remove_class in Hc.
    apply list_elem_of_In, filter_In in Hc as [_ Hc].
    by rewrite negb_involutive in Hc. }
  set (s2 := Spec.squash JS.is_space "-" s1).
  assert (Forall (fun c => CategorySchema.slug_char c = true) s2) as H2.
  { eapply Forall_impl; [apply squash_chars|]. cbn beta.
    intros c [->|[Hin Hsp]]; [done|].
    rewrite Forall_forall in H1. specialize (H1 c Hin).
    unfold Spec.keeps in H1. unfold CategorySchema.slug_char.
    rewrite Hsp, orb_false_r in H1. done. }
  set (s3 := Spec.squash JS.is_hyphen "-" s2).
  assert (Forall (fun c => CategorySchema.slug_char c = true) s3) as H3.
  { eapply Forall_impl; [apply squash_chars|]. cbn beta.
    intros c [->|[Hin _]]; [done|].
    rewrite Forall_forall in H2. by apply H2. }
  assert (JS.trim s3 = s3) as ->.
  { apply trim_id. eapply Forall_impl; [exact H3|]. cbn beta.
    intros c Hc. unfold CategorySchema.slug_char, JS.is_lower, JS.is_digit, JS.is_hyphen,
      JS.is_space, JS.in_range in *.
    destruct (JS.code c) as [|p]; [done|].
    repeat (destruct p as [p|p|]; try done). }
  split; [exact H3|]. intros i c1 c2 Hi HSi.
  by apply (squash_no_run JS.is_hyphen "-" s2 i).
Qed.

(** ** Categories: the way up to the root *)

Section Ancestors.

Variable findById : string -> option Category.t.

Lemma getAncestors_loop_climbs (c : Category.t) (up : list Category.t) :
  CategoryHandlers.climbs findById c up ->
  forall fuel acc, length up < fuel ->
    CategoryHandlers.getAncestors_loop fuel findById c acc
    = Some (rev up ++ acc).
Proof.
  induction 1 as [c Hroot|c p Hp Hnone|c p c' up Hp Hsome Hup IH];
    intros fuel acc Hfuel.
  - destruct fuel; cbn; by rewrite Hroot.
  - destruct fuel as [|fuel]; [cbn in Hfuel; lia|].
    cbn. by rewrite Hp, Hnone.
  - destruct fuel as [|fuel]; [cbn in Hfuel; lia|].
    cbn [CategoryHandlers.getAncestors_loop]. rewrite Hp, Hsome.
    rewrite IH by (cbn in Hfuel; lia).
    cbn [rev]. by rewrite <- app_assoc.
Qed.

Lemma getAncestors_loop_sound fuel :
  forall (c : Category.t) acc l,
    CategoryHandlers.getAncestors_loop fuel findById c acc = Some l ->
    exists up, CategoryHandlers.climbs findById c up /\ l = rev up ++ acc.
Proof.
  induction fuel as [|fuel IH]; intros c acc l;
    cbn [CategoryHandlers.getAncestors_loop];
    destruct (Category.parent c) as [p|] eqn:Hp.
  - done.
  - intros [= <-]. exists []. split; [by constructor|done].
  - destruct (findById p) as [c'|] eqn:Hf.
    + intros (up & Hup & ->)%IH. exists (c' :: up). split.
      * by eapply CategoryHandlers.climbs_step.
      * cbn [rev]. by rewrite <- app_assoc.
    + intros [= <-]. exists []. split; [|done].
      by eapply CategoryHandlers.climbs_dangling.
  - intros [= <-]. exists []. split; [by constructor|done].
Qed.

Lemma getAncestors_loop_levels (n : nat) :
  forall (c : Category.t) acc,
    (forall id c0, findById id = Some c0 ->
       CategoryHandlers.belowParent findById c0 = true) ->
    CategoryHandlers.belowParent findById c = true ->
    (Category.level c <= Z.of_nat n)%Z ->
    exists l,
      CategoryHandlers.getAncestors_loop (S n) findById c acc = Some (l ++ acc)
      /\ length l <= n.
Proof.
  induction n as [|n IH]; intros c acc Hall Hc Hlev;
    cbn [CategoryHandlers.getAncestors_loop];
    unfold CategoryHandlers.belowParent in Hc;
    destruct (Category.parent c) as [p|] eqn:Hp;
    try (exists []; split; [done|cbn; lia]).
  - destruct (findById p) as [c'|] eqn:Hf; [|exists []; split; [done|cbn; lia]].
    apply andb_true_iff in Hc as [H0 H1]. lia.
  - destruct (findById p) as [c'|] eqn:Hf; [|exists []; split; [done|cbn; lia]].
    apply andb_true_iff in Hc as [H0 H1].
    destruct (IH c' (c' :: acc) Hall (Hall _ _ Hf)) as (l & Hl & Hlen); [lia|].
    exists (l ++ [c']). split.
    + rewrite <- app_assoc. exact Hl.
    + rewrite length_app. cbn. lia.
Qed.

Lemma getAncestors_loop_self (c : Category.t) (id : string) :
  Category.parent c = Some id -> findById id = Some c ->
  forall fuel acc,
    CategoryHandlers.getAncestors_loop fuel findById c acc = None.
Proof.
  intros Hp Hf. induction fuel as [|fuel IH]; intros acc;
    cbn [CategoryHandlers.getAncestors_loop]; rewrite Hp; [done|].
  rewrite Hf. apply IH.
Qed.

End Ancestors.

(** X23: getAncestors returns the way up from a category, the root
    first: the parent of the category is the last element, and each
    element is the parent of the one after it.  The loop stops at a
    category without parent and at a parent reference that finds
    nothing. *)
Theorem getAncestors_way_up (this : Category.t) (db : Db) :
  let findById := fun id => categories db !! id in
  (forall up, CategoryHandlers.climbs findById this up ->
     forall fuel, length up < fuel ->
       CategoryHandlers.getAncestors fuel this db = Some (rev up))
  /\ (forall fuel l,
        CategoryHandlers.getAncestors fuel this db = Some l ->
        CategoryHandlers.climbs findById this (rev l)).
Proof.
  cbn zeta. unfold CategoryHandlers.getAncestors. split.
  - intros up Hup fuel Hfuel.
    rewrite (getAncestors_loop_climbs _ _ _ Hup) by done.
    by rewrite app_nil_r.
  - intros fuel l (up & Hup & ->)%getAncestors_loop_sound.
    by rewrite app_nil_r, rev_involutive.
Qed.

(** X24: in a store where every category lies below its parent, as the
    save hook leaves them, getAncestors terminates for a stored
    category, after at most as many look-ups as the level of the
    category says, and returns no more ancestors than that. *)
Theorem getAncestors_terminates (id : string) (this : Category.t) (db : Db) :
  categories db !! id = Some this ->
  CategoryHandlers.levelsDecrease db = true ->
  exists l,
    CategoryHandlers.getAncestors (S (Z.to_nat (Category.level this))) this db
    = Some l
    /\ length l <= Z.to_nat (Category.level this).
Proof.
  intros Hthis Hinv. unfold CategoryHandlers.levelsDecrease in Hinv.
  rewrite forallb_forall in Hinv.
  assert (forall id0 c0, categories db !! id0 = Some c0 ->
            CategoryHandlers.belowParent (fun i => categories db !! i) c0
            = true) as Hall.
  { intros id0 c0 H0. apply Hinv, list_elem_of_In, elem_of_documents.
    by exists id0. }
  destruct (getAncestors_loop_levels (fun i => categories db !! i)
              (Z.to_nat (Category.level this)) this [] Hall (Hall _ _ Hthis))
    as (l & Hl & Hlen); [lia|].
  exists l. rewrite app_nil_r in Hl. done.
Qed.

Lemma getAncestors_terminates_witness :
  CategoryHandlers.getAncestors 2 Examples.soups Examples.db_soup
  = Some [Examples.mains].
Proof.
  destruct (getAncestors_terminates "c3" Examples.soups Examples.db_soup)
    as (l & Hl & _); [reflexivity|reflexivity|].
  change (S (Z.to_nat (Category.level Examples.soups))) with 2 in Hl.
  rewrite Hl. vm_compute in Hl. injection Hl as <-. reflexivity.
Defined.

(** X25: updateCategory accepts a body that names the category itself
    as its parent; on the category it stores, getAncestors never
    returns: the loop is still running after any number of look-ups. *)
Theorem getAncestors_own_parent (id modifier : string)
    (body : CategoryController.CategoryBody) (updated : Category.t) (db : Db) :
  CategoryController.b_parent body = Some id ->
  (CategoryController.updateCategory id modifier body db).1 = Ok updated ->
  forall fuel,
    CategoryHandlers.getAncestors fuel updated
      (CategoryController.updateCategory id modifier body db).2
    = None.
Proof.
  intros Hp. unfold CategoryController.updateCategory.
  destruct (categories db !! id) as [c|]; [|done].
  destruct (if JS.truthy_str (CategoryController.b_code body) || _
            then _ else _) as [existing|]; [done|].
  cbn [fst snd]. intros [= <-] fuel. unfold CategoryHandlers.getAncestors.
  apply (getAncestors_loop_self _ _ id).
  - cbn. by rewrite Hp.
  - cbn [categories set_categories]. apply lookup_insert_eq.
Qed.

Lemma getAncestors_own_parent_witness :
  exists updated,
    (CategoryController.updateCategory "c3" "u0" Samples.own_parent
       Examples.db_soup).1 = Ok updated
    /\ CategoryHandlers.getAncestors 1000 updated
         (CategoryController.updateCategory "c3" "u0" Samples.own_parent
            Examples.db_soup).2
       = None.
Proof.
  destruct (CategoryController.updateCategory "c3" "u0" Samples.own_parent
              Examples.db_soup).1 as [updated|] eqn:Hres;
    [|vm_compute in Hres; discriminate].
  exists updated. split; [reflexivity|].
  apply (getAncestors_own_parent "c3" "u0" Samples.own_parent updated
           Examples.db_soup); [reflexivity|exact Hres].
Defined.

(** ** The two recipe counters of a category *)

Lemma documents_insert_fresh {A} (coll : gmap string A) (k : string) (x : A) :
  coll !! k = None -> documents (<[k := x]> coll) ≡ₚ x :: documents coll.
Proof.
  intros Hk. unfold documents. by rewrite map_to_list_insert.
Qed.

Lemma validate_set_recipeCount (c : Category.t) (n : Z) :
  (0 <= n)%Z -> CategorySchema.validate c = true ->
  CategorySchema.validate (Category.set_recipeCount n c) = true.
Proof.
  intros Hn. unfold CategorySchema.validate. destruct c. cbn.
  rewrite !andb_true_iff. intros Hv. split_and!; try tauto.
  by apply Z.leb_le.
Qed.

Lemma addToSet_children_recipeCount (id : string) (c : Category.t) :
  Category.recipeCount (Category.addToSet_children id c)
  = Category.recipeCount c.
Proof.
  unfold Category.addToSet_children. case_bool_decide; by destruct c.
Qed.

(** X26: the counter that createRecipe keeps counts every recipe, the
    count of updateRecipeCount the published ones.  When the counter of
    a valid category is the number of its published recipes and a recipe
    that is not published is created in it, the stored counter is one
    more, and a recount of that category goes through and stores the
    former value again. *)
Theorem recount_takes_back_draft (u : User.t)
    (body : RecipeHandlers.RecipeData) (newId : string) (db : Db)
    (c : Category.t) :
  categories db !! RecipeHandlers.d_category body = Some c ->
  CategorySchema.validate c = true ->
  RecipeSchema.validate
    (RecipeHandlers.newDocument body (User._id u) newId) = true ->
  recipes db !! newId = None ->
  default Recipe.draft (RecipeHandlers.d_status body) <> Recipe.published ->
  Category.recipeCount c
  = Z.of_nat (countPublishedOfCategory (RecipeHandlers.d_category body) db) ->
  Category._id c = RecipeHandlers.d_category body ->
  let db' := (RecipeHandlers.createRecipe u body newId db).2 in
  exists c' recounted,
    categories db' !! RecipeHandlers.d_category body = Some c'
    /\ Category.recipeCount c' = (Category.recipeCount c + 1)%Z
    /\ (Category_updateRecipeCount
          {| Category.doc := c'; Category.modifiedPaths := [] |} db').1
       = Ok recounted
    /\ Category.recipeCount (Category.doc recounted) = Category.recipeCount c
    /\ Category.recipeCount
         <$> categories
               (Category_updateRecipeCount
                  {| Category.doc := c'; Category.modifiedPaths := [] |} db').2
             !! RecipeHandlers.d_category body
       = Some (Category.recipeCount c).
Proof.
  intros Hc Hvalc Hvalid Hfresh Hdraft Hexact Hid. cbn zeta.
  unfold RecipeHandlers.createRecipe.
  rewrite (bool_decide_eq_false_2 (_ = None)) by (by rewrite Hc).
  rewrite andb_false_r. unfold RecipeHandlers.Recipe_create.
  rewrite Hvalid. cbn [negb].
  change (Recipe._id (RecipeHandlers.newDocument body (User._id u) newId))
    with newId.
  rewrite Hfresh. unfold Recipe_save.
  set (this := RecipeHandlers.newDocument body (User._id u) newId).
  destruct (preSave_frame this) as (Hi & Hcat & _ & Hst & _).
  cbn [fst snd recipes categories users set_recipes set_categories].
  rewrite Hcat, Hi.
  change (Recipe._id this) with newId.
  change (Recipe.category this) with (RecipeHandlers.d_category body).
  rewrite bool_decide_eq_true_2 by (by rewrite Hc).
  cbn [fst snd recipes categories users set_recipes set_categories].
  set (db' := set_categories _ _).
  assert (countPublishedOfCategory (RecipeHandlers.d_category body) db'
          = countPublishedOfCategory (RecipeHandlers.d_category body) db)
    as Hcount.
  { unfold countPublishedOfCategory, db'.
    cbn [recipes set_recipes set_categories].
    rewrite (documents_insert_fresh _ _ _ Hfresh).
    rewrite filter_cons_False; [done|].
    rewrite Hst. intros [_ Hp]. by apply Hdraft. }
  set (counted :=
         Category.set_recipeCount
           (Z.of_nat (countPublishedOfCategory (RecipeHandlers.d_category body) db))
           (Category.inc_recipeCount 1 c)).
  assert (CategorySchema.validate counted = true) as Hvalid'.
  { apply validate_set_recipeCount; [lia|].
    apply validate_set_recipeCount; [lia|done]. }
  assert (Category._id counted = RecipeHandlers.d_category body
          /\ Category.recipeCount counted = Category.recipeCount c)
    as [Hid' Hrc'].
  { unfold counted. rewrite Hexact. by destruct c. }
  assert (Category_updateRecipeCount
            {| Category.doc := Category.inc_recipeCount 1 c;
               Category.modifiedPaths := [] |} db'
          = (Ok {| Category.doc := counted; Category.modifiedPaths := [] |},
             set_categories
               (match Category.parent counted with
                | Some p =>
                    alter (Category.addToSet_children (Category._id counted)) p
                      (<[Category._id counted := counted]> (categories db'))
                | None => <[Category._id counted := counted]> (categories db')
                end) db')) as Hrecount.
  { unfold Category_updateRecipeCount, Category.assign.
    cbn [Category.doc Category.modifiedPaths].
    assert (Category._id (Category.inc_recipeCount 1 c)
            = RecipeHandlers.d_category body) as -> by (by destruct c).
    rewrite Hcount. fold counted. unfold Category_save.
    cbn [Category.doc]. rewrite Hvalid'. cbn [negb].
    unfold Category.preSave, Category.preSave_slug, Category.preSave_path,
      Category.isModified.
    cbn [Category.doc Category.modifiedPaths].
    rewrite !bool_decide_eq_false_2 by set_solver.
    cbn [andb Category.doc]. done. }
  exists (Category.inc_recipeCount 1 c),
    {| Category.doc := counted; Category.modifiedPaths := [] |}.
  rewrite Hrecount. cbn [fst snd Category.doc categories set_categories].
  split_and!; try done.
  - unfold db'. cbn [categories set_categories].
    by rewrite lookup_alter_eq, Hc.
  - by destruct c.
  - rewrite Hid'. destruct (Category.parent counted) as [p|].
    + rewrite lookup_alter. case_decide as Hp.
      * subst p. rewrite lookup_insert_eq. cbn.
        by rewrite addToSet_children_recipeCount, Hrc'.
      * rewrite lookup_insert_eq. cbn. by rewrite Hrc'.
    + rewrite lookup_insert_eq. cbn. by rewrite Hrc'.
Qed.

Lemma recount_takes_back_draft_witness :
  exists c' recounted,
    categories
      (RecipeHandlers.createRecipe Examples.bob Samples.pancakes "r6"
         Examples.db_soup).2 !! "c3" = Some c'
    /\ Category.recipeCount c' = 2%Z
    /\ (Category_updateRecipeCount
          {| Category.doc := c'; Category.modifiedPaths := [] |}
          (RecipeHandlers.createRecipe Examples.bob Samples.pancakes "r6"
             Examples.db_soup).2).1
       = Ok recounted
    /\ Category.recipeCount (Category.doc recounted) = 1%Z.
Proof.
  destruct (recount_takes_back_draft Examples.bob Samples.pancakes "r6"
              Examples.db_soup Examples.soups)
    as (c' & recounted & Hc' & Hinc & Hok & Hback & _);
    [reflexivity|reflexivity|reflexivity|reflexivity|discriminate
    |reflexivity|reflexivity|].
  exists c', recounted.
  split; [exact Hc'|]. split; [exact Hinc|]. split; [exact Hok|exact Hback].
Defined.

(** ** The routes: middleware in front of the handlers *)

Section RouteProperties.

Variable isMongoId : string -> bool.
Variable verify : string -> Auth.Verified.
Variable now : Z.

(** What a request that passed protect has been checked for. *)
Lemma protect_ok (req : Auth.Request) (db : Db) (u : User.t) :
  Auth.protect verify now req db = Ok u ->
  exists token id iat,
    Auth.getToken req = Some token
    /\ verify token = Auth.Decoded id iat
    /\ users db !! id = Some u
    /\ User.accountStatus u = User.active
    /\ UserMethods.isLocked u now = false
    /\ UserMethods.changedPasswordAfter u iat = false.
Proof.
  unfold Auth.protect. cbv zeta.
  destruct (Auth.getToken req) as [[|a token]|]; cbn [JS.truthy_str negb];
    [done| |done].
  cbn [default]. destruct (verify _) as [id iat| | |] eqn:Hv; [|done..].
  destruct (users db !! id) as [cu|] eqn:Hu; [|done].
  case_bool_decide as Hact; [done|].
  destruct (UserMethods.isLocked cu now) eqn:Hl; [done|].
  destruct (UserMethods.changedPasswordAfter cu iat) eqn:Hc; [done|].
  intros [= <-]. exists (String a token), id, iat. split_and!; try done.
Qed.

(** The errors of protect. *)
Lemma protect_rejections (req : Auth.Request) (db : Db) (e : Error) :
  Auth.protect verify now req db = Err e ->
  exists msg status,
    e = AppError msg status
    /\ (status = 401 \/ status = 403 \/ status = 423)%Z
    /\ msg <> "You can only delete your own recipes".
Proof.
  unfold Auth.protect. cbv zeta.
  destruct (negb _); [intros [= <-]; eexists _, _; split_and!; eauto; done|].
  destruct (verify _) as [id iat| | |];
    [|intros [= <-]; eexists _, _; split_and!; eauto; done..].
  destruct (users db !! id) as [cu|];
    [|intros [= <-]; eexists _, _; split_and!; eauto; done].
  repeat (destruct (_ : bool);
          [intros [= <-]; eexists _, _; split_and!; eauto; done|]).
  done.
Qed.

End RouteProperties.

(** X27: DELETE /api/categories/:id changes the store, or answers a
    success, only for a request whose token belongs to a stored, active
    user with the role admin or moderator, and only for an id that the
    validator accepts. *)
Theorem DELETE_category_privileged (isMongoId : string -> bool)
    (verify : string -> Auth.Verified) (now : Z) (req : Auth.Request)
    (id : string) (db : Db) :
  let out := Routes.DELETE_category isMongoId verify now req id db in
  out.1 = Ok () \/ out.2 <> db ->
  exists u uid,
    Auth.protect verify now req db = Ok u
    /\ users db !! uid = Some u
    /\ User.accountStatus u = User.active
    /\ (User.role u = User.admin \/ User.role u = User.moderator)
    /\ isMongoId id = true.
Proof.
  cbn zeta. unfold Routes.DELETE_category, Routes.guard.
  destruct (Auth.protect verify now req db) as [u|e] eqn:Hp;
    [|intros [?|?]; done].
  destruct (protect_ok _ _ _ _ _ Hp) as (_ & uid & _ & _ & _ & Hu & Hact & _).
  unfold Middleware.restrictTo. case_bool_decide as Hrole; cbn [negb];
    [|intros [?|?]; done].
  unfold Routes.validateObjectId.
  destruct (isMongoId id) eqn:Hid; cbn [Middleware.validated];
    [|intros [?|?]; done].
  intros _. exists u, uid. split_and!; try done.
  apply elem_of_cons in Hrole as [?|Hrole]; [by left|].
  apply list_elem_of_singleton in Hrole. by right.
Qed.

Lemma DELETE_category_privileged_witness :
  exists u,
    Auth.protect Samples.verify 1700000100
      (Examples.bearer "root-token") Examples.db_soup = Ok u
    /\ (User.role u = User.admin \/ User.role u = User.moderator).
Proof.
  destruct (DELETE_category_privileged Samples.isSampleId Samples.verify
              1700000100 (Examples.bearer "root-token") "c2" Examples.db_soup)
    as (u & uid & Hp & _ & _ & Hrole & _); [left; reflexivity|].
  exists u. split; [exact Hp|exact Hrole].
Defined.

(** X28: DELETE /api/recipes/:id deletes for the author of the recipe
    and for an administrator only.  Behind checkOwnership the ownership
    test of the handler never fails: the route never answers the 403 of
    deleteRecipe. *)
Theorem DELETE_recipe_owner (isMongoId : string -> bool)
    (verify : string -> Auth.Verified) (now : Z) (req : Auth.Request)
    (id : string) (db : Db) :
  let out := Routes.DELETE_recipe isMongoId verify now req id db in
  (out.1 = Ok () \/ out.2 <> db ->
   exists u r,
     Auth.protect verify now req db = Ok u
     /\ recipes db !! id = Some r
     /\ (Recipe.author r = User._id u \/ User.role u = User.admin))
  /\ out.1 <> Err (AppError "You can only delete your own recipes" 403).
Proof.
  cbn zeta. unfold Routes.DELETE_recipe, Routes.guard.
  destruct (Auth.protect verify now req db) as [u|e] eqn:Hp.
  2:{ split; [intros [?|?]; done|]. cbn [fst].
      destruct (protect_rejections _ _ _ _ _ Hp) as (msg & st & -> & _ & Hmsg).
      intros [= Hm _]. by apply Hmsg. }
  unfold Routes.validateObjectId.
  destruct (isMongoId id); cbn [Middleware.validated];
    [|split; [intros [?|?]; done|done]].
  unfold Middleware.checkOwnership, RecipeHandlers.deleteRecipe.
  destruct (recipes db !! id) as [r|] eqn:Hr;
    [|split; [intros [?|?]; done|done]].
  case_bool_decide as Hadmin.
  - rewrite (bool_decide_eq_false_2 (User.role u ≠ User.admin))
      by (by intros H).
    rewrite andb_false_r. split; [|done].
    intros _. exists u, r. split_and!; try done. by right.
  - destruct (JS.truthy_str (Some (Recipe.author r))); cbn [negb orb];
      [|split; [intros [?|?]; done|done]].
    case_bool_decide as Hown; cbn [negb];
      [|split; [intros [?|?]; done|done]].
    rewrite (bool_decide_eq_false_2 (Recipe.author r ≠ User._id u))
      by (by intros H).
    cbn [andb]. split; [|done].
    intros _. exists u, r. split_and!; try done. by left.
Qed.

Lemma DELETE_recipe_owner_witness :
  exists u r,
    Auth.protect Samples.verify 1700000100
      (Examples.bearer "alice-token") Examples.db_soup = Ok u
    /\ recipes Examples.db_soup !! "r1" = Some r
    /\ (Recipe.author r = User._id u \/ User.role u = User.admin).
Proof.
  destruct (DELETE_recipe_owner Samples.isSampleId Samples.verify
              1700000100 (Examples.bearer "alice-token") "r1"
              Examples.db_soup) as [Hdel _].
  apply Hdel. left. reflexivity.
Defined.

(** X29: GET /api/recipes/:id runs without any authentication in front
    of it, so the handler sees every caller as anonymous: a private
    recipe is answered 403 to everybody, its author included, and every
    other recipe is returned with one more view, whoever asks. *)
Theorem GET_recipe_anonymous (isMongoId : string -> bool) (id : string)
    (r : Recipe.t) (db : Db) :
  isMongoId id = true ->
  recipes db !! id = Some r -> Recipe._id r = id ->
  let out := Routes.GET_recipe isMongoId id db in
  (Recipe.visibility r = Recipe.private ->
   out = (Err (AppError "You do not have permission to view this recipe" 403),
          db))
  /\ (Recipe.visibility r <> Recipe.private ->
      exists r',
        out.1 = Ok r'
        /\ Recipe.views r' = (Recipe.views r + 1)%Z
        /\ recipes out.2 !! id = Some r').
Proof.
  intros Hid Hr Hrid. cbn zeta.
  unfold Routes.GET_recipe, Routes.guard, Routes.validateObjectId.
  rewrite Hid. cbn [Middleware.validated].
  unfold RecipeHandlers.getRecipe. rewrite Hr. split.
  - intros Hv. by rewrite bool_decide_eq_true_2.
  - intros Hv. rewrite bool_decide_eq_false_2 by done.
    pose proof (incrementViews_fields r db) as Hinc. cbn zeta in Hinc.
    destruct (RecipeHandlers.incrementViews r db) as [r1 db1].
    cbn [fst snd] in *.
    destruct Hinc as (_ & Hviews & _ & _ & _ & _ & _ & Hrec & _).
    exists r1. split_and!; try done.
    rewrite Hrec, Hrid. apply lookup_insert_eq.
Qed.

Lemma GET_recipe_anonymous_witness :
  Routes.GET_recipe Samples.isSampleId "r4" Samples.db_mixed
  = (Err (AppError "You do not have permission to view this recipe" 403),
     Samples.db_mixed).
Proof.
  destruct (GET_recipe_anonymous Samples.isSampleId "r4" Samples.secret
              Samples.db_mixed) as [Hprivate _];
    [reflexivity|reflexivity|reflexivity|].
  apply Hprivate. reflexivity.
Defined.

Lemma tenths_bounds (tenths : Z) :
  (10 <= tenths <= 50)%Z -> (1 <= inject_Z tenths / 10 <= 5)%Q.
Proof.
  intros Ht. unfold Qle, Qdiv, Qmult, Qinv, inject_Z. cbn. lia.
Qed.

(** X30: POST /api/recipes/:id/rate keeps the ratings in range.  When
    every stored rating of the recipe lies between 1 and 5, a request
    that is answered with a success leaves it so, and the average in the
    answer lies between 1 and 5, with at least one rating counted. *)
Theorem POST_rate_in_range (isMongoId : string -> bool)
    (verify : string -> Auth.Verified) (now : Z) (req : Auth.Request)
    (id : string) (body : Routes.RatingBody) (r : Recipe.t) (db db' : Db)
    (data : RecipeController.RatingData) :
  recipes db !! id = Some r ->
  Forall (fun x => 1 <= Recipe.rating x <= 5)%Z (Recipe.ratings r) ->
  Routes.POST_rate isMongoId verify now req id body db = (Ok data, db') ->
  (1 <= RecipeController.data_averageRating data <= 5)%Q
  /\ (1 <= RecipeController.data_totalRatings data)%Z
  /\ exists r',
       recipes db' !! Recipe._id r = Some r'
       /\ Forall (fun x => 1 <= Recipe.rating x <= 5)%Z (Recipe.ratings r').
Proof.
  intros Hr Hall. unfold Routes.POST_rate, Routes.guard.
  destruct (Auth.protect verify now req db) as [u|e]; [|done].
  unfold Routes.validateObjectId.
  destruct (isMongoId id); cbn [Middleware.validated]; [|done].
  unfold Routes.validateRating.
  destruct (Routes.body_rating body) as [n|]; [|done].
  destruct (Z.leb_spec 1 n); [|done]. destruct (Z.leb_spec n 5); [|done].
  cbn [andb app default].
  destruct (match Routes.body_review body with Some _ => _ | None => _ end);
    [|done].
  cbn [Middleware.validated].
  unfold RecipeController.rateRecipe. rewrite Hr.
  case_bool_decide; [done|].
  pose proof (addRating_stored (User._id u) n
                (RecipeSchema.trimmed <$> Routes.body_review body) r db)
    as Hst. cbn zeta in Hst.
  destruct (RecipeController.addRating _ _ _ r db) as [r1 db1].
  cbn [fst snd] in Hst.
  destruct Hst as (Hstored & _ & _ & Hrs & Htot & Havg).
  intros [= <- <-].
  cbn [RecipeController.data_averageRating RecipeController.data_totalRatings].
  assert (Forall (fun x => 1 <= Recipe.rating x <= 5)%Z (Recipe.ratings r1))
    as Hall1.
  { rewrite Hrs. apply Forall_app. split.
    - apply Forall_forall. intros x [_ Hx]%list_elem_of_filter.
      rewrite Forall_forall in Hall. by apply Hall.
    - apply Forall_singleton. cbn. lia. }
  assert (Recipe.ratings r1 <> []) as Hne.
  { rewrite Hrs. by destruct (filter _ _). }
  split_and!.
  - rewrite Havg. unfold Spec.roundedMean. apply tenths_bounds.
    apply roundedMean_tenths.
    + by destruct (Recipe.ratings r1).
    + by apply Forall_fmap.
  - rewrite Havg. unfold Spec.roundedMean. apply tenths_bounds.
    apply roundedMean_tenths.
    + by destruct (Recipe.ratings r1).
    + by apply Forall_fmap.
  - rewrite Htot. destruct (Recipe.ratings r1); [done|]. cbn. lia.
  - by exists r1.
Qed.

Lemma POST_rate_in_range_witness :
  exists data db',
    Routes.POST_rate Samples.isSampleId Samples.verify 1700000100
      (Examples.bearer "root-token") "r1"
      {| Routes.body_rating := Some 4%Z; Routes.body_review := None |}
      Examples.db_soup = (Ok data, db')
    /\ (1 <= RecipeController.data_averageRating data <= 5)%Q.
Proof.
  destruct (Routes.POST_rate Samples.isSampleId Samples.verify 1700000100
              (Examples.bearer "root-token") "r1"
              {| Routes.body_rating := Some 4%Z; Routes.body_review := None |}
              Examples.db_soup) as [[data|e] db'] eqn:Hres;
    [|vm_compute in Hres; discriminate].
  exists data, db'. split; [reflexivity|].
  assert (recipes Examples.db_soup !! "r1" = Some Examples.soup) as Hr
    by reflexivity.
  assert (Forall (fun x => 1 <= Recipe.rating x <= 5)%Z
            (Recipe.ratings Examples.soup)) as Hall by constructor.
  destruct (POST_rate_in_range _ _ _ _ _ _ Examples.soup _ _ _
              Hr Hall Hres) as [Havg _].
  exact Havg.
Defined.
